(** * BinanceTradeBot: the advanced order engine, embedded and verified

    A shallow embedding of the strategy controllers of the trading bot
    ([src/advanced/grid_orders.py], [src/advanced/twap.py],
    [src/advanced/oco.py]) and of the order validator ([src/validation.py]),
    followed by the properties the specification states about them.

    Conventions of the embedding.
    - Python numbers.  The controllers never name a numeric type: prices and
      quantities are whatever the caller passes, and an [int] operand is
      promoted to the type of the other operand.  The controllers are
      therefore written once over an arithmetic [Py.Arith num]; [Py.binary64]
      is CPython's [float] (IEEE 754 double, the type the application
      passes), [Py.exact] is the same code run over the rationals, where no
      operation rounds.  The validator calls [float(...)] on its arguments
      and the risk and reward computation compares against float literals;
      both are embedded over binary64 only.
    - [x / y] raises [ZeroDivisionError] when [y == 0], and
      [OverflowError] when an [int] operand is too large to become a
      [float] or when the quotient of two [int]s is: the divisions of [Py]
      return [None] there, and the embedding follows the handler the
      exception reaches.
    - The exchange client returns a dictionary, or [None] on a failed
      request; it is an arbitrary function of the requests made so far.
      Every request is appended to the history, so that "a call was
      attempted" is a statement about the history.
    - A dictionary shared between a registry and a loop is one entry of the
      registry: every write goes through the registry, as it does through
      the shared object in Python.
    - [datetime.now()] and [time.time()] are the argument [now]. *)

From Stdlib Require Import ZArith QArith Qcanon Floats Ascii String List Lia Bool.
From stdpp Require Import base option list gmap strings pretty.

Set Warnings "-inexact-float".
Close Scope Q_scope.
Open Scope Z_scope.
Open Scope string_scope.

(* ================================================================== *)
(** * Python arithmetic *)
(* ================================================================== *)

Module Py.

(** The operations the controllers apply to prices and quantities. *)
Class Arith (num : Type) : Type := {
  of_int : Z -> num;            (* an [int] operand, promoted; applied
                                   to literals and where [promotes]
                                   holds *)
  promotes : Z -> bool;         (* promoting it raises no [OverflowError] *)
  ratio : Z -> Z -> option num; (* [m / n] for two [int]s, [n] not zero;
                                   [None] is [OverflowError] *)
  decimal : Z -> nat -> num;    (* the literal [m * 10^-e] *)
  add : num -> num -> num;
  sub : num -> num -> num;
  mul : num -> num -> num;
  quot : num -> num -> num;     (* the quotient, divisor not zero *)
  is_zero : num -> bool;        (* [x == 0] *)
  ltb : num -> num -> bool;     (* [x < y] *)
  leb : num -> num -> bool      (* [x <= y] *)
}.

Section Derived.
Context {num : Type} {arith : Arith num}.

(** [x / y]; [None] is [ZeroDivisionError]. *)
Definition truediv (x y : num) : option num :=
  if is_zero y then None else Some (quot x y).

(** [x / n] for an [int] divisor [n], which is promoted: [None] is
    [ZeroDivisionError] when [n] is zero (the promoted divisor is zero
    exactly then) and [OverflowError] when [n] is too large to be
    promoted. *)
Definition truediv_int (x : num) (n : Z) : option num :=
  if Z.eqb n 0 then None
  else if promotes n then Some (quot x (of_int n))
  else None.

(** [m / n] for two [int]s: neither is promoted, the quotient is rounded
    once; [None] is [ZeroDivisionError] or the [OverflowError] of a
    quotient too large. *)
Definition truediv_ints (m n : Z) : option num :=
  if Z.eqb n 0 then None else ratio m n.

(** [bool(x)] for a number. *)
Definition truthy (x : num) : bool := negb (is_zero x).

(** [x > y] and [x >= y] are the reflected comparisons. *)
Definition gtb (x y : num) : bool := ltb y x.
Definition geb (x y : num) : bool := leb y x.
End Derived.

(** [float(z)] for an integer [z]: the nearest double, ties to even. *)
Definition float_of_Z (z : Z) : float :=
  SF2Prim (binary_normalize prec emax z 0 false).

(** A rounding that left the range of the doubles: CPython raises
    [OverflowError] instead of returning an infinity. *)
Definition overflows (x : spec_float) : bool :=
  match x with
  | S754_infinity _ => true
  | _ => false
  end.

(** [float(z)] raises no [OverflowError]. *)
Definition float_promotes (z : Z) : bool :=
  negb (overflows (binary_normalize prec emax z 0 false)).

(** The double nearest to [m / n], ties to even, for [n] not zero: the
    quotient of the magnitudes is computed with enough bits and rounded
    once; a zero dividend gives a zero of the sign of the quotient. *)
Definition nearest_of_ratio (m n : Z) : spec_float :=
  let negative := xorb (Z.ltb m 0) (Z.ltb n 0) in
  match Z.abs m with
  | Z0 => S754_zero negative
  | a =>
      let '(q, e, l) := SFdiv_core_binary prec emax a 0 (Z.abs n) 0 in
      binary_round_aux prec emax negative q e l
  end.

(** [m / n] for two integers, [n] not zero. *)
Definition float_ratio (m n : Z) : option float :=
  let q := nearest_of_ratio m n in
  if overflows q then None else Some (SF2Prim q).

(** CPython's [float]. *)
#[export] Instance binary64 : Arith float := {|
  of_int := float_of_Z;
  promotes := float_promotes;
  ratio := float_ratio;
  decimal := fun m e => (float_of_Z m / float_of_Z (10 ^ Z.of_nat e))%float;
  add := PrimFloat.add;
  sub := PrimFloat.sub;
  mul := PrimFloat.mul;
  quot := PrimFloat.div;
  is_zero := fun x => PrimFloat.eqb x 0%float;
  ltb := PrimFloat.ltb;
  leb := PrimFloat.leb
|}.

(** The same operations over the rationals. *)
Definition Qc_ltb (x y : Qc) : bool :=
  match (x ?= y)%Qc with Lt => true | _ => false end.
Definition Qc_leb (x y : Qc) : bool :=
  match (x ?= y)%Qc with Gt => false | _ => true end.

#[export] Instance exact : Arith Qc := {|
  of_int := fun z => Q2Qc (inject_Z z);
  promotes := fun _ => true;
  ratio := fun m n => Some (Q2Qc (inject_Z m / inject_Z n));
  decimal := fun m e => Q2Qc (Qmake m (Z.to_pos (10 ^ Z.of_nat e)));
  add := Qcplus;
  sub := Qcminus;
  mul := Qcmult;
  quot := Qcdiv;
  is_zero := fun x => Qeq_bool x 0%Q;
  ltb := Qc_ltb;
  leb := Qc_leb
|}.

(** A float that is not a NaN. *)
Definition is_number (x : float) : Prop := Prim2SF x <> S754_nan.

(** Truthiness of an optional order id: [None] and [0] are falsy. *)
Definition truthy_id (o : option Z) : bool :=
  match o with
  | None => false
  | Some z => negb (Z.eqb z 0)
  end.

End Py.

(* ================================================================== *)
(** * The exchange gateway *)
(* ================================================================== *)

Module Gateway.
Section Gateway.
Context {num : Type}.

(** A request of [BinanceClient]; [place_order] drops keyword arguments
    that are [None]. *)
Inductive call : Type :=
| PlaceOrder (symbol side order_type : string) (quantity : num)
    (price : option num) (timeInForce : option string)
    (reduceOnly : option bool)
| CancelOrder (symbol : string) (order_id : Z)
| GetOrderStatus (symbol : string) (order_id : Z)
| GetTicker (symbol : string).

(** The fields of a response the controllers read.  [ticker_price] is
    [float(ticker['price'])]; [None] there is the [KeyError]. *)
Record reply : Type := {
  orderId : option Z;
  order_status : option string;
  ticker_price : option num
}.

(** The exchange answers a request knowing the requests before it;
    [None] is the failed request (or a falsy response). *)
Record world : Type := {
  exchange : list call -> call -> option reply;
  history : list call
}.

(** Computations that talk to the exchange. *)
Definition G (A : Type) : Type := world -> A * world.

Definition ret {A} (a : A) : G A := fun w => (a, w).

Definition bind {A B} (c : G A) (k : A -> G B) : G B :=
  fun w => let (a, w') := c w in k a w'.

Definition request (c : call) : G (option reply) :=
  fun w => (exchange w (history w) c,
            {| exchange := exchange w; history := history w ++ [c] |}).

End Gateway.

Arguments call : clear implicits.
Arguments reply : clear implicits.
Arguments world : clear implicits.
Arguments G : clear implicits.

Declare Scope gateway_scope.
Delimit Scope gateway_scope with G.
Notation "'let*' x ':=' c 'in' k" := (bind c (fun x => k))
  (at level 10, x pattern, c at level 100, k at level 200)
  : gateway_scope.

(** The requests a computation adds to the history. *)
Definition issued {num A} (c : G num A) (w : world num) : list (call num) :=
  drop (length (history w)) (history (snd (c w))).

(** [c] run in [w] returns [a] after making exactly the requests [cs]. *)
Definition emits {num A} (c : G num A) (w : world num) (a : A)
    (cs : list (call num)) : Prop :=
  c w = (a, {| exchange := exchange w; history := history w ++ cs |}).

End Gateway.

(** Status values shared by the controllers. *)
Inductive status : Type :=
| ACTIVE | RUNNING | STOPPING | STOPPED | COMPLETED | FAILED.

#[export] Instance status_eq_dec : EqDecision status.
Proof. solve_decision. Defined.

Definition terminal (s : status) : bool :=
  match s with
  | STOPPED | COMPLETED | FAILED => true
  | _ => false
  end.

(* ================================================================== *)
(** * Grid controller ([src/advanced/grid_orders.py]) *)
(* ================================================================== *)

Module Grid.
Import Py Gateway.
Local Open Scope gateway_scope.

Section Controller.
Context {num : Type} {arith : Arith num}.

(** One entry of [grid_config['levels']]. *)
Record level_data : Type := {
  level : Z;
  price : num;
  quantity : num;
  buy_order_id : option Z;
  sell_order_id : option Z;
  filled : bool
}.

(** The dictionary [grid_config]; [stop_time] and [stop_reason] are the
    keys [stop_grid] adds. *)
Record grid_config : Type := {
  grid_id : string;
  symbol : string;
  upper_price : num;
  lower_price : num;
  grid_levels : Z;
  total_quantity : num;
  quantity_per_level : num;
  price_increment : num;
  grid_type : string;
  take_profit_percentage : option num;
  levels : list level_data;
  start_time : Z;
  grid_status : status;
  total_profit : num;
  trades_executed : Z;
  stop_requested : bool;
  stop_time : option Z;
  stop_reason : option string
}.

(** The handler: the registry [active_grids] and the id counter. *)
Record GridOrderHandler : Type := {
  active_grids : gmap string grid_config;
  grid_counter : Z
}.

(** ** Field updates *)

Definition set_buy_order_id (v : option Z) (l : level_data) : level_data :=
  {| level := level l; price := price l; quantity := quantity l;
     buy_order_id := v; sell_order_id := sell_order_id l;
     filled := filled l |}.

Definition set_sell_order_id (v : option Z) (l : level_data) : level_data :=
  {| level := level l; price := price l; quantity := quantity l;
     buy_order_id := buy_order_id l; sell_order_id := v;
     filled := filled l |}.

Definition set_filled (v : bool) (l : level_data) : level_data :=
  {| level := level l; price := price l; quantity := quantity l;
     buy_order_id := buy_order_id l; sell_order_id := sell_order_id l;
     filled := v |}.

(** The mutable keys of a configuration, written together. *)
Definition update (g : grid_config) (ls : list level_data) (st : status)
    (profit : num) (trades : Z) (stop : bool) (t : option Z)
    (reason : option string) : grid_config :=
  {| grid_id := grid_id g; symbol := symbol g;
     upper_price := upper_price g; lower_price := lower_price g;
     grid_levels := grid_levels g; total_quantity := total_quantity g;
     quantity_per_level := quantity_per_level g;
     price_increment := price_increment g; grid_type := grid_type g;
     take_profit_percentage := take_profit_percentage g;
     levels := ls; start_time := start_time g; grid_status := st;
     total_profit := profit; trades_executed := trades;
     stop_requested := stop; stop_time := t; stop_reason := reason |}.

Definition set_levels (ls : list level_data) (g : grid_config) :=
  update g ls (grid_status g) (total_profit g) (trades_executed g)
    (stop_requested g) (stop_time g) (stop_reason g).

Definition set_status (st : status) (g : grid_config) :=
  update g (levels g) st (total_profit g) (trades_executed g)
    (stop_requested g) (stop_time g) (stop_reason g).

Definition set_total_profit (p : num) (g : grid_config) :=
  update g (levels g) (grid_status g) p (trades_executed g)
    (stop_requested g) (stop_time g) (stop_reason g).

Definition set_trades_executed (n : Z) (g : grid_config) :=
  update g (levels g) (grid_status g) (total_profit g) n
    (stop_requested g) (stop_time g) (stop_reason g).

Definition set_stop_requested (b : bool) (g : grid_config) :=
  update g (levels g) (grid_status g) (total_profit g) (trades_executed g)
    b (stop_time g) (stop_reason g).

Definition set_stop_time (t : option Z) (g : grid_config) :=
  update g (levels g) (grid_status g) (total_profit g) (trades_executed g)
    (stop_requested g) t (stop_reason g).

Definition set_stop_reason (r : option string) (g : grid_config) :=
  update g (levels g) (grid_status g) (total_profit g) (trades_executed g)
    (stop_requested g) (stop_time g) r.

(** Write to one level of a configuration (the level is an element of
    the configuration's list, shared with it). *)
Definition set_level (p : nat) (f : level_data -> level_data)
    (g : grid_config) : grid_config :=
  match levels g !! p with
  | Some l => set_levels (<[p := f l]> (levels g)) g
  | None => g
  end.

Definition set_grid (id : string) (g : grid_config)
    (h : GridOrderHandler) : GridOrderHandler :=
  {| active_grids := <[id := g]> (active_grids h);
     grid_counter := grid_counter h |}.

(** ** [start_grid]: the level ladder *)

(** [lower_price + (i * price_increment)]; the index [i] is below a level
    count that the divisions before the loop have promoted. *)
Definition level_price (lower increment : num) (i : Z) : num :=
  add lower (mul (of_int i) increment).

(** The loop [for i in range(grid_levels)] building [grid_levels_data]. *)
Definition grid_levels_data (lower increment per_level : num)
    (n : Z) : list level_data :=
  (fun i : nat =>
     {| level := Z.of_nat i;
        price := level_price lower increment (Z.of_nat i);
        quantity := per_level;
        buy_order_id := None; sell_order_id := None;
        filled := false |})
  <$> seq 0 (Z.to_nat n).

(** [f"GRID_{self.grid_counter}_{int(time.time())}"] *)
Definition make_grid_id (counter now : Z) : string :=
  "GRID_" +:+ pretty counter +:+ "_" +:+ pretty now.

(** The configuration [start_grid] stores, or [None] when one of the
    two divisions raises ([ZeroDivisionError] or [OverflowError]). *)
Definition new_grid_config (id sym : string) (upper lower : num)
    (n : Z) (total : num) (gtype : string) (tp : option num)
    (now : Z) : option grid_config :=
  match truediv_int (sub upper lower) (n - 1) with
  | None => None
  | Some increment =>
      match truediv_int total n with
      | None => None
      | Some per_level =>
          Some {| grid_id := id; symbol := sym;
                  upper_price := upper; lower_price := lower;
                  grid_levels := n; total_quantity := total;
                  quantity_per_level := per_level;
                  price_increment := increment; grid_type := gtype;
                  take_profit_percentage := tp;
                  levels := grid_levels_data lower increment per_level n;
                  start_time := now; grid_status := ACTIVE;
                  total_profit := of_int 0; trades_executed := 0;
                  stop_requested := false;
                  stop_time := None; stop_reason := None |}
      end
  end.

(** ** [_place_grid_order] and [_place_initial_grid_orders] *)

(** A [LIMIT] order, good till cancelled; [None] when the request
    failed (an exception of the client is logged and becomes [None]). *)
Definition _place_grid_order (sym side : string) (qty prc : num)
    : G num (option (reply num)) :=
  request (PlaceOrder sym side "LIMIT" qty (Some prc) (Some "GTC") None).

(** The counters [(successful_orders, total_orders_attempted)]. *)
Definition counters : Type := (Z * Z)%type.

Definition place_buy (sym : string) (l : level_data) (c : counters)
    : G num (level_data * counters) :=
  let* buy_order := _place_grid_order sym "BUY" (quantity l) (price l) in
  ret (match buy_order with
       | Some o => (set_buy_order_id (orderId o) l, (fst c + 1, snd c + 1))
       | None => (l, (fst c, snd c + 1))
       end).

Definition place_sell (sym : string) (l : level_data) (c : counters)
    : G num (level_data * counters) :=
  let* sell_order := _place_grid_order sym "SELL" (quantity l) (price l) in
  ret (match sell_order with
       | Some o => (set_sell_order_id (orderId o) l, (fst c + 1, snd c + 1))
       | None => (l, (fst c, snd c + 1))
       end).

(** The body of the loop over the levels, by grid type. *)
Definition place_initial_level (sym gtype : string) (current_price : num)
    (l : level_data) (c : counters) : G num (level_data * counters) :=
  if String.eqb gtype "NEUTRAL" then
    let* (l1, c1) :=
      (if ltb (price l) current_price then place_buy sym l c
       else ret (l, c)) in
    if gtb (price l) current_price then place_sell sym l1 c1
    else ret (l1, c1)
  else if String.eqb gtype "LONG" then
    if leb (price l) current_price then place_buy sym l c else ret (l, c)
  else if String.eqb gtype "SHORT" then
    if geb (price l) current_price then place_sell sym l c else ret (l, c)
  else ret (l, c).

Fixpoint place_initial_levels (sym gtype : string) (current_price : num)
    (ls : list level_data) (c : counters)
    : G num (list level_data * counters) :=
  match ls with
  | [] => ret ([], c)
  | l :: rest =>
      let* (l', c') := place_initial_level sym gtype current_price l c in
      let* (rest', c'') :=
        place_initial_levels sym gtype current_price rest c' in
      ret (l' :: rest', c'')
  end.

(** [success_rate >= 0.7], the rate being the [float] quotient of the
    two integer counters, or the integer [0] when nothing was
    attempted. *)
Definition success_rate_ok (c : counters) : bool :=
  if Z.ltb 0 (snd c) then
    match float_ratio (fst c) (snd c) with
    | Some success_rate => PrimFloat.leb 0.7 success_rate
    | None => false
    end
  else false.

Definition _place_initial_grid_orders (id : string) (h : GridOrderHandler)
    : G num (bool * GridOrderHandler) :=
  match active_grids h !! id with
  | None => ret (false, h)
  | Some g =>
      let* ticker := request (GetTicker (symbol g)) in
      match ticker with
      | None => ret (false, h)
      | Some t =>
          match ticker_price t with
          | None => ret (false, h)
          | Some current_price =>
              let* (ls, c) :=
                place_initial_levels (symbol g) (grid_type g)
                  current_price (levels g) (0, 0) in
              ret (success_rate_ok c, set_grid id (set_levels ls g) h)
          end
      end
  end.

(** [start_grid]; the monitoring thread it starts on success runs
    [monitor_iteration] below. *)
Definition start_grid (sym : string) (upper lower : num) (n : Z)
    (total : num) (gtype : string) (tp : option num) (now : Z)
    (h : GridOrderHandler) : G num (option string * GridOrderHandler) :=
  let h1 := {| active_grids := active_grids h;
               grid_counter := grid_counter h + 1 |} in
  let id := make_grid_id (grid_counter h1) now in
  match new_grid_config id sym upper lower n total gtype tp now with
  | None => ret (None, h1)
  | Some g =>
      let* (success, h2) :=
        _place_initial_grid_orders id (set_grid id g h1) in
      if success : bool then ret (Some id, h2)
      else ret (None, {| active_grids := delete id (active_grids h2);
                         grid_counter := grid_counter h2 |})
  end.

(** ** Fill handling *)

(** [lst[i]] for a Python integer [i]: the position read, counting from
    the end for a negative index; [None] is [IndexError]. *)
Definition py_index {A} (lst : list A) (i : Z) : option nat :=
  let n := Z.of_nat (length lst) in
  if (Z.leb 0 i && Z.ltb i n)%bool then Some (Z.to_nat i)
  else if (Z.leb (- n) i && Z.ltb i 0)%bool then Some (Z.to_nat (n + i))
  else None.

(** [_handle_buy_fill(grid_id, level_data)], [level_data] being the
    element at position [p] of the registered configuration.  A missing
    registry entry raises [KeyError] before any write; an [IndexError]
    at the next level leaves the writes made so far. *)
Definition _handle_buy_fill (id : string) (p : nat) (h : GridOrderHandler)
    : G num GridOrderHandler :=
  match active_grids h !! id with
  | None => ret h
  | Some g =>
      match levels g !! p with
      | None => ret h
      | Some l =>
          let g1 := set_trades_executed (trades_executed g + 1)
                      (set_level p (set_filled true) g) in
          let next_level_index := level l + 1 in
          if Z.ltb next_level_index (Z.of_nat (length (levels g1))) then
            match py_index (levels g1) next_level_index with
            | None => ret (set_grid id g1 h)
            | Some q =>
                match levels g1 !! q with
                | None => ret (set_grid id g1 h)
                | Some next_level =>
                    let* g2 :=
                      (if negb (truthy_id (sell_order_id next_level)) then
                         let* sell_order :=
                           _place_grid_order (symbol g) "SELL"
                             (quantity l) (price next_level) in
                         ret (match sell_order with
                              | Some o =>
                                  set_level q
                                    (set_sell_order_id (orderId o)) g1
                              | None => g1
                              end)
                       else ret g1) in
                    ret (set_grid id
                           (set_level p (set_buy_order_id None) g2) h)
                end
            end
          else
            ret (set_grid id (set_level p (set_buy_order_id None) g1) h)
      end
  end.

(** [_handle_sell_fill(grid_id, level_data)]. *)
Definition _handle_sell_fill (id : string) (p : nat) (h : GridOrderHandler)
    : G num GridOrderHandler :=
  match active_grids h !! id with
  | None => ret h
  | Some g =>
      match levels g !! p with
      | None => ret h
      | Some l =>
          let profit := mul (price_increment g) (quantity l) in
          let g1 :=
            set_level p (set_filled true)
              (set_trades_executed (trades_executed g + 1)
                 (set_total_profit (add (total_profit g) profit) g)) in
          let prev_level_index := level l - 1 in
          if Z.leb 0 prev_level_index then
            match py_index (levels g1) prev_level_index with
            | None => ret (set_grid id g1 h)
            | Some q =>
                match levels g1 !! q with
                | None => ret (set_grid id g1 h)
                | Some prev_level =>
                    let* g2 :=
                      (if negb (truthy_id (buy_order_id prev_level)) then
                         let* buy_order :=
                           _place_grid_order (symbol g) "BUY"
                             (quantity l) (price prev_level) in
                         ret (match buy_order with
                              | Some o =>
                                  set_level q
                                    (set_buy_order_id (orderId o)) g1
                              | None => g1
                              end)
                       else ret g1) in
                    ret (set_grid id
                           (set_level p (set_sell_order_id None) g2) h)
                end
            end
          else
            ret (set_grid id (set_level p (set_sell_order_id None) g1) h)
      end
  end.

(** [status and status.get('status') == 'FILLED'] *)
Definition is_filled (r : option (reply num)) : bool :=
  match r with
  | Some o => bool_decide (order_status o = Some "FILLED")
  | None => false
  end.

(** The order id a truthy reference holds. *)
Definition open_order (o : option Z) : option Z :=
  if truthy_id o then o else None.

(** The order a level of a registered grid holds in the given field. *)
Definition open_ref (field : level_data -> option Z) (id : string)
    (p : nat) (h : GridOrderHandler) : option Z :=
  match active_grids h !! id with
  | Some g =>
      match levels g !! p with
      | Some l => open_order (field l)
      | None => None
      end
  | None => None
  end.

(** [_check_level_orders(grid_id, level_data)]: the buy order first,
    then the sell order the level holds after the buy was handled. *)
Definition _check_level_orders (id : string) (p : nat)
    (h : GridOrderHandler) : G num GridOrderHandler :=
  match active_grids h !! id with
  | None => ret h
  | Some g =>
      let* h1 :=
        (match open_ref buy_order_id id p h with
         | Some oid =>
             let* buy_status := request (GetOrderStatus (symbol g) oid) in
             if is_filled buy_status then _handle_buy_fill id p h
             else ret h
         | None => ret h
         end) in
      match open_ref sell_order_id id p h1 with
      | Some oid =>
          let* sell_status := request (GetOrderStatus (symbol g) oid) in
          if is_filled sell_status then _handle_sell_fill id p h1
          else ret h1
      | None => ret h1
      end
  end.

(** ** [stop_grid] *)

(** The body of the cancel loop: a truthy reference is cancelled and
    cleared whatever the exchange answers. *)
Definition cancel_level (sym : string) (l : level_data)
    : G num level_data :=
  let* l1 :=
    (match open_order (buy_order_id l) with
     | Some oid =>
         let* _ := request (CancelOrder sym oid) in
         ret (set_buy_order_id None l)
     | None => ret l
     end) in
  match open_order (sell_order_id l1) with
  | Some oid =>
      let* _ := request (CancelOrder sym oid) in
      ret (set_sell_order_id None l1)
  | None => ret l1
  end.

Fixpoint cancel_levels (sym : string) (ls : list level_data)
    : G num (list level_data) :=
  match ls with
  | [] => ret []
  | l :: rest =>
      let* l' := cancel_level sym l in
      let* rest' := cancel_levels sym rest in
      ret (l' :: rest')
  end.

(** [stop_grid(grid_id, reason)] *)
Definition stop_grid (id reason : string) (now : Z) (h : GridOrderHandler)
    : G num (bool * GridOrderHandler) :=
  match active_grids h !! id with
  | None => ret (false, h)
  | Some g =>
      let g1 := set_status STOPPING (set_stop_requested true g) in
      let* ls := cancel_levels (symbol g1) (levels g1) in
      let g2 :=
        set_stop_reason (Some reason)
          (set_stop_time (Some now)
             (set_status STOPPED (set_levels ls g1))) in
      ret (true, set_grid id g2 h)
  end.

(** ** The monitoring loop *)

(** [bool(x)] for an optional number. *)
Definition truthy_opt (x : option num) : bool :=
  match x with
  | Some v => truthy v
  | None => false
  end.

(** [_check_take_profit(grid_id)]; a zero investment raises
    [ZeroDivisionError], which is logged. *)
Definition _check_take_profit (id : string) (now : Z)
    (h : GridOrderHandler) : G num GridOrderHandler :=
  match active_grids h !! id with
  | None => ret h
  | Some g =>
      match take_profit_percentage g with
      | None => ret h
      | Some tp =>
          if negb (truthy tp) then ret h
          else
            let total_investment :=
              mul (total_quantity g) (lower_price g) in
            match truediv (total_profit g) total_investment with
            | None => ret h
            | Some ratio =>
                let profit_percentage := mul ratio (of_int 100) in
                if geb profit_percentage tp then
                  let* (_, h') := stop_grid id "TAKE_PROFIT" now h in
                  ret h'
                else ret h
            end
      end
  end.

(** [for level_data in grid_config['levels']: _check_level_orders(...)] *)
Fixpoint check_levels (id : string) (ps : list nat) (h : GridOrderHandler)
    : G num GridOrderHandler :=
  match ps with
  | [] => ret h
  | p :: rest =>
      let* h1 := _check_level_orders id p h in
      check_levels id rest h1
  end.

(** The guard of the [while] loop of [_monitor_grid]. *)
Definition monitoring (g : grid_config) : bool :=
  bool_decide (grid_status g = ACTIVE) && negb (stop_requested g).

(** One turn of the loop of [_monitor_grid]: nothing once the guard
    fails (the loop has ended). *)
Definition monitor_iteration (id : string) (now : Z)
    (h : GridOrderHandler) : G num GridOrderHandler :=
  match active_grids h !! id with
  | None => ret h
  | Some g =>
      if monitoring g then
        let* h1 := check_levels id (seq 0 (length (levels g))) h in
        match active_grids h1 !! id with
        | Some g1 =>
            if truthy_opt (take_profit_percentage g1)
            then _check_take_profit id now h1
            else ret h1
        | None => ret h1
        end
      else ret h
  end.

(** ** Status queries and clean-up *)

(** The dictionary [status_info] of [get_grid_status]. *)
Record grid_status_info : Type := {
  info_grid_id : string;
  info_symbol : string;
  info_status : status;
  info_grid_type : string;
  info_upper_price : num;
  info_lower_price : num;
  info_grid_levels : Z;
  info_total_quantity : num;
  info_total_profit : num;
  info_profit_percentage : num;
  info_trades_executed : Z;
  active_buy_orders : nat;
  active_sell_orders : nat;
  filled_levels : nat;
  runtime_seconds : Z;
  info_start_time : Z
}.

(** [sum(1 for level in levels if test(level))] *)
Definition count_levels (test : level_data -> bool) (ls : list level_data)
    : nat :=
  length (List.filter test ls).

(** [(total_profit / total_investment) * 100 if total_investment > 0
    else 0]; [None] is the [ZeroDivisionError] of the division. *)
Definition profit_percentage_of (g : grid_config) : option num :=
  let total_investment := mul (total_quantity g) (lower_price g) in
  if gtb total_investment (of_int 0) then
    match truediv (total_profit g) total_investment with
    | Some ratio => Some (mul ratio (of_int 100))
    | None => None
    end
  else Some (of_int 0).

(** [get_grid_status(grid_id)]; [None] for an unknown id and when an
    operation raises. *)
Definition get_grid_status (id : string) (now : Z) (h : GridOrderHandler)
    : option grid_status_info :=
  match active_grids h !! id with
  | None => None
  | Some g =>
      match profit_percentage_of g with
      | None => None
      | Some profit_percentage =>
          Some {| info_grid_id := id;
                  info_symbol := symbol g;
                  info_status := grid_status g;
                  info_grid_type := grid_type g;
                  info_upper_price := upper_price g;
                  info_lower_price := lower_price g;
                  info_grid_levels := grid_levels g;
                  info_total_quantity := total_quantity g;
                  info_total_profit := total_profit g;
                  info_profit_percentage := profit_percentage;
                  info_trades_executed := trades_executed g;
                  active_buy_orders :=
                    count_levels (fun l => truthy_id (buy_order_id l))
                      (levels g);
                  active_sell_orders :=
                    count_levels (fun l => truthy_id (sell_order_id l))
                      (levels g);
                  filled_levels := count_levels filled (levels g);
                  runtime_seconds := now - start_time g;
                  info_start_time := start_time g |}
      end
  end.

(** [get_all_active_grids()]: the snapshots of the grids whose status is
    ACTIVE or STOPPING. *)
Definition get_all_active_grids (now : Z) (h : GridOrderHandler)
    : gmap string grid_status_info :=
  map_imap
    (fun (id : string) (_ : grid_config) =>
       match get_grid_status id now h with
       | Some info =>
           if bool_decide (info_status info = ACTIVE)
              || bool_decide (info_status info = STOPPING)
           then Some info else None
       | None => None
       end)
    (active_grids h).

(** The test of [cleanup_stopped_grids]: STOPPED, with a stop time more
    than 3600 seconds old. *)
Definition expired (now : Z) (g : grid_config) : bool :=
  bool_decide (grid_status g = STOPPED)
  && match stop_time g with
     | Some t => Z.ltb 3600 (now - t)
     | None => false
     end.

(** [cleanup_stopped_grids()]: the number of grids removed and the handler
    without them. *)
Definition cleanup_stopped_grids (now : Z) (h : GridOrderHandler)
    : nat * GridOrderHandler :=
  (size (filter (fun kv : string * grid_config => expired now kv.2 = true)
           (active_grids h)),
   {| active_grids :=
        filter (fun kv : string * grid_config => expired now kv.2 <> true)
          (active_grids h);
      grid_counter := grid_counter h |}).

(** What of a level no operation on a running grid changes. *)
Definition rung (l : level_data) : Z * num * num :=
  (level l, price l, quantity l).

(** What of a configuration only [start_grid] sets. *)
Definition same_setup (g g' : grid_config) : Prop :=
  grid_id g' = grid_id g /\ symbol g' = symbol g
  /\ upper_price g' = upper_price g /\ lower_price g' = lower_price g
  /\ grid_levels g' = grid_levels g /\ total_quantity g' = total_quantity g
  /\ quantity_per_level g' = quantity_per_level g
  /\ price_increment g' = price_increment g /\ grid_type g' = grid_type g
  /\ take_profit_percentage g' = take_profit_percentage g
  /\ start_time g' = start_time g
  /\ rung <$> levels g' = rung <$> levels g.

(** [h'] is [h] after operations on the grid [id]: the counter and the
    other grids are the same, and the grid [id], if registered, is still
    registered with the same setup. *)
Definition evolves (id : string) (h h' : GridOrderHandler) : Prop :=
  grid_counter h' = grid_counter h
  /\ (forall id' : string,
        id' <> id -> active_grids h' !! id' = active_grids h !! id')
  /\ match active_grids h !! id with
     | Some g =>
         exists g' : grid_config,
           active_grids h' !! id = Some g' /\ same_setup g g'
     | None => active_grids h' !! id = None
     end.

(** The status queries a monitoring pass makes for one level that does not
    change meanwhile. *)
Definition status_requests (sym : string) (l : level_data)
    : list (call num) :=
  match open_order (buy_order_id l) with
  | Some oid => [GetOrderStatus sym oid]
  | None => []
  end ++
  match open_order (sell_order_id l) with
  | Some oid => [GetOrderStatus sym oid]
  | None => []
  end.

(** The test of [_check_take_profit], for a configuration. *)
Definition take_profit_reached (g : grid_config) : bool :=
  match take_profit_percentage g with
  | Some tp =>
      truthy tp
      && match truediv (total_profit g)
                 (mul (total_quantity g) (lower_price g)) with
         | Some ratio => geb (mul ratio (of_int 100)) tp
         | None => false
         end
  | None => false
  end.

(** ** Vocabulary of the properties *)

(** The request [_place_grid_order] makes for a level. *)
Definition limit_order (sym sd : string) (l : level_data) : call num :=
  PlaceOrder sym sd "LIMIT" (quantity l) (Some (price l)) (Some "GTC")
    None.

(** The orders initial placement attempts at one level. *)
Definition initial_orders_at (sym gtype : string) (current_price : num)
    (l : level_data) : list (call num) :=
  if String.eqb gtype "NEUTRAL" then
    (if ltb (price l) current_price then [limit_order sym "BUY" l]
     else [])
    ++ (if gtb (price l) current_price then [limit_order sym "SELL" l]
        else [])
  else if String.eqb gtype "LONG" then
    if leb (price l) current_price then [limit_order sym "BUY" l] else []
  else if String.eqb gtype "SHORT" then
    if geb (price l) current_price then [limit_order sym "SELL" l] else []
  else [].

(** The cancel requests due for one level: its open buy, then its open
    sell. *)
Definition cancel_requests (sym : string) (l : level_data)
    : list (call num) :=
  match open_order (buy_order_id l) with
  | Some oid => [CancelOrder sym oid]
  | None => []
  end ++
  match open_order (sell_order_id l) with
  | Some oid => [CancelOrder sym oid]
  | None => []
  end.

(** A level that holds no open order. *)
Definition no_open_order (l : level_data) : Prop :=
  open_order (buy_order_id l) = None
  /\ open_order (sell_order_id l) = None.

(** The cancellation due for the reference a level holds: one request for
    an order id other than zero, none for [None] and for the id 0, which
    Python reads as false. *)
Definition cancel_of (sym : string) (ref : option Z) : list (call num) :=
  match ref with
  | Some 0 => []
  | Some oid => [CancelOrder sym oid]
  | None => []
  end.

(** The reference once [stop_grid] has passed: [None], except that the
    id 0 was not taken for an order and stays. *)
Definition after_cancel (ref : option Z) : option Z :=
  match ref with
  | Some 0 => Some 0
  | _ => None
  end.

(** Each price is below the next one. *)
Definition strictly_increasing (xs : list num) : Prop :=
  forall (i : nat) (a b : num),
    xs !! i = Some a -> xs !! S i = Some b -> ltb a b = true.

(** Levels numbered by their position, as [start_grid] builds them. *)
Definition numbered (ls : list level_data) : Prop :=
  forall (i : nat) (l : level_data),
    ls !! i = Some l -> level l = Z.of_nat i.

End Controller.

Arguments level_data : clear implicits.
Arguments grid_config : clear implicits.
Arguments GridOrderHandler : clear implicits.
Arguments grid_status_info : clear implicits.

End Grid.

(* ================================================================== *)
(** * TWAP controller ([src/advanced/twap.py]) *)
(* ================================================================== *)

Module TWAP.
Import Py Gateway.
Local Open Scope gateway_scope.

Section Controller.
Context {num : Type} {arith : Arith num}.

(** The dictionary [twap_config]; [end_time] is the key the execution
    thread adds.  [interval_duration] sets the length of the sleeps. *)
Record twap_config : Type := {
  twap_id : string;
  symbol : string;
  side : string;
  total_quantity : num;
  quantity_per_interval : num;
  duration_minutes : Z;
  intervals : Z;
  interval_duration : num;
  order_type : string;
  limit_price : option num;
  start_time : Z;
  executed_quantity : num;
  executed_intervals : Z;
  orders : list (reply num);
  twap_status : status;
  stop_requested : bool;
  end_time : option Z
}.

Record TWAPOrderHandler : Type := {
  active_twaps : gmap string twap_config;
  twap_counter : Z
}.

(** The mutable keys, written together. *)
Definition update (c : twap_config) (q : num) (n : Z)
    (os : list (reply num)) (st : status) (stop : bool)
    (t : option Z) : twap_config :=
  {| twap_id := twap_id c; symbol := symbol c; side := side c;
     total_quantity := total_quantity c;
     quantity_per_interval := quantity_per_interval c;
     duration_minutes := duration_minutes c; intervals := intervals c;
     interval_duration := interval_duration c;
     order_type := order_type c; limit_price := limit_price c;
     start_time := start_time c;
     executed_quantity := q; executed_intervals := n; orders := os;
     twap_status := st; stop_requested := stop; end_time := t |}.

Definition set_twap (id : string) (c : twap_config)
    (h : TWAPOrderHandler) : TWAPOrderHandler :=
  {| active_twaps := <[id := c]> (active_twaps h);
     twap_counter := twap_counter h |}.

(** [f"TWAP_{self.twap_counter}_{int(time.time())}"] *)
Definition make_twap_id (counter now : Z) : string :=
  "TWAP_" +:+ pretty counter +:+ "_" +:+ pretty now.

(** [start_twap]: the configuration is registered and the execution
    thread started.  The two divisions come first, [total_quantity /
    intervals] and then [duration_minutes / intervals], a quotient of two
    [int]s; when one raises ([ZeroDivisionError] for [intervals = 0],
    [OverflowError]) the exception is logged and [None] is returned, the
    counter having advanced. *)
Definition start_twap (sym sd : string) (total : num)
    (minutes n : Z) (otype : string) (limit : option num) (now : Z)
    (h : TWAPOrderHandler) : option string * TWAPOrderHandler :=
  let h1 := {| active_twaps := active_twaps h;
               twap_counter := twap_counter h + 1 |} in
  let id := make_twap_id (twap_counter h1) now in
  match truediv_int total n with
  | None => (None, h1)
  | Some per_interval =>
      match truediv_ints minutes n with
      | None => (None, h1)
      | Some duration =>
          (Some id,
           set_twap id
             {| twap_id := id; symbol := sym; side := sd;
                total_quantity := total;
                quantity_per_interval := per_interval;
                duration_minutes := minutes; intervals := n;
                interval_duration := duration;
                order_type := otype; limit_price := limit;
                start_time := now;
                executed_quantity := of_int 0; executed_intervals := 0;
                orders := []; twap_status := RUNNING;
                stop_requested := false; end_time := None |} h1)
      end
  end.

(** [stop_twap(twap_id)] *)
Definition stop_twap (id : string) (h : TWAPOrderHandler)
    : bool * TWAPOrderHandler :=
  match active_twaps h !! id with
  | None => (false, h)
  | Some c =>
      (true,
       set_twap id
         (update c (executed_quantity c) (executed_intervals c)
            (orders c) STOPPED true (end_time c)) h)
  end.

(** [_get_adaptive_price(symbol, side, base_price)]: without a ticker,
    or when an operation raises (no ['price'] key, a [None] base
    price), the base price is returned. *)
Definition _get_adaptive_price (sym sd : string) (base : option num)
    : G num (option num) :=
  let* ticker := request (GetTicker sym) in
  ret (match ticker with
       | None => base
       | Some t =>
           match ticker_price t, base with
           | Some market_price, Some base_price =>
               if String.eqb sd "BUY" then
                 let m := mul market_price (decimal 1001 3) in
                 Some (if ltb m base_price then m else base_price)
               else
                 let m := mul market_price (decimal 999 3) in
                 Some (if gtb m base_price then m else base_price)
           | _, _ => base
           end
       end).

(** The order of one interval: [MarketOrderHandler.place_order] or
    [_place_limit_order] at the adaptive price. *)
Definition place_interval_order (c : twap_config)
    : G num (option (reply num)) :=
  if String.eqb (order_type c) "MARKET" then
    request (PlaceOrder (symbol c) (side c) "MARKET"
               (quantity_per_interval c) None None (Some false))
  else
    let* current_price :=
      _get_adaptive_price (symbol c) (side c) (limit_price c) in
    request (PlaceOrder (symbol c) (side c) "LIMIT"
               (quantity_per_interval c) current_price (Some "IOC") None).

(** The body of the loop of [_execute_twap], after the stop check.
    The quantity added is the one read before the loop. *)
Definition execute_interval (id : string) (h : TWAPOrderHandler)
    : G num TWAPOrderHandler :=
  match active_twaps h !! id with
  | None => ret h
  | Some c =>
      let* order_response := place_interval_order c in
      ret (match order_response with
           | Some o =>
               set_twap id
                 (update c
                    (add (executed_quantity c) (quantity_per_interval c))
                    (executed_intervals c + 1)
                    (orders c ++ [o])
                    (twap_status c) (stop_requested c) (end_time c)) h
           | None => h
           end)
  end.

(** [for interval in range(...)]: [ks] are the intervals still to run;
    [stops k] tells whether another thread calls [stop_twap] while
    interval [k] is placed or slept after. *)
Fixpoint twap_loop (id : string) (stops : nat -> bool) (ks : list nat)
    (h : TWAPOrderHandler) : G num TWAPOrderHandler :=
  match ks with
  | [] => ret h
  | k :: rest =>
      match active_twaps h !! id with
      | None => ret h
      | Some c =>
          if stop_requested c then ret h
          else
            let* h1 := execute_interval id h in
            let h2 := if stops k then snd (stop_twap id h1) else h1 in
            twap_loop id stops rest h2
      end
  end.

(** The end of [_execute_twap]: "Mark TWAP as completed". *)
Definition mark_completed (id : string) (now : Z) (h : TWAPOrderHandler)
    : TWAPOrderHandler :=
  match active_twaps h !! id with
  | None => h
  | Some c =>
      set_twap id
        (update c (executed_quantity c) (executed_intervals c)
           (orders c) COMPLETED (stop_requested c) (Some now)) h
  end.

(** [_execute_twap(twap_id)], the thread [start_twap] starts. *)
Definition _execute_twap (id : string) (stops : nat -> bool) (now : Z)
    (h : TWAPOrderHandler) : G num TWAPOrderHandler :=
  match active_twaps h !! id with
  | None => ret h
  | Some c =>
      let* h1 :=
        twap_loop id stops (seq 0 (Z.to_nat (intervals c))) h in
      ret (mark_completed id now h1)
  end.

(** ** Clean-up *)

(** The test of [cleanup_completed_twaps]: COMPLETED or FAILED, with an end
    time more than one hour old. *)
Definition expired (now : Z) (c : twap_config) : bool :=
  (bool_decide (twap_status c = COMPLETED)
   || bool_decide (twap_status c = FAILED))
  && match end_time c with
     | Some t => Z.ltb 3600 (now - t)
     | None => false
     end.

(** [cleanup_completed_twaps()]: the number of TWAPs removed and the
    handler without them. *)
Definition cleanup_completed_twaps (now : Z) (h : TWAPOrderHandler)
    : nat * TWAPOrderHandler :=
  (size (filter (fun kv : string * twap_config => expired now kv.2 = true)
           (active_twaps h)),
   {| active_twaps :=
        filter (fun kv : string * twap_config => expired now kv.2 <> true)
          (active_twaps h);
      twap_counter := twap_counter h |}).

(** The market order of one interval. *)
Definition market_order (c : twap_config) : call num :=
  PlaceOrder (symbol c) (side c) "MARKET" (quantity_per_interval c) None None
    (Some false).

(** ** Vocabulary of the properties *)

(** [acc] after [k] times [acc += q]. *)
Fixpoint accumulate (k : nat) (q acc : num) : num :=
  match k with
  | O => acc
  | S k' => accumulate k' q (add acc q)
  end.

(** [c'] is [c] after at most [k] more executed intervals. *)
Definition advanced (c c' : twap_config) (k : nat) : Prop :=
  quantity_per_interval c' = quantity_per_interval c
  /\ intervals c' = intervals c
  /\ total_quantity c' = total_quantity c
  /\ exists n : nat,
       (n <= k)%nat
       /\ executed_intervals c' = executed_intervals c + Z.of_nat n
       /\ executed_quantity c' =
            accumulate n (quantity_per_interval c) (executed_quantity c).

End Controller.

Arguments twap_config : clear implicits.
Arguments TWAPOrderHandler : clear implicits.

End TWAP.

(* ================================================================== *)
(** * Order validator ([src/validation.py]) *)
(* ================================================================== *)

Module Validation.
Import Py.

(** ** Strings (ASCII) *)

(** [str.upper()] *)
Definition upper_char (c : ascii) : ascii :=
  let n := Ascii.N_of_ascii c in
  if (N.leb 97 n && N.leb n 122)%bool then Ascii.ascii_of_N (n - 32) else c.

Fixpoint upper (s : string) : string :=
  match s with
  | EmptyString => EmptyString
  | String c rest => String (upper_char c) (upper rest)
  end.

(** The characters [str.strip()] removes. *)
Definition is_space (c : ascii) : bool :=
  let n := Ascii.N_of_ascii c in
  ((N.leb 9 n && N.leb n 13) || (N.leb 28 n && N.leb n 32))%bool.

Fixpoint lstrip (s : string) : string :=
  match s with
  | EmptyString => EmptyString
  | String c rest => if is_space c then lstrip rest else s
  end.

(** [rstrip], as a right fold: a space is dropped when nothing is kept
    after it. *)
Fixpoint rstrip (s : string) : string :=
  match s with
  | EmptyString => EmptyString
  | String c rest =>
      match rstrip rest with
      | EmptyString => if is_space c then EmptyString else String c EmptyString
      | kept => String c kept
      end
  end.

Definition strip (s : string) : string := rstrip (lstrip s).

(** ** The rule table *)

Record symbol_rules : Type := {
  min_qty : float;
  max_qty : float;
  tick_size : float
}.

(** [self.valid_symbols] *)
Definition valid_symbols : list (string * symbol_rules) :=
  [ ("BTCUSDT", {| min_qty := 0.001; max_qty := 1000; tick_size := 0.01 |});
    ("ETHUSDT", {| min_qty := 0.001; max_qty := 10000; tick_size := 0.01 |});
    ("ADAUSDT", {| min_qty := 1; max_qty := 1000000; tick_size := 0.0001 |});
    ("SOLUSDT", {| min_qty := 0.01; max_qty := 100000; tick_size := 0.001 |});
    ("DOTUSDT", {| min_qty := 0.1; max_qty := 100000; tick_size := 0.001 |})
  ]%float.

(** [self.valid_symbols[key]]; [None] is [KeyError]. *)
Fixpoint rules_in (table : list (string * symbol_rules)) (key : string)
    : option symbol_rules :=
  match table with
  | [] => None
  | (k, r) :: rest => if String.eqb k key then Some r else rules_in rest key
  end.

Definition valid_sides : list string := ["BUY"; "SELL"].

(** ** [round(x)] for a float *)

(** The integer nearest to [m * 2^e], ties to the even one. *)
Definition round_half_even (m : positive) (e : Z) : Z :=
  if Z.leb 0 e then Z.pos m * 2 ^ e
  else
    let d := 2 ^ (- e) in
    let q := Z.pos m / d in
    let r := Z.pos m mod d in
    match Z.compare (2 * r) d with
    | Lt => q
    | Gt => q + 1
    | Eq => if Z.even q then q else q + 1
    end.

(** [round(x)]; [None] is the [ValueError] for a NaN and the
    [OverflowError] for an infinity. *)
Definition py_round (x : float) : option Z :=
  match Prim2SF x with
  | S754_zero _ => Some 0
  | S754_finite s m e =>
      Some (if s then - round_half_even m e else round_half_even m e)
  | S754_infinity _ | S754_nan => None
  end.

(** ** The validators; [None] is an exception reaching the caller *)

(** [validate_symbol(symbol)] *)
Definition validate_symbol (symbol : string) : bool :=
  match rules_in valid_symbols (strip (upper symbol)) with
  | Some _ => true
  | None => false
  end.

(** [validate_quantity(symbol, quantity)]: the table is read at
    [symbol.upper()], not stripped. *)
Definition validate_quantity (symbol : string) (quantity : float)
    : option bool :=
  if negb (validate_symbol symbol) then Some false
  else if PrimFloat.leb quantity 0 then Some false
  else
    match rules_in valid_symbols (upper symbol) with
    | None => None
    | Some symbol_rules =>
        if PrimFloat.ltb quantity (min_qty symbol_rules) then Some false
        else if PrimFloat.ltb (max_qty symbol_rules) quantity then Some false
        else Some true
    end.

(** [validate_price(symbol, price)] *)
Definition validate_price (symbol : string) (price : option float)
    : option bool :=
  match price with
  | None => Some true
  | Some price =>
      if negb (validate_symbol symbol) then Some false
      else if PrimFloat.leb price 0 then Some false
      else
        match rules_in valid_symbols (upper symbol) with
        | None => None
        | Some symbol_rules =>
            let tick := tick_size symbol_rules in
            match py_round (price / tick) with
            | None => None
            | Some k =>
                let rounded_price := (float_of_Z k * tick)%float in
                if PrimFloat.ltb (tick * 0.001)
                     (PrimFloat.abs (price - rounded_price))
                then Some false
                else Some true
            end
        end
  end.

(** [validate_side(side)] *)
Definition validate_side (side : string) : bool :=
  bool_decide (strip (upper side) ∈ valid_sides).

(** The list [basic_validations], evaluated left to right; the first
    exception propagates. *)
Definition basic_validations (symbol : string) (quantity price stop_price
    stop_limit_price : float) (side : string) : option (list bool) :=
  match validate_quantity symbol quantity,
        validate_price symbol (Some price),
        validate_price symbol (Some stop_price),
        validate_price symbol (Some stop_limit_price) with
  | Some q, Some p, Some sp, Some slp =>
      Some [validate_symbol symbol; q; p; sp; slp; validate_side side]
  | _, _, _, _ => None
  end.

(** [all(basic_validations)], no validator having raised. *)
Definition basics_pass (symbol : string) (quantity price stop_price
    stop_limit_price : float) (side : string) : bool :=
  match basic_validations symbol quantity price stop_price
          stop_limit_price side with
  | Some validations => forallb id validations
  | None => false
  end.

(** [validate_oco_order(symbol, quantity, price, stop_price,
    stop_limit_price, side)] *)
Definition validate_oco_order (symbol : string) (quantity price stop_price
    stop_limit_price : float) (side : string) : option bool :=
  match basic_validations symbol quantity price stop_price
          stop_limit_price side with
  | None => None
  | Some validations =>
      if negb (forallb id validations) then Some false
      else if String.eqb (upper side) "SELL" then
        if PrimFloat.leb price stop_price then Some false
        else if PrimFloat.ltb stop_price stop_limit_price then Some false
        else Some true
      else if String.eqb (upper side) "BUY" then
        if PrimFloat.leb stop_price price then Some false
        else if PrimFloat.ltb stop_limit_price stop_price then Some false
        else Some true
      else Some true
  end.

(** ** The other validators *)

(** [self.valid_order_types] and [self.valid_timeframes] *)
Definition valid_order_types : list string :=
  ["MARKET"; "LIMIT"; "STOP"; "STOP_MARKET"; "TAKE_PROFIT";
   "TAKE_PROFIT_MARKET"].

Definition valid_timeframes : list string :=
  ["1m"; "3m"; "5m"; "15m"; "30m"; "1h"; "2h"; "4h"; "6h"; "8h"; "12h";
   "1d"; "3d"; "1w"; "1M"].

(** [str.lower()] *)
Definition lower_char (c : ascii) : ascii :=
  let n := Ascii.N_of_ascii c in
  if (N.leb 65 n && N.leb n 90)%bool then Ascii.ascii_of_N (n + 32) else c.

Fixpoint lower (s : string) : string :=
  match s with
  | EmptyString => EmptyString
  | String c rest => String (lower_char c) (lower rest)
  end.

(** [validate_order_type(order_type)] *)
Definition validate_order_type (order_type : string) : bool :=
  bool_decide (strip (upper order_type) ∈ valid_order_types).

(** [validate_timeframe(timeframe)]: the timeframe is lowered before it is
    looked up. *)
Definition validate_timeframe (timeframe : string) : bool :=
  bool_decide (strip (lower timeframe) ∈ valid_timeframes).

(** [validate_leverage(leverage)] for an integer. *)
Definition validate_leverage (leverage : Z) : bool :=
  negb (Z.ltb leverage 1 || Z.ltb 125 leverage).

(** [validate_order(symbol, quantity, price, side, order_type)]: the five
    validations are evaluated first (the symbol is validated before the
    quantity and the price, which may raise), then the price of a limit
    order is required. *)
Definition validate_order (symbol : string) (quantity : float)
    (price : option float) (side order_type : string) : option bool :=
  match validate_quantity symbol quantity, validate_price symbol price with
  | Some q, Some p =>
      let validations :=
        [validate_symbol symbol; q; p; validate_side side;
         validate_order_type order_type] in
      if bool_decide (upper order_type ∈ ["LIMIT"; "STOP_LIMIT"])
         && bool_decide (price = None)
      then Some false
      else Some (forallb id validations)
  | _, _ => None
  end.

(** [validate_twap_parameters(total_quantity, duration_minutes,
    intervals)], for a float and two integers.  The division is outside
    the [try]: [None] is the [OverflowError] it raises when [intervals] is
    too large to be promoted. *)
Definition validate_twap_parameters (total_quantity : float)
    (duration_minutes intervals : Z) : option bool :=
  if PrimFloat.leb total_quantity 0 then Some false
  else if Z.ltb duration_minutes 1 then Some false
  else if Z.ltb intervals 2 then Some false
  else if Z.ltb duration_minutes intervals then Some false
  else
    match truediv_int total_quantity intervals with
    | None => None
    | Some quantity_per_interval =>
        if PrimFloat.leb quantity_per_interval 0 then Some false
        else Some true
    end.

(** [validate_grid_parameters(upper_price, lower_price, grid_levels,
    total_quantity)], for three floats and an integer. *)
Definition validate_grid_parameters (upper_price lower_price : float)
    (grid_levels : Z) (total_quantity : float) : bool :=
  if PrimFloat.leb upper_price lower_price then false
  else if Z.ltb grid_levels 3 then false
  else if Z.ltb 50 grid_levels then false
  else if PrimFloat.leb total_quantity 0 then false
  else
    let price_diff :=
      ((upper_price - lower_price) / float_of_Z (grid_levels - 1))%float in
    if PrimFloat.leb price_diff 0 then false else true.

End Validation.

(* ================================================================== *)
(** * OCO controller: risk and reward ([src/advanced/oco.py]) *)
(* ================================================================== *)

Module OCO.
Import Py.
Local Open Scope float_scope.

(** The dictionary [analysis]. *)
Record analysis : Type := {
  risk_amount : float;
  reward_amount : float;
  risk_reward_ratio : float;
  risk_percentage : float;
  reward_percentage : float;
  is_favorable : bool
}.

(** The trade direction: long when the take profit is above entry. *)
Definition long_trade (entry_price take_profit_price : float) : bool :=
  PrimFloat.ltb entry_price take_profit_price.

Definition reward_of (entry_price take_profit_price : float) : float :=
  if long_trade entry_price take_profit_price
  then take_profit_price - entry_price
  else entry_price - take_profit_price.

Definition risk_of (entry_price take_profit_price stop_loss_price : float)
    : float :=
  if long_trade entry_price take_profit_price
  then entry_price - stop_loss_price
  else stop_loss_price - entry_price.

(** [calculate_risk_reward_ratio(entry_price, take_profit_price,
    stop_loss_price)]; [None] is the empty dictionary returned when an
    operation raises. *)
Definition calculate_risk_reward_ratio
    (entry_price take_profit_price stop_loss_price : float)
    : option analysis :=
  let reward := reward_of entry_price take_profit_price in
  let risk := risk_of entry_price take_profit_price stop_loss_price in
  match (if PrimFloat.ltb 0 risk then truediv reward risk
         else Some (of_int 0)) with
  | None => None
  | Some ratio =>
      match truediv risk entry_price, truediv reward entry_price with
      | Some risk_share, Some reward_share =>
          Some {| risk_amount := risk;
                  reward_amount := reward;
                  risk_reward_ratio := ratio;
                  risk_percentage := risk_share * of_int 100;
                  reward_percentage := reward_share * of_int 100;
                  is_favorable := PrimFloat.leb 2.0 ratio |}
      | _, _ => None
      end
  end.

End OCO.

(* ================================================================== *)
(** * Scenarios *)
(* ================================================================== *)

(** The concrete runs, in binary64, the examples below are stated on. *)
Module Scenario.
Import Py Gateway.

(** An exchange that accepts every request: it answers with order 7,
    not yet filled, and quotes 150. *)
Definition accepting (past : list (call float)) (c : call float)
    : option (reply float) :=
  Some {| orderId := Some 7; order_status := Some "NEW";
          ticker_price := Some 150%float |}.

Definition fresh (ex : list (call float) -> call float -> option (reply float))
    : world float :=
  {| exchange := ex; history := [] |}.

Definition no_grids : Grid.GridOrderHandler float :=
  {| Grid.active_grids := ∅; Grid.grid_counter := 0 |}.

Definition no_twaps : TWAP.TWAPOrderHandler float :=
  {| TWAP.active_twaps := ∅; TWAP.twap_counter := 0 |}.

(** The NEUTRAL grid over [100, 200], 5 levels, total quantity 10. *)
Definition grid_name : string := "GRID_1_1700000000".

Definition grid_started
    : (option string * Grid.GridOrderHandler float) * world float :=
  Grid.start_grid "BTCUSDT" 200%float 100%float 5 10%float "NEUTRAL" None
    1700000000 no_grids (fresh accepting).

(** ... stopped once because the profit target was met ... *)
Definition grid_stopped
    : (bool * Grid.GridOrderHandler float) * world float :=
  Grid.stop_grid grid_name "TAKE_PROFIT" 1700000100
    (snd (fst grid_started)) (snd grid_started).

(** ... and stopped again by hand. *)
Definition grid_stopped_again
    : (bool * Grid.GridOrderHandler float) * world float :=
  Grid.stop_grid grid_name "MANUAL" 1700000200
    (snd (fst grid_stopped)) (snd grid_stopped).

(** A TWAP buying 1 over 10 minutes in 10 market orders. *)
Definition twap_name : string := "TWAP_1_1700000000".

Definition twap_started : option string * TWAP.TWAPOrderHandler float :=
  TWAP.start_twap "BTCUSDT" "BUY" 1%float 10 10 "MARKET" None 1700000000
    no_twaps.

(** ... run to its end with every order accepted and no stop. *)
Definition twap_completed : TWAP.TWAPOrderHandler float :=
  fst (TWAP._execute_twap twap_name (fun _ => false) 1700000600
         (snd twap_started) (fresh accepting)).

(** ... or stopped by the user during the first sleep. *)
Definition twap_stopped : TWAP.TWAPOrderHandler float :=
  snd (TWAP.stop_twap twap_name
         (fst (TWAP.execute_interval twap_name (snd twap_started)
                 (fresh accepting)))).

(** An exchange that numbers the orders it accepts by the count of the
    requests made before, quotes 150, and refuses every cancellation. *)
Definition numbering (past : list (call float)) (c : call float)
    : option (reply float) :=
  match c with
  | CancelOrder _ _ => None
  | _ => Some {| orderId := Some (Z.of_nat (length past));
                 order_status := Some "NEW";
                 ticker_price := Some 150%float |}
  end.

(** The grid of the scenario started on that exchange: its four orders
    are numbered 1 to 4. *)
Definition numbered_started
    : (option string * Grid.GridOrderHandler float) * world float :=
  Grid.start_grid "BTCUSDT" 200%float 100%float 5 10%float "NEUTRAL" None
    1700000000 no_grids (fresh numbering).

(** The same grid with a profit target of 1 percent, started ... *)
Definition target_started
    : (option string * Grid.GridOrderHandler float) * world float :=
  Grid.start_grid "BTCUSDT" 200%float 100%float 5 10%float "NEUTRAL"
    (Some 1%float) 1700000000 no_grids (fresh accepting).

(** ... and after its sell at 175 (level 3) has filled. *)
Definition target_sold : Grid.GridOrderHandler float * world float :=
  Grid._handle_sell_fill grid_name 3 (snd (fst target_started))
    (snd target_started).

End Scenario.
(* ================================================================== *)
(** * Facts about the two arithmetics *)
(* ================================================================== *)

Module ArithFacts.
Import Py.

(** ** binary64 comparisons *)




Lemma SFcompare_flip (x y : spec_float) (c : comparison) :
  SFcompare x y = Some c -> SFcompare y x = Some (CompOpp c).
Proof.
  destruct x as [sx|sx| |sx mx ex], y as [sy|sy| |sy my ey]; cbn;
    try discriminate;
    try (intros E; injection E as <-; try destruct sx; try destruct sy;
         reflexivity).
  intros E. injection E as <-. f_equal.
  assert (Hm : Pos.compare_cont Eq my mx
               = CompOpp (Pos.compare_cont Eq mx my)).
  { rewrite Pos.compare_cont_antisym. reflexivity. }
  destruct sx, sy; try reflexivity;
    rewrite (Z.compare_antisym ex ey);
    destruct (ex ?= ey)%Z; cbn; try reflexivity;
    rewrite Hm; reflexivity.
Qed.

Lemma SFcompare_numbers (x y : spec_float) :
  x <> S754_nan -> y <> S754_nan -> exists c, SFcompare x y = Some c.
Proof.
  intros Hx Hy.
  destruct x, y; cbn; try congruence; eexists; reflexivity.
Qed.

(** [x <= y] is the negation of [y < x], for numbers. *)
Lemma leb_negb_ltb (x y : float) :
  is_number x -> is_number y ->
  PrimFloat.leb x y = negb (PrimFloat.ltb y x).
Proof.
  intros Hx Hy. rewrite leb_spec, ltb_spec. unfold SFleb, SFltb.
  destruct (SFcompare_numbers _ _ Hx Hy) as (c & Hc).
  rewrite Hc, (SFcompare_flip _ _ _ Hc). destruct c; reflexivity.
Qed.

(** [0 < r] excludes [r == 0]. *)
Lemma positive_is_nonzero (r : float) :
  PrimFloat.ltb 0 r = true -> is_zero r = false.
Proof.
  cbn. rewrite ltb_spec, FloatAxioms.eqb_spec. unfold SFltb, SFeqb.
  destruct (SFcompare (Prim2SF 0) (Prim2SF r)) as [c|] eqn:Hc;
    [|discriminate].
  rewrite (SFcompare_flip _ _ _ Hc). destruct c; discriminate || reflexivity.
Qed.

(** [r <= 0] excludes [0 < r]. *)
Lemma nonpositive_not_positive (r : float) :
  PrimFloat.leb r 0 = true -> PrimFloat.ltb 0 r = false.
Proof.
  rewrite ltb_spec, leb_spec. unfold SFltb, SFleb.
  destruct (SFcompare (Prim2SF r) (Prim2SF 0)) as [c|] eqn:Hc;
    [|discriminate].
  rewrite (SFcompare_flip _ _ _ Hc). destruct c; discriminate || reflexivity.
Qed.

(** A quotient that is a number has a dividend that is one. *)
Lemma quotient_number (x y : float) :
  is_number (x / y) -> is_number x.
Proof.
  unfold is_number. rewrite div_spec. intros Hq Hx. apply Hq.
  rewrite Hx. reflexivity.
Qed.

(** ** Exact arithmetic *)

Lemma exact_of_int_succ (z : Z) :
  of_int (Arith := exact) (z + 1) = (of_int (Arith := exact) z + 1)%Qc.
Proof.
  cbn. apply Qc_is_canon. cbn.
  rewrite !Qred_correct. rewrite inject_Z_plus. reflexivity.
Qed.

Lemma exact_ltb_lt (a b : Qc) : ltb (Arith := exact) a b = true <-> (a < b)%Qc.
Proof.
  cbn. unfold Qc_ltb. rewrite Qclt_alt.
  destruct (a ?= b)%Qc; split; congruence.
Qed.

Lemma exact_of_int_pos (z : Z) : 0 < z -> (0 < of_int (Arith := exact) z)%Qc.
Proof.
  intros Hz. cbn. unfold Qclt. cbn.
  rewrite !Qred_correct. unfold Qlt. cbn. lia.
Qed.

Lemma exact_of_int_nonzero (z : Z) :
  z <> 0 -> of_int (Arith := exact) z <> 0%Qc.
Proof.
  intros Hz E. apply Hz.
  change (Q2Qc (inject_Z z) = Q2Qc 0) in E.
  apply Q2Qc_eq_iff in E. unfold Qeq in E. cbn in E. lia.
Qed.

Lemma exact_quot_pos (x y : Qc) :
  (0 < x)%Qc -> (0 < y)%Qc -> (0 < quot (Arith := exact) x y)%Qc.
Proof.
  intros Hx Hy. cbn. unfold Qcdiv.
  replace 0%Qc with (0 * / y)%Qc by ring.
  apply Qcmult_lt_compat_r; [|exact Hx].
  unfold Qclt, Qcinv. cbn. rewrite (Qred_correct (/ y)).
  apply Qinv_lt_0_compat. exact Hy.
Qed.

(** The literals of the controllers, in binary64. *)
Example decimal_literals :
  decimal (Arith := binary64) 1001 3 = 1.001%float
  /\ decimal (Arith := binary64) 999 3 = 0.999%float.
Proof. split; vm_compute; reflexivity. Qed.
End ArithFacts.
(* ================================================================== *)
(** * Facts about gateway computations *)
(* ================================================================== *)

Module GatewayFacts.
Import Gateway.
Local Open Scope gateway_scope.

Section Emits.
Context {num : Type}.
Implicit Types (w : world num) (cs : list (call num)).

Lemma world_eta w :
  {| exchange := exchange w; history := history w ++ [] |} = w.
Proof. destruct w; cbn. rewrite app_nil_r. reflexivity. Qed.

Lemma emits_ret {A} (a : A) w : emits (ret a) w a [].
Proof. unfold emits, ret. rewrite world_eta. reflexivity. Qed.

Lemma emits_request (c : call num) w :
  emits (request c) w (exchange w (history w) c) [c].
Proof. reflexivity. Qed.

Lemma emits_bind {A B} (c : G num A) (k : A -> G num B) w a b cs cs' :
  emits c w a cs ->
  emits (k a) {| exchange := exchange w; history := history w ++ cs |}
    b cs' ->
  emits (bind c k) w b (cs ++ cs').
Proof.
  unfold emits, bind. intros -> ->. cbn.
  rewrite app_assoc. reflexivity.
Qed.

Lemma emits_result {A} (c : G num A) w a cs :
  emits c w a cs -> fst (c w) = a.
Proof. unfold emits. intros ->. reflexivity. Qed.

Lemma emits_issued {A} (c : G num A) w a cs :
  emits c w a cs -> issued c w = cs.
Proof.
  unfold emits, issued. intros ->. cbn.
  apply drop_app_length.
Qed.

Lemma emits_nil_eq {A} (c : G num A) w a :
  emits c w a [] -> c w = (a, w).
Proof. unfold emits. intros ->. rewrite world_eta. reflexivity. Qed.
End Emits.
End GatewayFacts.

(* ================================================================== *)
(** * Properties of the grid controller *)
(* ================================================================== *)

Module GridFacts.
Import Py ArithFacts Gateway GatewayFacts Grid.
Local Open Scope gateway_scope.

(** ** The level ladder *)

Section Ladder.
Context {num : Type} {arith : Arith num}.

Lemma grid_levels_data_length (lower increment per_level : num) (n : Z) :
  length (grid_levels_data lower increment per_level n) = Z.to_nat n.
Proof.
  unfold grid_levels_data. rewrite length_fmap. apply length_seq.
Qed.

Lemma grid_levels_data_lookup (lower increment per_level : num) (n : Z)
    (i : nat) :
  (i < Z.to_nat n)%nat ->
  grid_levels_data lower increment per_level n !! i =
    Some {| level := Z.of_nat i;
            price := level_price lower increment (Z.of_nat i);
            quantity := per_level;
            buy_order_id := None; sell_order_id := None;
            filled := false |}.
Proof.
  intros Hi. unfold grid_levels_data.
  rewrite list_lookup_fmap, lookup_seq_lt by exact Hi. reflexivity.
Qed.

Lemma grid_levels_data_numbered (lower increment per_level : num) (n : Z) :
  numbered (grid_levels_data lower increment per_level n).
Proof.
  intros i l Hl.
  assert (Hi : (i < Z.to_nat n)%nat).
  { apply lookup_lt_Some in Hl.
    rewrite grid_levels_data_length in Hl. exact Hl. }
  rewrite grid_levels_data_lookup in Hl by exact Hi.
  injection Hl as <-. reflexivity.
Qed.

(** With at least two levels, few enough to be promoted, neither
    division of [start_grid] raises. *)
Lemma new_grid_config_levels (id sym : string) (upper lower : num)
    (n : Z) (total : num) (gtype : string) (tp : option num) (now : Z) :
  2 <= n ->
  promotes (n - 1) = true ->
  promotes n = true ->
  exists g : grid_config num,
    new_grid_config id sym upper lower n total gtype tp now = Some g
    /\ price_increment g = quot (sub upper lower) (of_int (n - 1))
    /\ quantity_per_level g = quot total (of_int n)
    /\ symbol g = sym /\ grid_type g = gtype
    /\ levels g =
         grid_levels_data lower (quot (sub upper lower) (of_int (n - 1)))
           (quot total (of_int n)) n.
Proof.
  intros Hn Hprev Hlast. unfold new_grid_config, truediv_int.
  destruct (Z.eqb_spec (n - 1) 0) as [E|_]; [lia|].
  destruct (Z.eqb_spec n 0) as [E|_]; [lia|].
  rewrite Hprev, Hlast.
  eexists. split; [reflexivity|]. cbn. auto 6.
Qed.
End Ladder.

(** ** Exact arithmetic *)

Lemma exact_level_price_step (lower d : Qc) (i : Z) :
  (level_price (arith := exact) lower d (i + 1)
   - level_price (arith := exact) lower d i = d)%Qc.
Proof.
  unfold level_price. rewrite exact_of_int_succ. cbn. ring.
Qed.

(** C6, as amended: with at least two levels, few enough for [L - 1] and
    [L] to be promoted to the arithmetic of the inputs, [start_grid] builds
    exactly [L] levels, level [i] numbered [i] and priced
    [lower + i * ((upper - lower) / (L - 1))] in that arithmetic; when
    [L - 1] or [L] is too large to be promoted, a division raises and no
    configuration is built; over the rationals, where every integer is
    promoted, [upper > lower] makes the prices strictly increasing with
    every step equal to [(upper - lower) / (L - 1)]. *)
Theorem level_prices_progression (L : Z) (HL : 2 <= L) :
  (forall (num : Type) (arith : Arith num) (id sym : string)
      (upper lower total : num) (gtype : string) (tp : option num)
      (now : Z),
      promotes (L - 1) = true ->
      promotes L = true ->
      exists g : grid_config num,
        new_grid_config id sym upper lower L total gtype tp now = Some g
        /\ length (levels g) = Z.to_nat L
        /\ forall i : nat, (i < Z.to_nat L)%nat ->
             exists l : level_data num,
               levels g !! i = Some l
               /\ level l = Z.of_nat i
               /\ price l =
                    add lower
                      (mul (of_int (Z.of_nat i))
                         (quot (sub upper lower) (of_int (L - 1)))))
  /\ (forall (num : Type) (arith : Arith num) (id sym : string)
        (upper lower total : num) (gtype : string) (tp : option num)
        (now : Z),
        promotes (L - 1) = false \/ promotes L = false ->
        new_grid_config id sym upper lower L total gtype tp now = None)
  /\ (forall (id sym : string) (upper lower total : Qc) (gtype : string)
        (tp : option Qc) (now : Z),
        (lower < upper)%Qc ->
        exists g : grid_config Qc,
          new_grid_config (arith := exact) id sym upper lower L total
            gtype tp now = Some g
          /\ strictly_increasing (arith := exact) (price <$> levels g)
          /\ forall (i : nat) (a b : Qc),
               (price <$> levels g) !! i = Some a ->
               (price <$> levels g) !! S i = Some b ->
               (b - a = (upper - lower) / of_int (Arith := exact) (L - 1))%Qc).
Proof.
  split; [|split].
  - intros num arith id sym upper lower total gtype tp now Hprev Hlast.
    destruct (new_grid_config_levels id sym upper lower L total gtype tp
                now HL Hprev Hlast) as (g & Hg & _ & _ & _ & _ & Hls).
    exists g. split; [exact Hg|]. rewrite Hls. split.
    + apply grid_levels_data_length.
    + intros i Hi. eexists. split.
      * apply grid_levels_data_lookup. exact Hi.
      * split; reflexivity.
  - intros num arith id sym upper lower total gtype tp now Hlarge.
    unfold new_grid_config, truediv_int.
    destruct (Z.eqb (L - 1) 0); [reflexivity|].
    destruct (promotes (L - 1)) eqn:Hprev; [|reflexivity].
    destruct (Z.eqb L 0); [reflexivity|].
    destruct Hlarge as [E | E]; [discriminate E|]. rewrite E. reflexivity.
  - intros id sym upper lower total gtype tp now Hlt.
    destruct (new_grid_config_levels (arith := exact) id sym upper lower L
                total gtype tp now HL eq_refl eq_refl)
      as (g & Hg & _ & _ & _ & _ & Hls).
    exists g. split; [exact Hg|]. rewrite Hls.
    set (d := quot (Arith := exact) (sub upper lower) (of_int (L - 1))).
    assert (Hd : (0 < d)%Qc).
    { apply exact_quot_pos.
      - cbn. apply Qclt_minus_iff in Hlt. exact Hlt.
      - apply exact_of_int_pos. lia. }
    assert (Hstep : forall (i : nat) (a b : Qc),
               (price <$> grid_levels_data lower d
                  (quot (Arith := exact) total (of_int L)) L) !! i = Some a ->
               (price <$> grid_levels_data lower d
                  (quot (Arith := exact) total (of_int L)) L) !! S i = Some b ->
               (b - a = d)%Qc).
    { intros i a b Ha Hb.
      assert (Hi : (S i < Z.to_nat L)%nat).
      { apply lookup_lt_Some in Hb.
        rewrite length_fmap, grid_levels_data_length in Hb. exact Hb. }
      rewrite list_lookup_fmap, grid_levels_data_lookup in Ha by lia.
      rewrite list_lookup_fmap, grid_levels_data_lookup in Hb by lia.
      cbn in Ha, Hb. injection Ha as <-. injection Hb as <-.
      replace (Z.of_nat (S i)) with (Z.of_nat i + 1) by lia.
      apply exact_level_price_step. }
    split.
    + intros i a b Ha Hb. apply exact_ltb_lt.
      apply Qclt_minus_iff. specialize (Hstep i a b Ha Hb).
      unfold Qcminus in Hstep. rewrite Hstep. exact Hd.
    + intros i a b Ha Hb. exact (Hstep i a b Ha Hb).
Qed.

(** The progression of the scenario of the specification: five levels in
    binary64; over the rationals, between 100 and 200, five levels whose
    prices increase strictly, by 25 from the first to the second. *)
Lemma level_prices_progression_witness :
  (exists g : grid_config float,
      new_grid_config "GRID_1_0" "BTCUSDT" 200%float 100%float 5 10%float
        "NEUTRAL" None 0 = Some g
      /\ length (levels g) = 5%nat)
  /\ (exists g : grid_config Qc,
        new_grid_config (arith := exact) "GRID_1_0" "BTCUSDT"
          (of_int 200) (of_int 100) 5 (of_int 10) "NEUTRAL" None 0 = Some g
        /\ strictly_increasing (arith := exact) (price <$> levels g)
        /\ (forall a b : Qc,
              (price <$> levels g) !! 0%nat = Some a ->
              (price <$> levels g) !! 1%nat = Some b ->
              (b - a)%Qc = of_int (Arith := exact) 25)).
Proof.
  split.
  - destruct (proj1 (level_prices_progression 5 ltac:(lia)) float binary64
                "GRID_1_0" "BTCUSDT" 200%float 100%float 10%float "NEUTRAL"
                None 0 eq_refl eq_refl) as (g & Hg & Hlen & _).
    exists g. split; [exact Hg | exact Hlen].
  - destruct (proj2 (proj2 (level_prices_progression 5 ltac:(lia)))
                "GRID_1_0" "BTCUSDT" (of_int (Arith := exact) 200)
                (of_int (Arith := exact) 100) (of_int (Arith := exact) 10)
                "NEUTRAL" None 0) as (g & Hg & Hinc & Hstep).
    + reflexivity.
    + exists g. split; [exact Hg|]. split; [exact Hinc|].
      intros a b Ha Hb. rewrite (Hstep 0%nat a b Ha Hb).
      apply Qc_is_canon. reflexivity.
Defined.

(** A level count beyond the doubles: the first division raises
    [OverflowError] and no configuration is built. *)
Example new_grid_config_overflows :
  new_grid_config (arith := binary64) "GRID_1_0" "BTCUSDT" 200%float
    100%float (10 ^ 400) 10%float "NEUTRAL" None 0 = None.
Proof. vm_compute. reflexivity. Qed.

(** C6 fails in binary64: between 1e16 and 1e16 + 2 the increment 1 is
    absorbed by rounding, and the first two of the three levels have the
    same price. *)
Lemma level_prices_collapse_binary64 :
  ltb (Arith := binary64) 10000000000000000%float 10000000000000002%float = true
  /\ exists g : grid_config float,
       new_grid_config "GRID_1_0" "BTCUSDT" 10000000000000002%float
         10000000000000000%float 3 1%float "NEUTRAL" None 0 = Some g
       /\ ~ strictly_increasing (price <$> levels g).
Proof.
  split; [vm_compute; reflexivity|].
  eexists. split; [vm_compute; reflexivity|].
  intros Hinc.
  specialize (Hinc 0%nat 10000000000000000%float 10000000000000000%float
                eq_refl eq_refl).
  vm_compute in Hinc. discriminate Hinc.
Qed.
(** ** Initial placement *)

Section Placement.
Context {num : Type} {arith : Arith num}.
Implicit Types (w : world num) (l : level_data num) (c : counters).

Lemma place_buy_emits sym l c w :
  exists r, emits (place_buy sym l c) w r [limit_order sym "BUY" l]
            /\ price (fst r) = price l /\ quantity (fst r) = quantity l.
Proof.
  unfold place_buy, _place_grid_order. eexists. split.
  - eapply (emits_bind _ _ _ _ _ [_] []);
      [apply emits_request | apply emits_ret].
  - destruct (exchange w (history w) _); split; reflexivity.
Qed.

Lemma place_sell_emits sym l c w :
  exists r, emits (place_sell sym l c) w r [limit_order sym "SELL" l]
            /\ price (fst r) = price l /\ quantity (fst r) = quantity l.
Proof.
  unfold place_sell, _place_grid_order. eexists. split.
  - eapply (emits_bind _ _ _ _ _ [_] []);
      [apply emits_request | apply emits_ret].
  - destruct (exchange w (history w) _); split; reflexivity.
Qed.

Lemma emits_ret_ex {A} (a : A) w : exists r, emits (ret a) w r [].
Proof. exists a. apply emits_ret. Qed.

(** The orders attempted at a level do not depend on the answers. *)
Lemma place_initial_level_emits sym gtype cur l c w :
  exists r, emits (place_initial_level sym gtype cur l c) w r
              (initial_orders_at sym gtype cur l).
Proof.
  unfold place_initial_level, initial_orders_at, gtb, geb.
  destruct (String.eqb gtype "NEUTRAL").
  - destruct (ltb (price l) cur).
    + destruct (place_buy_emits sym l c w) as ([l1 c1] & Hb & Hp & Hq).
      cbn in Hp, Hq.
      destruct (ltb cur (price l)) eqn:Hg.
      * destruct (place_sell_emits sym l1 c1
                    {| exchange := exchange w;
                       history := history w ++ [limit_order sym "BUY" l] |})
          as (r & Hs & _).
        exists r. eapply emits_bind; [exact Hb|]. cbn.
        unfold limit_order in Hs |- *. rewrite Hp, Hq in Hs. exact Hs.
      * eexists. eapply emits_bind; [exact Hb|]. cbn.
        apply emits_ret.
    + destruct (ltb cur (price l)) eqn:Hg.
      * destruct (place_sell_emits sym l c w) as (r & Hs & _).
        exists r.
        eapply (emits_bind _ _ _ _ _ [] _); [apply emits_ret|].
        cbn. rewrite world_eta. exact Hs.
      * eexists.
        eapply (emits_bind _ _ _ _ _ [] []); [apply emits_ret|].
        cbn. apply emits_ret.
  - destruct (String.eqb gtype "LONG").
    + destruct (leb (price l) cur).
      * destruct (place_buy_emits sym l c w) as (r & Hb & _).
        exists r. exact Hb.
      * apply emits_ret_ex.
    + destruct (String.eqb gtype "SHORT").
      * destruct (leb cur (price l)).
        -- destruct (place_sell_emits sym l c w) as (r & Hs & _).
           exists r. exact Hs.
        -- apply emits_ret_ex.
      * apply emits_ret_ex.
Qed.

Lemma place_initial_levels_emits sym gtype cur (ls : list (level_data num))
    c w :
  exists r, emits (place_initial_levels sym gtype cur ls c) w r
              (ls ≫= initial_orders_at sym gtype cur).
Proof.
  revert c w. induction ls as [|l rest IH]; intros c w.
  - apply emits_ret_ex.
  - cbn [place_initial_levels].
    destruct (place_initial_level_emits sym gtype cur l c w)
      as ([l' c'] & Hl).
    destruct (IH c' {| exchange := exchange w;
                       history := history w
                                  ++ initial_orders_at sym gtype cur l |})
      as ([rest' c''] & Hrest).
    eexists. cbn.
    eapply emits_bind; [exact Hl|]. cbn.
    rewrite <- (app_nil_r (rest ≫= _)).
    eapply emits_bind; [exact Hrest|]. cbn. apply emits_ret.
Qed.

Lemma place_initial_grid_orders_emits (id : string)
    (h : GridOrderHandler num) (g : grid_config num) w (t : reply num)
    (cur : num) :
  active_grids h !! id = Some g ->
  exchange w (history w) (GetTicker (symbol g)) = Some t ->
  ticker_price t = Some cur ->
  exists r, emits (_place_initial_grid_orders id h) w r
              (GetTicker (symbol g)
               :: (levels g ≫= initial_orders_at (symbol g) (grid_type g)
                                 cur)).
Proof.
  intros Hg Ht Hcur. unfold _place_initial_grid_orders. rewrite Hg.
  destruct (place_initial_levels_emits (symbol g) (grid_type g) cur
              (levels g) (0, 0)
              {| exchange := exchange w;
                 history := history w ++ [GetTicker (symbol g)] |})
    as ([ls c] & Hls).
  eexists.
  eapply (emits_bind _ _ _ _ _ [_] _); [apply emits_request|].
  rewrite Ht, Hcur.
  rewrite <- (app_nil_r (levels g ≫= _)).
  eapply emits_bind; [exact Hls|]. cbn. apply emits_ret.
Qed.

Lemma start_grid_emits (sym : string) (upper lower : num) (n : Z)
    (total : num) (gtype : string) (tp : option num) (now : Z)
    (h : GridOrderHandler num) (g : grid_config num) w (t : reply num)
    (cur : num) :
  new_grid_config (make_grid_id (grid_counter h + 1) now) sym upper lower
    n total gtype tp now = Some g ->
  symbol g = sym -> grid_type g = gtype ->
  exchange w (history w) (GetTicker sym) = Some t ->
  ticker_price t = Some cur ->
  exists r, emits (start_grid sym upper lower n total gtype tp now h) w r
              (GetTicker sym
               :: (levels g ≫= initial_orders_at sym gtype cur)).
Proof.
  intros Hg Hsym Htype Ht Hcur. unfold start_grid. cbn.
  rewrite Hg. subst sym gtype.
  edestruct (place_initial_grid_orders_emits
               (make_grid_id (grid_counter h + 1) now)
               (set_grid (make_grid_id (grid_counter h + 1) now) g
                  {| active_grids := active_grids h;
                     grid_counter := grid_counter h + 1 |}) g w t cur)
    as ([ok h2] & Hp); [apply lookup_insert_eq | exact Ht | exact Hcur |].
  destruct ok; eexists;
    rewrite <- (app_nil_r (levels g ≫= _)), app_comm_cons;
    (eapply emits_bind; [exact Hp|]); cbn; apply emits_ret.
Qed.
End Placement.

(** C3: a NEUTRAL grid over [100, 200] with 5 levels and total quantity
    10, started while the market trades at 150, has the levels 100, 125,
    150, 175, 200 and attempts, whatever the exchange answers, a buy at
    100 and at 125 and a sell at 175 and at 200, and nothing at 150. *)
Theorem neutral_grid_initial_orders (sym : string) (now : Z)
    (h : GridOrderHandler float) (w : world float) (t : reply float) :
  exchange w (history w) (GetTicker sym) = Some t ->
  ticker_price t = Some 150%float ->
  (exists g : grid_config float,
      new_grid_config (make_grid_id (grid_counter h + 1) now) sym
        200%float 100%float 5 10%float "NEUTRAL" None now = Some g
      /\ price <$> levels g = [100; 125; 150; 175; 200]%float)
  /\ issued (start_grid sym 200%float 100%float 5 10%float "NEUTRAL" None
              now h) w =
       [ GetTicker sym;
         PlaceOrder sym "BUY" "LIMIT" 2%float (Some 100%float)
           (Some "GTC") None;
         PlaceOrder sym "BUY" "LIMIT" 2%float (Some 125%float)
           (Some "GTC") None;
         PlaceOrder sym "SELL" "LIMIT" 2%float (Some 175%float)
           (Some "GTC") None;
         PlaceOrder sym "SELL" "LIMIT" 2%float (Some 200%float)
           (Some "GTC") None ].
Proof.
  intros Ht Hcur.
  destruct (new_grid_config_levels (arith := binary64)
              (make_grid_id (grid_counter h + 1) now) sym 200%float
              100%float 5 10%float "NEUTRAL" None now ltac:(lia)
              eq_refl eq_refl)
    as (g & Hg & _ & _ & Hsym & Htype & Hls).
  split.
  - exists g. split; [exact Hg|]. rewrite Hls. vm_compute. reflexivity.
  - destruct (start_grid_emits sym 200%float 100%float 5 10%float "NEUTRAL"
                None now h g w t 150%float Hg Hsym Htype Ht Hcur)
      as (r & Hr).
    rewrite (emits_issued _ _ _ _ Hr). rewrite Hls.
    vm_compute. reflexivity.
Qed.

(** The scenario on an exchange that accepts every order. *)
Lemma neutral_grid_initial_orders_witness :
  issued (start_grid "BTCUSDT" 200%float 100%float 5 10%float "NEUTRAL"
            None 1700000000 Scenario.no_grids)
    (Scenario.fresh Scenario.accepting) =
    [ GetTicker "BTCUSDT";
      PlaceOrder "BTCUSDT" "BUY" "LIMIT" 2%float (Some 100%float)
        (Some "GTC") None;
      PlaceOrder "BTCUSDT" "BUY" "LIMIT" 2%float (Some 125%float)
        (Some "GTC") None;
      PlaceOrder "BTCUSDT" "SELL" "LIMIT" 2%float (Some 175%float)
        (Some "GTC") None;
      PlaceOrder "BTCUSDT" "SELL" "LIMIT" 2%float (Some 200%float)
        (Some "GTC") None ].
Proof.
  apply (neutral_grid_initial_orders "BTCUSDT" 1700000000
           Scenario.no_grids (Scenario.fresh Scenario.accepting)
           {| orderId := Some 7; order_status := Some "NEW";
              ticker_price := Some 150%float |}).
  - reflexivity.
  - reflexivity.
Defined.

(** ** Fill handling *)

Section Fills.
Context {num : Type} {arith : Arith num}.
Implicit Types (w : world num) (l : level_data num) (g : grid_config num)
  (h : GridOrderHandler num).

Lemma levels_set_level (p : nat) (f : level_data num -> level_data num)
    g l :
  levels g !! p = Some l ->
  levels (set_level p f g) = <[p := f l]> (levels g).
Proof. intros Hl. unfold set_level. rewrite Hl. reflexivity. Qed.

Lemma set_level_fields (p : nat) (f : level_data num -> level_data num) g :
  trades_executed (set_level p f g) = trades_executed g
  /\ grid_status (set_level p f g) = grid_status g
  /\ symbol (set_level p f g) = symbol g
  /\ stop_requested (set_level p f g) = stop_requested g.
Proof. unfold set_level. destruct (levels g !! p); cbn; auto. Qed.

Lemma py_index_in_range {A} (lst : list A) (i : nat) :
  (i < length lst)%nat -> py_index lst (Z.of_nat i) = Some i.
Proof.
  intros Hi. unfold py_index.
  destruct (Z.leb_spec 0 (Z.of_nat i)); [|lia].
  destruct (Z.ltb_spec (Z.of_nat i) (Z.of_nat (length lst))); [|lia].
  cbn. rewrite Nat2Z.id. reflexivity.
Qed.

Lemma lookup_set_grid (id : string) g h :
  active_grids (set_grid id g h) !! id = Some g.
Proof. apply lookup_insert_eq. Qed.
End Fills.

(** C2: handling a filled buy at level [i] marks the level filled, adds
    one to [trades_executed] and clears the level's buy reference, the
    other fields of the level staying as they were; when level [i + 1]
    exists and holds no open sell, exactly one order is requested, a sell
    of level [i]'s quantity at level [i + 1]'s price, and the id the
    exchange returns becomes the sell reference of level [i + 1];
    otherwise nothing is requested and level [i + 1] is unchanged.  No
    other level changes. *)
Theorem buy_fill_rearms_next_level {num : Type} {arith : Arith num}
    (id : string) (i : nat) (h : GridOrderHandler num) (w : world num)
    (g : grid_config num) (l : level_data num) :
  active_grids h !! id = Some g ->
  levels g !! i = Some l ->
  level l = Z.of_nat i ->
  exists g' : grid_config num,
    active_grids (fst (_handle_buy_fill id i h w)) !! id = Some g'
    /\ trades_executed g' = trades_executed g + 1
    /\ levels g' !! i =
         Some {| level := level l; price := price l;
                 quantity := quantity l;
                 buy_order_id := None;
                 sell_order_id := sell_order_id l;
                 filled := true |}
    /\ (forall j : nat, j <> i -> j <> S i ->
          levels g' !! j = levels g !! j)
    /\ match levels g !! S i with
       | None => issued (_handle_buy_fill id i h) w = []
       | Some next =>
           let sell :=
             PlaceOrder (symbol g) "SELL" "LIMIT" (quantity l)
               (Some (price next)) (Some "GTC") None in
           if truthy_id (sell_order_id next) then
             issued (_handle_buy_fill id i h) w = []
             /\ levels g' !! S i = Some next
           else
             issued (_handle_buy_fill id i h) w = [sell]
             /\ levels g' !! S i =
                  Some match exchange w (history w) sell with
                       | Some o =>
                           {| level := level next; price := price next;
                              quantity := quantity next;
                              buy_order_id := buy_order_id next;
                              sell_order_id := orderId o;
                              filled := filled next |}
                       | None => next
                       end
       end.
Proof.
  intros Hg Hl Hlevel.
  assert (Hi : (i < length (levels g))%nat) by (eapply lookup_lt_Some; eauto).
  set (l1 := set_filled true l).
  set (g1 := set_trades_executed (trades_executed g + 1)
               (set_level i (set_filled true) g)).
  assert (Hls1 : levels g1 = <[i := l1]> (levels g)).
  { subst g1. cbn. apply levels_set_level. exact Hl. }
  assert (Hl1 : levels g1 !! i = Some l1).
  { rewrite Hls1. apply list_lookup_insert_eq. exact Hi. }
  assert (Hlen1 : length (levels g1) = length (levels g)).
  { rewrite Hls1. apply length_insert. }
  assert (Htr1 : trades_executed g1 = trades_executed g + 1) by reflexivity.
  assert (Hsym1 : symbol g1 = symbol g).
  { subst g1. cbn. apply set_level_fields. }
  unfold _handle_buy_fill. rewrite Hg, Hl. fold g1. rewrite Hlevel.
  destruct (levels g !! S i) as [next|] eqn:Hnext.
  - assert (HSi : (S i < length (levels g))%nat)
      by (eapply lookup_lt_Some; eauto).
    destruct (Z.ltb_spec (Z.of_nat i + 1) (Z.of_nat (length (levels g1))))
      as [_|Hge]; [|lia].
    replace (Z.of_nat i + 1) with (Z.of_nat (S i)) by lia.
    rewrite py_index_in_range by lia.
    assert (Hn1 : levels g1 !! S i = Some next).
    { rewrite Hls1, list_lookup_insert_ne by lia. exact Hnext. }
    rewrite Hn1. cbn zeta.
    destruct (truthy_id (sell_order_id next)) eqn:Hopen; cbn [negb].
    + (* the next level already holds a sell *)
      set (g' := set_level i (set_buy_order_id None) g1).
      assert (Hls' : levels g' = <[i := set_buy_order_id None l1]> (levels g1)).
      { subst g'. apply levels_set_level. exact Hl1. }
      match goal with
      | |- context [fst (?c w)] =>
          assert (Hrun : emits c w (set_grid id g' h) [])
      end.
      { eapply (emits_bind _ _ _ _ _ [] []); apply emits_ret. }
      exists g'. rewrite (emits_result _ _ _ _ Hrun).
      rewrite (emits_issued _ _ _ _ Hrun).
      split; [apply lookup_set_grid|].
      split; [subst g'; rewrite (proj1 (set_level_fields _ _ _)); exact Htr1|].
      rewrite Hls', Hls1.
      split; [rewrite list_lookup_insert_eq
                by (rewrite length_insert; exact Hi);
              subst l1; unfold set_buy_order_id, set_filled; cbn;
              rewrite ?Hlevel; reflexivity|].
      split.
      * intros j Hji _. rewrite !list_lookup_insert_ne by congruence.
        reflexivity.
      * split; [reflexivity|].
        rewrite !list_lookup_insert_ne by lia. exact Hnext.
    + (* a sell is requested at the next level *)
      set (sell := PlaceOrder (symbol g) "SELL" "LIMIT" (quantity l)
                     (Some (price next)) (Some "GTC") None).
      set (next' := match exchange w (history w) sell with
                    | Some o => set_sell_order_id (orderId o) next
                    | None => next
                    end).
      set (g2 := match exchange w (history w) sell with
                 | Some o => set_level (S i) (set_sell_order_id (orderId o)) g1
                 | None => g1
                 end).
      set (g' := set_level i (set_buy_order_id None) g2).
      assert (Hls2 : levels g2 = <[S i := next']> (levels g1)).
      { subst g2 next'. destruct (exchange w (history w) sell).
        - apply levels_set_level. exact Hn1.
        - symmetry. apply list_insert_id. exact Hn1. }
      assert (Hl2 : levels g2 !! i = Some l1).
      { rewrite Hls2, list_lookup_insert_ne by lia. exact Hl1. }
      assert (Hls' : levels g' = <[i := set_buy_order_id None l1]> (levels g2)).
      { subst g'. apply levels_set_level. exact Hl2. }
      assert (Htr2 : trades_executed g2 = trades_executed g + 1).
      { subst g2. destruct (exchange w (history w) sell); [|exact Htr1].
        rewrite (proj1 (set_level_fields _ _ _)). exact Htr1. }
      match goal with
      | |- context [fst (?c w)] =>
          assert (Hrun : emits c w (set_grid id g' h) [sell])
      end.
      { eapply (emits_bind _ _ _ _ _ [sell] []); [|apply emits_ret].
        eapply (emits_bind _ _ _ _ _ [sell] []);
          [apply emits_request | apply emits_ret]. }
      exists g'. rewrite (emits_result _ _ _ _ Hrun).
      rewrite (emits_issued _ _ _ _ Hrun).
      split; [apply lookup_set_grid|].
      split; [subst g'; rewrite (proj1 (set_level_fields _ _ _)); exact Htr2|].
      rewrite Hls', Hls2, Hls1.
      split; [rewrite list_lookup_insert_eq
                by (rewrite !length_insert; exact Hi);
              subst l1; unfold set_buy_order_id, set_filled; cbn;
              rewrite ?Hlevel; reflexivity|].
      split.
      * intros j Hji HjS. rewrite !list_lookup_insert_ne by congruence.
        reflexivity.
      * split; [reflexivity|].
        rewrite list_lookup_insert_ne by lia.
        rewrite list_lookup_insert_eq by (rewrite length_insert; lia).
        reflexivity.
  - (* there is no next level *)
    assert (HSi : (length (levels g) <= S i)%nat)
      by (apply lookup_ge_None; exact Hnext).
    destruct (Z.ltb_spec (Z.of_nat i + 1) (Z.of_nat (length (levels g1))))
      as [Hlt|_]; [lia|].
    set (g' := set_level i (set_buy_order_id None) g1).
    assert (Hls' : levels g' = <[i := set_buy_order_id None l1]> (levels g1)).
    { subst g'. apply levels_set_level. exact Hl1. }
    exists g'.
    rewrite (emits_result _ _ _ _ (emits_ret (set_grid id g' h) w)).
    rewrite (emits_issued _ _ _ _ (emits_ret (set_grid id g' h) w)).
    split; [apply lookup_set_grid|].
    split; [subst g'; rewrite (proj1 (set_level_fields _ _ _)); exact Htr1|].
    rewrite Hls', Hls1.
    split; [rewrite list_lookup_insert_eq
              by (rewrite length_insert; exact Hi);
              subst l1; unfold set_buy_order_id, set_filled; cbn;
              rewrite ?Hlevel; reflexivity|].
    split; [|reflexivity].
    intros j Hji _. rewrite !list_lookup_insert_ne by congruence.
    reflexivity.
Qed.

(** The scenario of the specification: the buy at 125 (level 1) of the
    started grid, order 7, fills; level 1 is marked filled and holds no
    buy order any more, a sell of 2 is requested at 150 (level 2), and the
    order 7 the exchange answers with is recorded there. *)
Lemma buy_fill_rearms_next_level_witness :
  exists g' : grid_config float,
    active_grids
      (fst (_handle_buy_fill Scenario.grid_name 1
              (snd (fst Scenario.grid_started)) (snd Scenario.grid_started)))
      !! Scenario.grid_name = Some g'
    /\ trades_executed g' = 1
    /\ levels g' !! 1%nat =
         Some {| level := 1; price := 125%float; quantity := 2%float;
                 buy_order_id := None; sell_order_id := None;
                 filled := true |}
    /\ levels g' !! 2%nat =
         Some {| level := 2; price := 150%float; quantity := 2%float;
                 buy_order_id := None; sell_order_id := Some 7;
                 filled := false |}
    /\ issued (_handle_buy_fill Scenario.grid_name 1
                 (snd (fst Scenario.grid_started)))
         (snd Scenario.grid_started)
       = [ PlaceOrder "BTCUSDT" "SELL" "LIMIT" 2%float (Some 150%float)
             (Some "GTC") None ].
Proof.
  edestruct (buy_fill_rearms_next_level (num := float) Scenario.grid_name
               1 (snd (fst Scenario.grid_started))
               (snd Scenario.grid_started))
    as (g' & Hg' & Htrades & Hlevel & _ & Hnext).
  - vm_compute. reflexivity.
  - vm_compute. reflexivity.
  - reflexivity.
  - hnf in Hnext. destruct Hnext as [Hissued Hnext].
    exists g'. split; [exact Hg'|]. split; [exact Htrades|].
    split; [exact Hlevel|]. split; [exact Hnext | exact Hissued].
Defined.

(** ** Stopping *)

Section Stop.
Context {num : Type} {arith : Arith num}.
Implicit Types (w : world num) (l : level_data num) (g : grid_config num)
  (h : GridOrderHandler num).

(** A level is cancelled by exactly its cancel requests and holds no
    open order afterwards; a level without open orders is untouched. *)
Lemma cancel_level_emits (sym : string) l w :
  exists l', emits (cancel_level sym l) w l' (cancel_requests sym l)
             /\ no_open_order l'
             /\ (no_open_order l -> l' = l).
Proof.
  unfold cancel_level, cancel_requests, no_open_order.
  destruct (open_order (buy_order_id l)) as [b|] eqn:Hb;
    destruct (open_order (sell_order_id l)) as [s|] eqn:Hs.
  - eexists. split.
    + eapply (emits_bind _ _ _ _ _ [_] [_]).
      * eapply (emits_bind _ _ _ _ _ [_] []);
          [apply emits_request | apply emits_ret].
      * cbn. rewrite Hs.
        eapply (emits_bind _ _ _ _ _ [_] []);
          [apply emits_request | apply emits_ret].
    + cbn. split; [split; reflexivity | intros [? _]; discriminate].
  - eexists. split.
    + eapply (emits_bind _ _ _ _ _ [_] []).
      * eapply (emits_bind _ _ _ _ _ [_] []);
          [apply emits_request | apply emits_ret].
      * cbn. rewrite Hs. apply emits_ret.
    + cbn. split; [split; [reflexivity | exact Hs]
                  | intros [? _]; discriminate].
  - eexists. split.
    + eapply (emits_bind _ _ _ _ _ [] [_]); [apply emits_ret|].
      rewrite Hs.
      eapply (emits_bind _ _ _ _ _ [_] []);
        [apply emits_request | apply emits_ret].
    + cbn. split; [split; [exact Hb | reflexivity]
                  | intros [_ ?]; discriminate].
  - exists l. split.
    + eapply (emits_bind _ _ _ _ _ [] []); [apply emits_ret|].
      rewrite Hs. apply emits_ret.
    + split; [split; assumption | reflexivity].
Qed.

Lemma cancel_levels_emits (sym : string) (ls : list (level_data num)) w :
  exists ls', emits (cancel_levels sym ls) w ls'
                (ls ≫= cancel_requests sym)
              /\ Forall no_open_order ls'
              /\ (Forall no_open_order ls -> ls' = ls).
Proof.
  revert w. induction ls as [|l rest IH]; intros w.
  - exists []. split; [apply emits_ret|]. split; [constructor | reflexivity].
  - destruct (cancel_level_emits sym l w) as (l' & Hl & Hclosed & Hsame).
    destruct (IH {| exchange := exchange w;
                    history := history w ++ cancel_requests sym l |})
      as (rest' & Hrest & Hclosed' & Hsame').
    exists (l' :: rest'). split.
    + cbn [cancel_levels].
      change ((l :: rest) ≫= cancel_requests sym)
        with (cancel_requests sym l ++ (rest ≫= cancel_requests sym))%list.
      eapply emits_bind; [exact Hl|].
      rewrite <- (app_nil_r (rest ≫= _)).
      eapply emits_bind; [exact Hrest|]. apply emits_ret.
    + split; [constructor; assumption|].
      intros Hall. inversion Hall; subst.
      rewrite Hsame, Hsame' by assumption. reflexivity.
Qed.

(** What [stop_grid] does to a registered grid. *)
Lemma stop_grid_registered (id reason : string) (now : Z) h g w :
  active_grids h !! id = Some g ->
  exists ls',
    emits (stop_grid id reason now h) w
      (true,
       set_grid id
         (update g ls' STOPPED (total_profit g) (trades_executed g) true
            (Some now) (Some reason)) h)
      (levels g ≫= cancel_requests (symbol g))
    /\ Forall no_open_order ls'
    /\ (Forall no_open_order (levels g) -> ls' = levels g).
Proof.
  intros Hg. unfold stop_grid. rewrite Hg.
  destruct (cancel_levels_emits (symbol g) (levels g) w)
    as (ls' & Hls & Hclosed & Hsame).
  exists ls'. split; [|split; assumption].
  rewrite <- (app_nil_r (levels g ≫= _)).
  eapply emits_bind; [exact Hls|]. apply emits_ret.
Qed.

(** A stopped grid is not monitored. *)
Lemma monitor_iteration_stopped (id : string) (now : Z) h g w :
  active_grids h !! id = Some g ->
  grid_status g = STOPPED ->
  monitor_iteration id now h w = (h, w).
Proof.
  intros Hg Hst. unfold monitor_iteration, monitoring.
  rewrite Hg, Hst. reflexivity.
Qed.
End Stop.

(** What [stop_grid] requests and leaves, by the references the levels
    hold. *)
Lemma open_order_cancel_of {num : Type} (sym : string) (ref : option Z) :
  match open_order ref with
  | Some oid =>
      cancel_of (num := num) sym ref = [CancelOrder sym oid]
      /\ after_cancel ref = None
  | None => cancel_of (num := num) sym ref = [] /\ after_cancel ref = ref
  end.
Proof. destruct ref as [[|oid|oid]|]; cbn; auto. Qed.

Lemma cancel_level_releases {num : Type} (sym : string)
    (l : level_data num) (w : world num) :
  emits (cancel_level sym l) w
    {| level := level l; price := price l; quantity := quantity l;
       buy_order_id := after_cancel (buy_order_id l);
       sell_order_id := after_cancel (sell_order_id l);
       filled := filled l |}
    (cancel_of sym (buy_order_id l)
     ++ cancel_of sym (sell_order_id l))%list.
Proof.
  unfold cancel_level.
  pose proof (open_order_cancel_of (num := num) sym (buy_order_id l)) as Hb.
  pose proof (open_order_cancel_of (num := num) sym (sell_order_id l)) as Hs.
  destruct l as [lv pr q b s f]. cbn in *.
  destruct (open_order b) as [ob|]; destruct Hb as [-> ->];
    destruct (open_order s) as [os|] eqn:Eos; destruct Hs as [-> ->].
  - eapply (emits_bind _ _ _ _ _ [_] [_]).
    + eapply (emits_bind _ _ _ _ _ [_] []);
        [apply emits_request | apply emits_ret].
    + cbn. rewrite Eos.
      eapply (emits_bind _ _ _ _ _ [_] []);
        [apply emits_request | apply emits_ret].
  - eapply (emits_bind _ _ _ _ _ [_] []).
    + eapply (emits_bind _ _ _ _ _ [_] []);
        [apply emits_request | apply emits_ret].
    + cbn. rewrite Eos. apply emits_ret.
  - eapply (emits_bind _ _ _ _ _ [] [_]); [apply emits_ret|].
    cbn. rewrite Eos.
    eapply (emits_bind _ _ _ _ _ [_] []);
      [apply emits_request | apply emits_ret].
  - eapply (emits_bind _ _ _ _ _ [] []); [apply emits_ret|].
    cbn. rewrite Eos. apply emits_ret.
Qed.

Lemma cancel_levels_releases {num : Type} (sym : string)
    (ls : list (level_data num)) (w : world num) :
  emits (cancel_levels sym ls) w
    ((fun l =>
        {| level := level l; price := price l; quantity := quantity l;
           buy_order_id := after_cancel (buy_order_id l);
           sell_order_id := after_cancel (sell_order_id l);
           filled := filled l |}) <$> ls)
    (ls ≫= fun l =>
       (cancel_of sym (buy_order_id l)
        ++ cancel_of sym (sell_order_id l))%list).
Proof.
  revert w. induction ls as [|l rest IH]; intros w; [apply emits_ret|].
  cbn [cancel_levels].
  change ((l :: rest) ≫= ?f) with (f l ++ (rest ≫= f))%list.
  eapply emits_bind; [apply cancel_level_releases|].
  rewrite <- (app_nil_r (rest ≫= _)).
  eapply emits_bind; [apply IH|]. apply emits_ret.
Qed.

(** C5: for a registered grid [stop_grid] requests one cancellation for
    every buy reference and every sell reference that is an order id
    (not [None], not 0), level by level, the buy before the sell, and
    whatever the exchange answers; it leaves the grid STOPPED with the
    given reason and the stop flag set, every such reference cleared and
    nothing else of the levels changed, and returns [True]; for an unknown
    id it returns [False] and does nothing. *)
Theorem stop_grid_cancels_all {num : Type} {arith : Arith num}
    (id reason : string) (now : Z) (h : GridOrderHandler num)
    (w : world num) :
  match active_grids h !! id with
  | None => stop_grid id reason now h w = ((false, h), w)
  | Some g =>
      fst (fst (stop_grid id reason now h w)) = true
      /\ issued (stop_grid id reason now h) w =
           (levels g ≫= fun l =>
              (cancel_of (symbol g) (buy_order_id l)
               ++ cancel_of (symbol g) (sell_order_id l))%list)
      /\ exists g' : grid_config num,
           active_grids (snd (fst (stop_grid id reason now h w))) !! id
             = Some g'
           /\ grid_status g' = STOPPED
           /\ stop_reason g' = Some reason
           /\ stop_requested g' = true
           /\ levels g' =
                (fun l =>
                   {| level := level l; price := price l;
                      quantity := quantity l;
                      buy_order_id := after_cancel (buy_order_id l);
                      sell_order_id := after_cancel (sell_order_id l);
                      filled := filled l |}) <$> levels g
           /\ Forall (fun l => truthy_id (buy_order_id l) = false
                               /\ truthy_id (sell_order_id l) = false)
                (levels g')
  end.
Proof.
  destruct (active_grids h !! id) as [g|] eqn:Hg.
  - match goal with
    | |- context [fst (fst (?c w))] =>
        assert (Hrun : exists g' : grid_config num,
                   emits c w (true, set_grid id g' h)
                     (levels g ≫= fun l =>
                        (cancel_of (symbol g) (buy_order_id l)
                         ++ cancel_of (symbol g) (sell_order_id l))%list)
                   /\ grid_status g' = STOPPED
                   /\ stop_reason g' = Some reason
                   /\ stop_requested g' = true
                   /\ levels g' =
                        (fun l =>
                           {| level := level l; price := price l;
                              quantity := quantity l;
                              buy_order_id := after_cancel (buy_order_id l);
                              sell_order_id :=
                                after_cancel (sell_order_id l);
                              filled := filled l |}) <$> levels g)
    end.
    { unfold stop_grid. rewrite Hg. eexists. split.
      - rewrite <- (app_nil_r (levels g ≫= _)).
        eapply emits_bind; [apply cancel_levels_releases|]. apply emits_ret.
      - cbn. auto. }
    destruct Hrun as (g' & Hrun & Hst & Hreason & Hflag & Hlevels).
    rewrite (emits_result _ _ _ _ Hrun), (emits_issued _ _ _ _ Hrun).
    split; [reflexivity|]. split; [reflexivity|].
    exists g'. split; [apply lookup_set_grid|].
    repeat (split; [assumption|]).
    rewrite Hlevels. apply Forall_fmap, Forall_forall. intros l _. cbn.
    split; [destruct (buy_order_id l) as [[|?|?]|]
           | destruct (sell_order_id l) as [[|?|?]|]]; reflexivity.
  - unfold stop_grid. rewrite Hg. reflexivity.
Qed.

(** The grid of the scenario whose orders are numbered 1 to 4, stopped on
    an exchange that refuses every cancellation: the four cancellations
    are requested in level order, and the grid is left STOPPED, with the
    reason given and no reference. *)
Lemma stop_grid_cancels_all_witness :
  issued (stop_grid Scenario.grid_name "TAKE_PROFIT" 1700000100
            (snd (fst Scenario.numbered_started)))
    (snd Scenario.numbered_started)
  = [ CancelOrder "BTCUSDT" 1; CancelOrder "BTCUSDT" 2;
      CancelOrder "BTCUSDT" 3; CancelOrder "BTCUSDT" 4 ]
  /\ exists g' : grid_config float,
       active_grids
         (snd (fst (stop_grid Scenario.grid_name "TAKE_PROFIT" 1700000100
                      (snd (fst Scenario.numbered_started))
                      (snd Scenario.numbered_started))))
         !! Scenario.grid_name = Some g'
       /\ grid_status g' = STOPPED
       /\ stop_reason g' = Some "TAKE_PROFIT"
       /\ buy_order_id <$> levels g' = [None; None; None; None; None]
       /\ sell_order_id <$> levels g' = [None; None; None; None; None].
Proof.
  pose proof (stop_grid_cancels_all (num := float) Scenario.grid_name
                "TAKE_PROFIT" 1700000100
                (snd (fst Scenario.numbered_started))
                (snd Scenario.numbered_started)) as Hstop.
  assert (Hg : exists g : grid_config float,
             active_grids (snd (fst Scenario.numbered_started))
               !! Scenario.grid_name = Some g
             /\ symbol g = "BTCUSDT"
             /\ buy_order_id <$> levels g
                = [Some 1; Some 2; None; None; None]
             /\ sell_order_id <$> levels g
                = [None; None; None; Some 3; Some 4]).
  { eexists. split; [vm_compute; reflexivity|].
    repeat split; vm_compute; reflexivity. }
  destruct Hg as (g & Hg & Hsym & Hbuys & Hsells).
  rewrite Hg in Hstop.
  destruct Hstop as (_ & Hissued & g' & Hg' & Hst & Hreason & _ & Hlevels & _).
  split.
  - rewrite Hissued, Hsym. clear -Hbuys Hsells.
    destruct (levels g) as [|l0 [|l1 [|l2 [|l3 [|l4 [|]]]]]];
      try discriminate Hbuys.
    cbn in Hbuys, Hsells.
    injection Hbuys as Hb0 Hb1 Hb2 Hb3 Hb4.
    injection Hsells as Hs0 Hs1 Hs2 Hs3 Hs4.
    cbn. rewrite Hb0, Hb1, Hb2, Hb3, Hb4, Hs0, Hs1, Hs2, Hs3, Hs4.
    reflexivity.
  - exists g'. split; [exact Hg'|]. split; [exact Hst|].
    split; [exact Hreason|]. rewrite Hlevels. clear -Hbuys Hsells.
    destruct (levels g) as [|l0 [|l1 [|l2 [|l3 [|l4 [|]]]]]];
      try discriminate Hbuys.
    cbn in Hbuys, Hsells.
    injection Hbuys as Hb0 Hb1 Hb2 Hb3 Hb4.
    injection Hsells as Hs0 Hs1 Hs2 Hs3 Hs4.
    cbn. rewrite Hb0, Hb1, Hb2, Hb3, Hb4, Hs0, Hs1, Hs2, Hs3, Hs4.
    split; reflexivity.
Defined.
End GridFacts.

(* ================================================================== *)
(** * Properties of the TWAP controller *)
(* ================================================================== *)

Module TWAPFacts.
Import Py ArithFacts Gateway GatewayFacts TWAP.
Local Open Scope gateway_scope.

Section Execution.
Context {num : Type} {arith : Arith num}.
Implicit Types (w : world num) (c : twap_config num)
  (h : TWAPOrderHandler num).

Lemma lookup_set_twap (id : string) c h :
  active_twaps (set_twap id c h) !! id = Some c.
Proof. apply lookup_insert_eq. Qed.

Lemma accumulate_add (n m : nat) (q acc : num) :
  accumulate (n + m) q acc = accumulate m q (accumulate n q acc).
Proof.
  revert acc. induction n as [|n IH]; intros acc; [reflexivity|].
  cbn. apply IH.
Qed.

Lemma advanced_refl c k : advanced c c k.
Proof.
  repeat split. exists 0%nat. repeat split; [lia | lia].
Qed.

Lemma advanced_trans c1 c2 c3 (k1 k2 : nat) :
  advanced c1 c2 k1 -> advanced c2 c3 k2 -> advanced c1 c3 (k1 + k2).
Proof.
  intros (Hq1 & Hi1 & Ht1 & n1 & Hn1 & He1 & Ha1)
         (Hq2 & Hi2 & Ht2 & n2 & Hn2 & He2 & Ha2).
  repeat split; try congruence.
  exists (n1 + n2)%nat. split; [lia|]. split; [lia|].
  rewrite accumulate_add, Ha2, Hq1, Ha1. reflexivity.
Qed.

Lemma stop_twap_registered (id : string) c h :
  active_twaps h !! id = Some c ->
  stop_twap id h =
    (true,
     set_twap id
       (update c (executed_quantity c) (executed_intervals c) (orders c)
          STOPPED true (end_time c)) h).
Proof. intros Hc. unfold stop_twap. rewrite Hc. reflexivity. Qed.

Lemma execute_interval_advances (id : string) c h w :
  active_twaps h !! id = Some c ->
  exists c', active_twaps (fst (execute_interval id h w)) !! id = Some c'
             /\ advanced c c' 1.
Proof.
  intros Hc. unfold execute_interval. rewrite Hc.
  unfold bind. destruct (place_interval_order c w) as [[o|] w'].
  - cbn. eexists. split; [apply lookup_set_twap|].
    repeat split. exists 1%nat. repeat split; cbn; lia.
  - cbn. exists c. split; [exact Hc | apply advanced_refl].
Qed.

(** The loop invariant: after the intervals [ks] the configuration has
    advanced by at most [length ks] executed intervals. *)
Lemma twap_loop_advances (id : string) (stops : nat -> bool)
    (ks : list nat) c h w :
  active_twaps h !! id = Some c ->
  exists c', active_twaps (fst (twap_loop id stops ks h w)) !! id = Some c'
             /\ advanced c c' (length ks).
Proof.
  revert c h w. induction ks as [|k rest IH]; intros c h w Hc.
  - exists c. split; [exact Hc | apply advanced_refl].
  - cbn [twap_loop]. rewrite Hc.
    destruct (stop_requested c).
    + exists c. split; [exact Hc | apply advanced_refl].
    + destruct (execute_interval_advances id c h w Hc) as (c1 & Hc1 & Ha1).
      unfold bind. destruct (execute_interval id h w) as [h1 w1].
      cbn in Hc1.
      destruct (stops k).
      * rewrite (stop_twap_registered id c1 h1 Hc1). cbn [snd].
        set (c2 := update c1 (executed_quantity c1) (executed_intervals c1)
                     (orders c1) STOPPED true (end_time c1)).
        destruct (IH c2 (set_twap id c2 h1) w1 (lookup_set_twap id c2 h1))
          as (c' & Hc' & Ha').
        exists c'. split; [exact Hc'|].
        change (length (k :: rest)) with (1 + length rest)%nat.
        eapply advanced_trans; [exact Ha1|].
        destruct Ha' as (Hq & Hi & Ht & n & Hn & He & Hacc).
        repeat split; try assumption. exists n. auto.
      * destruct (IH c1 h1 w1 Hc1) as (c' & Hc' & Ha').
        exists c'. split; [exact Hc'|].
        change (length (k :: rest)) with (1 + length rest)%nat.
        eapply advanced_trans; eassumption.
Qed.
End Execution.

(** ** Exact arithmetic *)

Lemma exact_accumulate (n : nat) (q acc : Qc) :
  accumulate (arith := exact) n q acc
  = (acc + of_int (Arith := exact) (Z.of_nat n) * q)%Qc.
Proof.
  revert acc. induction n as [|n IH]; intros acc.
  - change (acc = (acc + 0 * q)%Qc). ring.
  - cbn [accumulate]. rewrite IH.
    replace (Z.of_nat (S n)) with (Z.of_nat n + 1) by lia.
    rewrite exact_of_int_succ.
    generalize (of_int (Arith := exact) (Z.of_nat n)). intros x.
    change ((acc + q + x * q = acc + (x + 1) * q)%Qc). ring.
Qed.


(** C4, as amended: with [N >= 2] intervals, [N] small enough to be
    promoted to the arithmetic of the inputs and [duration_minutes / N] not
    overflowing, [start_twap] registers a TWAP whose per-interval quantity
    is the quotient [Q / N] in that arithmetic; at every point of the
    execution loop, whatever the exchange answers and whenever a stop
    arrives, [executed_intervals] is at most the number of intervals run so
    far, hence at most [N], and [executed_quantity] is the quotient added
    [executed_intervals] times; when one of the two divisions overflows,
    [start_twap] returns [None] and registers nothing; over the rationals
    [N] such additions give [Q] exactly. *)
Theorem twap_slices (N : Z) (HN : 2 <= N) :
  (forall (num : Type) (arith : Arith num) (sym sd : string) (total : num)
      (minutes : Z) (otype : string) (limit : option num) (now : Z)
      (h : TWAPOrderHandler num),
      promotes N = true ->
      ratio minutes N <> None ->
      let started := start_twap sym sd total minutes N otype limit now h in
      exists (id : string) (c : twap_config num),
        fst started = Some id
        /\ active_twaps (snd started) !! id = Some c
        /\ quantity_per_interval c = quot total (of_int N)
        /\ intervals c = N
        /\ executed_intervals c = 0
        /\ (forall (stops : nat -> bool) (k : nat) (w : world num),
              (k <= Z.to_nat N)%nat ->
              exists c' : twap_config num,
                active_twaps
                  (fst (twap_loop id stops (seq 0 k) (snd started) w)) !! id
                  = Some c'
                /\ 0 <= executed_intervals c' <= Z.of_nat k
                /\ executed_intervals c' <= N
                /\ executed_quantity c' =
                     accumulate (Z.to_nat (executed_intervals c'))
                       (quot total (of_int N)) (of_int 0)))
  /\ (forall (num : Type) (arith : Arith num) (sym sd : string)
        (total : num) (minutes : Z) (otype : string) (limit : option num)
        (now : Z) (h : TWAPOrderHandler num),
        promotes N = false \/ ratio minutes N = None ->
        start_twap sym sd total minutes N otype limit now h
        = (None, {| active_twaps := active_twaps h;
                    twap_counter := twap_counter h + 1 |}))
  /\ (forall total : Qc,
        accumulate (arith := exact) (Z.to_nat N)
          (quot total (of_int N)) (of_int 0) = total).
Proof.
  split; [|split].
  - intros num arith sym sd total minutes otype limit now h Hfits Hratio.
    cbv zeta. unfold start_twap, truediv_int, truediv_ints.
    destruct (Z.eqb_spec N 0) as [E|_]; [lia|]. rewrite Hfits.
    destruct (ratio minutes N) as [duration|]; [|congruence]. cbn [fst snd].
    eexists. eexists. split; [reflexivity|].
    split; [apply lookup_set_twap|]. cbn.
    repeat (split; [reflexivity|]).
    intros stops k w Hk.
    edestruct (twap_loop_advances (make_twap_id (twap_counter h + 1) now)
                 stops (seq 0 k)) as (c' & Hc' & Ha);
      [apply lookup_set_twap|].
    exists c'. split; [exact Hc'|].
    destruct Ha as (_ & _ & _ & n & Hn & He & Hq).
    rewrite length_seq in Hn. cbn in He, Hq.
    rewrite He, Hq.
    replace (Z.to_nat (0 + Z.of_nat n)) with n by lia.
    repeat split; lia.
  - intros num arith sym sd total minutes otype limit now h Hlarge.
    unfold start_twap, truediv_int, truediv_ints.
    destruct (Z.eqb_spec N 0) as [E|_]; [lia|].
    destruct (promotes N); [|reflexivity].
    destruct Hlarge as [E | E]; [discriminate E|]. rewrite E. reflexivity.
  - intros total. rewrite exact_accumulate.
    rewrite Z2Nat.id by lia.
    change ((0 + of_int (Arith := exact) N
                 * (total / of_int (Arith := exact) N))%Qc = total).
    rewrite Qcmult_div_r by (apply exact_of_int_nonzero; lia).
    ring.
Qed.

(** Ten slices of a total of 1, in binary64 and over the rationals: the
    TWAP of the scenario is started with the slice [1 / 10], and after the
    ten turns of its loop, every order accepted, it has executed at most
    ten intervals and holds the slice added that many times. *)
Lemma twap_slices_witness :
  (exists (id : string) (c c' : twap_config float),
      fst Scenario.twap_started = Some id
      /\ active_twaps (snd Scenario.twap_started) !! id = Some c
      /\ quantity_per_interval c = (1 / 10)%float
      /\ executed_intervals c = 0
      /\ active_twaps
           (fst (twap_loop id (fun _ => false) (seq 0 10)
                   (snd Scenario.twap_started)
                   (Scenario.fresh Scenario.accepting))) !! id = Some c'
      /\ executed_intervals c' <= 10
      /\ executed_quantity c'
         = accumulate (Z.to_nat (executed_intervals c')) (1 / 10)%float
             0%float)
  /\ accumulate (arith := exact) 10 (quot 1%Qc (of_int 10)) (of_int 0)
     = 1%Qc.
Proof.
  split.
  - destruct (proj1 (twap_slices 10 ltac:(lia)) float binary64 "BTCUSDT"
                "BUY" 1%float 10 "MARKET" None 1700000000
                Scenario.no_twaps)
      as (id & c & Hid & Hc & Hq & _ & He & Hloop).
    + reflexivity.
    + vm_compute. discriminate.
    + destruct (Hloop (fun _ => false) 10%nat
                  (Scenario.fresh Scenario.accepting))
        as (c' & Hc' & _ & Hbound & Hsum); [vm_compute; lia|].
      exists id, c, c'. repeat split; assumption.
  - exact (proj2 (proj2 (twap_slices 10 ltac:(lia))) 1%Qc).
Defined.

(** An interval count beyond the doubles, and a duration whose quotient
    by the interval count is: a division raises [OverflowError] and
    [start_twap] returns [None]. *)
Example start_twap_overflows :
  fst (start_twap (arith := binary64) "BTCUSDT" "BUY" 1%float 10 (10 ^ 400)
         "MARKET" None 1700000000 Scenario.no_twaps) = None
  /\ fst (start_twap (arith := binary64) "BTCUSDT" "BUY" 1%float (10 ^ 400)
            2 "MARKET" None 1700000000 Scenario.no_twaps) = None.
Proof. split; vm_compute; reflexivity. Qed.

(** C4 fails in binary64: a total of 1 executed in 10 accepted slices of
    [1 / 10] accumulates to 0.9999999999999999, not to 1. *)
Lemma twap_sum_drifts_binary64 :
  exists c : twap_config float,
    active_twaps Scenario.twap_completed !! Scenario.twap_name = Some c
    /\ intervals c = 10
    /\ executed_intervals c = 10
    /\ quantity_per_interval c = (1 / 10)%float
    /\ executed_quantity c
       = accumulate 10 (quantity_per_interval c) 0%float
    /\ PrimFloat.eqb (executed_quantity c) (total_quantity c) = false.
Proof.
  eexists. split; [vm_compute; reflexivity|].
  repeat split; vm_compute; reflexivity.
Qed.
End TWAPFacts.

(* ================================================================== *)
(** * Terminal states and repeated stops *)
(* ================================================================== *)

Module EngineFacts.
Import Py Gateway GatewayFacts.

Section Stopped.
Context {num : Type} {arith : Arith num}.

(** Writing back what a stopped TWAP already holds changes nothing. *)
Lemma stop_twap_stopped (id : string) (h : TWAP.TWAPOrderHandler num)
    (c : TWAP.twap_config num) :
  TWAP.active_twaps h !! id = Some c ->
  TWAP.twap_status c = STOPPED ->
  TWAP.stop_requested c = true ->
  TWAP.stop_twap id h = (true, h).
Proof.
  intros Hc Hst Hreq. rewrite (TWAPFacts.stop_twap_registered id c h Hc).
  f_equal. destruct h as [m n], c. cbn in *. subst.
  unfold TWAP.set_twap, TWAP.update. cbn. f_equal.
  apply insert_id. exact Hc.
Qed.

(** A second [stop_grid] finds nothing to cancel and rewrites only the
    stop time and the stop reason. *)
Lemma stop_grid_stopped (id reason : string) (now : Z)
    (h : Grid.GridOrderHandler num) (w : world num)
    (g : Grid.grid_config num) :
  Grid.active_grids h !! id = Some g ->
  Grid.grid_status g = STOPPED ->
  Grid.stop_requested g = true ->
  Forall Grid.no_open_order (Grid.levels g) ->
  Grid.stop_grid id reason now h w =
    ((true,
      Grid.set_grid id
        (Grid.set_stop_reason (Some reason)
           (Grid.set_stop_time (Some now) g)) h), w).
Proof.
  intros Hg Hst Hreq Hclosed.
  destruct (GridFacts.stop_grid_registered id reason now h g w Hg)
    as (ls' & Hrun & _ & Hsame).
  rewrite (Hsame Hclosed) in Hrun.
  assert (Hnone : Grid.levels g ≫= Grid.cancel_requests (Grid.symbol g)
                  = []).
  { clear -Hclosed. induction Hclosed as [|l ls [Hb Hs] _ IH];
      [reflexivity|].
    cbn. unfold Grid.cancel_requests at 1. rewrite Hb, Hs. exact IH. }
  rewrite Hnone in Hrun. rewrite (emits_nil_eq _ _ _ Hrun).
  do 3 f_equal. destruct g. cbn in *. subst. reflexivity.
Qed.
End Stopped.

(** C1, as amended.  Grid: once a grid is STOPPED, the only terminal
    status the grid controller assigns, a [stop_grid] call leaves it
    STOPPED and a turn of the monitoring loop changes nothing at all.
    TWAP: [stop_twap] has no guard on the current status and leaves the
    instance STOPPED whatever the status was, so STOPPED survives further
    stop calls while COMPLETED and FAILED do not. *)
Theorem terminal_status_under_stop :
  (forall (num : Type) (arith : Arith num) (id : string)
      (h : Grid.GridOrderHandler num) (g : Grid.grid_config num),
      Grid.active_grids h !! id = Some g ->
      Grid.grid_status g = STOPPED ->
      (forall (reason : string) (now : Z) (w : world num),
          exists g' : Grid.grid_config num,
            Grid.active_grids
              (snd (fst (Grid.stop_grid id reason now h w))) !! id = Some g'
            /\ Grid.grid_status g' = STOPPED)
      /\ (forall (now : Z) (w : world num),
            Grid.monitor_iteration id now h w = (h, w)))
  /\ (forall (num : Type) (arith : Arith num) (id : string)
        (h : TWAP.TWAPOrderHandler num) (c : TWAP.twap_config num),
        TWAP.active_twaps h !! id = Some c ->
        exists c' : TWAP.twap_config num,
          TWAP.active_twaps (snd (TWAP.stop_twap id h)) !! id = Some c'
          /\ TWAP.twap_status c' = STOPPED).
Proof.
  split.
  - intros num arith id h g Hg Hst. split.
    + intros reason now w.
      destruct (GridFacts.stop_grid_registered id reason now h g w Hg)
        as (ls' & Hrun & _).
      rewrite (emits_result _ _ _ _ Hrun).
      eexists. split; [apply GridFacts.lookup_set_grid | reflexivity].
    + intros now w. eapply GridFacts.monitor_iteration_stopped; eassumption.
  - intros num arith id h c Hc.
    rewrite (TWAPFacts.stop_twap_registered id c h Hc).
    eexists. split; [apply TWAPFacts.lookup_set_twap | reflexivity].
Qed.

(** The grid of the scenario, stopped: a turn of the monitoring loop
    leaves the handler and the exchange as they are; and the stopped TWAP
    stays STOPPED under a second stop. *)
Lemma terminal_status_under_stop_witness :
  Grid.monitor_iteration Scenario.grid_name 1700000300
    (snd (fst Scenario.grid_stopped)) (snd Scenario.grid_stopped)
  = (snd (fst Scenario.grid_stopped), snd Scenario.grid_stopped)
  /\ exists c' : TWAP.twap_config float,
       TWAP.active_twaps
         (snd (TWAP.stop_twap Scenario.twap_name Scenario.twap_stopped))
         !! Scenario.twap_name = Some c'
       /\ TWAP.twap_status c' = STOPPED.
Proof.
  split.
  - eapply (proj1 terminal_status_under_stop float binary64
              Scenario.grid_name (snd (fst Scenario.grid_stopped))).
    + vm_compute. reflexivity.
    + reflexivity.
  - eapply (proj2 terminal_status_under_stop float binary64
              Scenario.twap_name Scenario.twap_stopped).
    vm_compute. reflexivity.
Defined.

(** C1 fails for TWAP: the TWAP of the scenario has run to its end and is
    COMPLETED, a terminal status; a stop call then makes it STOPPED. *)
Lemma stop_twap_leaves_completed :
  exists c c' : TWAP.twap_config float,
    TWAP.active_twaps Scenario.twap_completed !! Scenario.twap_name = Some c
    /\ TWAP.twap_status c = COMPLETED
    /\ terminal (TWAP.twap_status c) = true
    /\ TWAP.active_twaps
         (snd (TWAP.stop_twap Scenario.twap_name Scenario.twap_completed))
         !! Scenario.twap_name = Some c'
    /\ TWAP.twap_status c' = STOPPED
    /\ TWAP.twap_status c' <> TWAP.twap_status c.
Proof.
  eexists. eexists.
  split; [vm_compute; reflexivity|].
  split; [reflexivity|]. split; [reflexivity|].
  split; [vm_compute; reflexivity|].
  split; [reflexivity | discriminate].
Qed.

(** The other way round, for the record: the execution thread ends by
    marking the TWAP COMPLETED, also when a stop during the first sleep
    has made it STOPPED and one interval of ten was executed. *)
Remark execution_end_overwrites_stop :
  exists c c' : TWAP.twap_config float,
    TWAP.active_twaps Scenario.twap_stopped !! Scenario.twap_name = Some c
    /\ TWAP.twap_status c = STOPPED
    /\ TWAP.active_twaps
         (fst (TWAP._execute_twap Scenario.twap_name (Nat.eqb 0) 1700000060
                 (snd Scenario.twap_started)
                 (Scenario.fresh Scenario.accepting)))
         !! Scenario.twap_name = Some c'
    /\ TWAP.twap_status c' = COMPLETED
    /\ TWAP.executed_intervals c' = 1.
Proof.
  eexists. eexists.
  split; [vm_compute; reflexivity|]. split; [reflexivity|].
  split; [vm_compute; reflexivity|].
  split; reflexivity.
Qed.

(** C8, as amended: a stop call on an instance a stop has already
    stopped returns [True] and raises nothing; [stop_twap] leaves the
    handler as it is; [stop_grid] makes no request and leaves the grid
    as it is except for [stop_time] and [stop_reason], which take the
    values of the second call. *)
Theorem second_stop :
  (forall (num : Type) (arith : Arith num) (id reason : string) (now : Z)
      (h : Grid.GridOrderHandler num) (w : world num)
      (g : Grid.grid_config num),
      Grid.active_grids h !! id = Some g ->
      Grid.grid_status g = STOPPED ->
      Grid.stop_requested g = true ->
      Forall Grid.no_open_order (Grid.levels g) ->
      Grid.stop_grid id reason now h w =
        ((true,
          Grid.set_grid id
            (Grid.set_stop_reason (Some reason)
               (Grid.set_stop_time (Some now) g)) h), w))
  /\ (forall (num : Type) (arith : Arith num) (id : string)
        (h : TWAP.TWAPOrderHandler num) (c : TWAP.twap_config num),
        TWAP.active_twaps h !! id = Some c ->
        TWAP.twap_status c = STOPPED ->
        TWAP.stop_requested c = true ->
        TWAP.stop_twap id h = (true, h)).
Proof.
  split.
  - intros num arith. apply stop_grid_stopped.
  - intros num arith. apply stop_twap_stopped.
Qed.

(** The stopped grid and the stopped TWAP of the scenario, stopped
    again. *)
Lemma second_stop_witness :
  fst (fst Scenario.grid_stopped_again) = true
  /\ snd Scenario.grid_stopped_again = snd Scenario.grid_stopped
  /\ TWAP.stop_twap Scenario.twap_name Scenario.twap_stopped
     = (true, Scenario.twap_stopped).
Proof.
  assert (Hgrid : exists g : Grid.grid_config float,
             Scenario.grid_stopped_again
             = ((true,
                 Grid.set_grid Scenario.grid_name
                   (Grid.set_stop_reason (Some "MANUAL")
                      (Grid.set_stop_time (Some 1700000200) g))
                   (snd (fst Scenario.grid_stopped))),
                snd Scenario.grid_stopped)).
  { eexists.
    eapply (proj1 second_stop float binary64 Scenario.grid_name "MANUAL"
              1700000200 (snd (fst Scenario.grid_stopped))
              (snd Scenario.grid_stopped)).
    - vm_compute. reflexivity.
    - reflexivity.
    - reflexivity.
    - repeat constructor. }
  destruct Hgrid as (g & Hg). rewrite Hg.
  split; [reflexivity|]. split; [reflexivity|].
  eapply (proj2 second_stop float binary64).
  - vm_compute. reflexivity.
  - reflexivity.
  - reflexivity.
Defined.

(** C8 fails for a grid: stopped by the profit target and then stopped
    by hand, the grid of the scenario is STOPPED both times but its
    recorded stop reason and stop time have changed. *)
Lemma second_stop_grid_restamps :
  exists g1 g2 : Grid.grid_config float,
    Grid.active_grids (snd (fst Scenario.grid_stopped))
      !! Scenario.grid_name = Some g1
    /\ Grid.grid_status g1 = STOPPED
    /\ Grid.active_grids (snd (fst Scenario.grid_stopped_again))
         !! Scenario.grid_name = Some g2
    /\ Grid.stop_reason g1 = Some "TAKE_PROFIT"
    /\ Grid.stop_reason g2 = Some "MANUAL"
    /\ g2 <> g1.
Proof.
  eexists. eexists.
  split; [vm_compute; reflexivity|]. split; [reflexivity|].
  split; [vm_compute; reflexivity|].
  split; [reflexivity|]. split; [reflexivity|].
  intros E. apply (f_equal Grid.stop_reason) in E. discriminate E.
Qed.
End EngineFacts.

(* ================================================================== *)
(** * Properties of the order validator *)
(* ================================================================== *)

Module ValidationFacts.
Import Py ArithFacts Validation.

(** [round] is defined on numbers only. *)
Lemma py_round_number (x : float) (k : Z) :
  py_round x = Some k -> is_number x.
Proof.
  unfold py_round, is_number. intros Hk Hx. rewrite Hx in Hk.
  discriminate Hk.
Qed.

(** A price that passes [validate_price] is not a NaN: the tick check
    rounds it. *)
Lemma validate_price_number (symbol : string) (price : float) :
  validate_price symbol (Some price) = Some true -> is_number price.
Proof.
  unfold validate_price.
  destruct (negb (validate_symbol symbol)); [discriminate|].
  destruct (PrimFloat.leb price 0); [discriminate|].
  destruct (rules_in valid_symbols (upper symbol)) as [r|]; [|discriminate].
  destruct (py_round (price / tick_size r)) as [k|] eqn:Hk; [|discriminate].
  intros _. eapply quotient_number, py_round_number, Hk.
Qed.

(** When the basic validations pass, the three prices are numbers. *)
Lemma basics_pass_numbers (symbol : string) (quantity price stop_price
    stop_limit_price : float) (side : string) :
  basics_pass symbol quantity price stop_price stop_limit_price side = true ->
  is_number price /\ is_number stop_price /\ is_number stop_limit_price.
Proof.
  unfold basics_pass, basic_validations.
  destruct (validate_quantity symbol quantity) as [q|]; [|discriminate].
  destruct (validate_price symbol (Some price)) as [p|] eqn:Hp;
    [|discriminate].
  destruct (validate_price symbol (Some stop_price)) as [sp|] eqn:Hsp;
    [|discriminate].
  destruct (validate_price symbol (Some stop_limit_price)) as [slp|] eqn:Hslp;
    [|discriminate].
  cbn. intros Hall.
  destruct (validate_symbol symbol), q, p, sp, slp; try discriminate.
  repeat split; eapply validate_price_number; eassumption.
Qed.

(** The ordering checks, for a side written without surrounding white
    space: when the symbol, the quantity, the three prices and the side
    pass the basic validations, a SELL OCO is accepted exactly when the
    stop price is strictly below the limit price and the stop-limit
    price is at most the stop price, and a BUY OCO exactly when the stop
    price is strictly above the limit price and the stop-limit price is at
    least the stop price. *)
Lemma oco_price_ordering (symbol : string) (quantity price stop_price
    stop_limit_price : float) (side : string) :
  basics_pass symbol quantity price stop_price stop_limit_price side = true ->
  (upper side = "SELL" ->
   (validate_oco_order symbol quantity price stop_price stop_limit_price
      side = Some true
    <-> PrimFloat.ltb stop_price price = true
        /\ PrimFloat.leb stop_limit_price stop_price = true))
  /\ (upper side = "BUY" ->
      (validate_oco_order symbol quantity price stop_price stop_limit_price
         side = Some true
       <-> PrimFloat.ltb price stop_price = true
           /\ PrimFloat.leb stop_price stop_limit_price = true))
  /\ (exists accepted : bool,
        validate_oco_order symbol quantity price stop_price
          stop_limit_price side = Some accepted).
Proof.
  intros Hbasic.
  destruct (basics_pass_numbers _ _ _ _ _ _ Hbasic) as (Hp & Hsp & Hslp).
  unfold validate_oco_order. unfold basics_pass in Hbasic.
  destruct (basic_validations symbol quantity price stop_price
              stop_limit_price side) as [vs|]; [|discriminate].
  rewrite Hbasic. cbn [negb].
  rewrite (leb_negb_ltb price stop_price Hp Hsp).
  rewrite (leb_negb_ltb stop_price price Hsp Hp).
  rewrite (leb_negb_ltb stop_limit_price stop_price Hslp Hsp).
  rewrite (leb_negb_ltb stop_price stop_limit_price Hsp Hslp).
  split; [|split].
  - intros Hside. rewrite Hside. cbn.
    destruct (PrimFloat.ltb stop_price price),
             (PrimFloat.ltb stop_price stop_limit_price); cbn;
      split; intros H; try discriminate; try (destruct H; discriminate);
      auto.
  - intros Hside. rewrite Hside. cbn.
    destruct (PrimFloat.ltb price stop_price),
             (PrimFloat.ltb stop_limit_price stop_price); cbn;
      split; intros H; try discriminate; try (destruct H; discriminate);
      auto.
  - destruct (String.eqb (upper side) "SELL").
    + destruct (PrimFloat.ltb stop_price price); cbn;
        [destruct (PrimFloat.ltb stop_price stop_limit_price)|];
        eexists; reflexivity.
    + destruct (String.eqb (upper side) "BUY").
      * destruct (PrimFloat.ltb price stop_price); cbn;
          [destruct (PrimFloat.ltb stop_limit_price stop_price)|];
          eexists; reflexivity.
      * eexists; reflexivity.
Qed.

(** The two examples of the specification, on BTCUSDT with quantity 1: a
    SELL at 100 with the stop at 95 and the stop limit at 94 is accepted;
    with the stop at 105 and the stop limit at 104 it is rejected. *)
Lemma oco_price_ordering_examples :
  validate_oco_order "BTCUSDT" 1 100 95 94 "SELL" = Some true
  /\ validate_oco_order "BTCUSDT" 1 100 105 104 "SELL" = Some false.
Proof.
  split.
  - apply (proj1 (oco_price_ordering "BTCUSDT" 1 100 95 94 "SELL" eq_refl)
             eq_refl).
    split; vm_compute; reflexivity.
  - destruct (oco_price_ordering "BTCUSDT" 1 100 105 104 "SELL" eq_refl)
      as (Hsell & _ & [accepted Hacc]).
    rewrite Hacc. destruct accepted; [|reflexivity].
    apply (proj1 (Hsell eq_refl)) in Hacc. destruct Hacc as [Hlt _].
    vm_compute in Hlt. discriminate Hlt.
Qed.

(** C7 fails on the code for a side written with surrounding white space.
    [validate_side] strips the side before it looks it up, the dispatch of
    [validate_oco_order] compares [side.upper()] as it is: when the basic
    validations pass and the upper-case side is neither [SELL] nor [BUY],
    which then means a padded SELL or BUY, no ordering check is made and
    the order is accepted whatever the three prices are. *)
Theorem oco_padded_side_skips_ordering (symbol : string) (quantity price
    stop_price stop_limit_price : float) (side : string) :
  basics_pass symbol quantity price stop_price stop_limit_price side = true ->
  upper side <> "SELL" ->
  upper side <> "BUY" ->
  validate_side side = true
  /\ (strip (upper side) = "SELL" \/ strip (upper side) = "BUY")
  /\ validate_oco_order symbol quantity price stop_price stop_limit_price
       side = Some true.
Proof.
  intros Hbasic Hsell Hbuy.
  assert (Hside : validate_side side = true).
  { unfold basics_pass, basic_validations in Hbasic.
    destruct (validate_quantity symbol quantity) as [q|]; [|discriminate].
    destruct (validate_price symbol (Some price)) as [p|]; [|discriminate].
    destruct (validate_price symbol (Some stop_price)) as [sp|];
      [|discriminate].
    destruct (validate_price symbol (Some stop_limit_price)) as [slp|];
      [|discriminate].
    cbn in Hbasic. rewrite !andb_true_iff in Hbasic. unfold id in Hbasic.
    tauto. }
  split; [exact Hside|]. split.
  - unfold validate_side, valid_sides in Hside.
    apply bool_decide_eq_true in Hside.
    rewrite !elem_of_cons, elem_of_nil in Hside. tauto.
  - unfold validate_oco_order. unfold basics_pass in Hbasic.
    destruct (basic_validations symbol quantity price stop_price
                stop_limit_price side) as [vs|]; [|discriminate].
    rewrite Hbasic. cbn [negb].
    destruct (String.eqb_spec (upper side) "SELL") as [E|_];
      [contradiction|].
    destruct (String.eqb_spec (upper side) "BUY") as [E|_];
      [contradiction|].
    reflexivity.
Qed.

(** The rejected example of the specification, a SELL at 100 with the stop
    at 105 and the stop limit at 104, is accepted when the side is written
    [" SELL"]. *)
Lemma oco_padded_side_skips_ordering_witness :
  validate_side " SELL" = true
  /\ validate_oco_order "BTCUSDT" 1 100 105 104 " SELL" = Some true.
Proof.
  destruct (oco_padded_side_skips_ordering "BTCUSDT" 1 100 105 104 " SELL")
    as (Hside & _ & Haccepted).
  - vm_compute. reflexivity.
  - vm_compute. discriminate.
  - vm_compute. discriminate.
  - split; [exact Hside | exact Haccepted].
Defined.
End ValidationFacts.

(* ================================================================== *)
(** * Properties of the risk and reward computation *)
(* ================================================================== *)

Module OCOFacts.
Import Py ArithFacts OCO.
Local Open Scope float_scope.

(** The analysis computed when the entry price is not zero. *)
Lemma calculate_risk_reward_ratio_nonzero
    (entry_price take_profit_price stop_loss_price : float) :
  is_zero entry_price = false ->
  let reward := reward_of entry_price take_profit_price in
  let risk := risk_of entry_price take_profit_price stop_loss_price in
  let ratio := if PrimFloat.ltb 0 risk then reward / risk else 0 in
  calculate_risk_reward_ratio entry_price take_profit_price stop_loss_price
  = Some {| risk_amount := risk;
            reward_amount := reward;
            risk_reward_ratio := ratio;
            risk_percentage := risk / entry_price * 100;
            reward_percentage := reward / entry_price * 100;
            is_favorable := PrimFloat.leb 2 ratio |}.
Proof.
  intros Hentry. cbv zeta. unfold calculate_risk_reward_ratio, truediv.
  rewrite Hentry.
  destruct (PrimFloat.ltb 0 (risk_of entry_price take_profit_price
                               stop_loss_price)) eqn:Hrisk.
  - rewrite (positive_is_nonzero _ Hrisk). reflexivity.
  - reflexivity.
Qed.

(** C9, as amended: for every entry price other than zero, the trade is
    long exactly when the take profit is above entry, with reward
    [takeProfit - entry] and risk [entry - stopLoss], and short otherwise,
    with reward [entry - takeProfit] and risk [stopLoss - entry]; the
    analysis returned carries that risk and reward, their ratio (0 when
    the risk is not positive) and a flag that is true exactly when the
    ratio is at least 2. *)
Theorem risk_reward_analysis
    (entry_price take_profit_price stop_loss_price : float) :
  is_zero entry_price = false ->
  exists a : analysis,
    calculate_risk_reward_ratio entry_price take_profit_price
      stop_loss_price = Some a
    /\ (if PrimFloat.ltb entry_price take_profit_price
        then reward_amount a = take_profit_price - entry_price
             /\ risk_amount a = entry_price - stop_loss_price
        else reward_amount a = entry_price - take_profit_price
             /\ risk_amount a = stop_loss_price - entry_price)
    /\ risk_reward_ratio a =
         (if PrimFloat.ltb 0 (risk_amount a)
          then reward_amount a / risk_amount a else 0)
    /\ is_favorable a = PrimFloat.leb 2 (risk_reward_ratio a).
Proof.
  intros Hentry. eexists. split.
  - apply calculate_risk_reward_ratio_nonzero. exact Hentry.
  - cbn. unfold reward_of, risk_of, long_trade.
    destruct (PrimFloat.ltb entry_price take_profit_price); auto.
Qed.

(** A long trade from 100 to 120 with the stop at 90: risk 10, reward 20,
    ratio 2, favorable. *)
Lemma risk_reward_analysis_witness :
  exists a : analysis,
    calculate_risk_reward_ratio 100 120 90 = Some a
    /\ risk_amount a = 10 /\ reward_amount a = 20
    /\ risk_reward_ratio a = 2 /\ is_favorable a = true.
Proof.
  destruct (risk_reward_analysis 100 120 90 eq_refl)
    as (a & Ha & Hdir & Hratio & Hfav).
  exists a. split; [exact Ha|].
  vm_compute in Ha. injection Ha as <-.
  repeat split; reflexivity.
Defined.

(** C9 fails at an entry price of zero: the percentages divide by the
    entry price, and the empty dictionary is returned. *)
Lemma risk_reward_analysis_zero_entry :
  calculate_risk_reward_ratio 0 10 (-5) = None.
Proof. vm_compute. reflexivity. Qed.

(** C10, as amended: the division of the reward by the risk is made only
    with a positive, hence nonzero, risk; when the risk is not positive
    and the entry price is not zero, the analysis carries the ratio 0,
    that risk and the flag false. *)
Theorem risk_ratio_guarded
    (entry_price take_profit_price stop_loss_price : float) :
  is_zero entry_price = false ->
  let reward := reward_of entry_price take_profit_price in
  let risk := risk_of entry_price take_profit_price stop_loss_price in
  (PrimFloat.ltb 0 risk = true -> truediv reward risk = Some (reward / risk))
  /\ (PrimFloat.leb risk 0 = true ->
      exists a : analysis,
        calculate_risk_reward_ratio entry_price take_profit_price
          stop_loss_price = Some a
        /\ risk_reward_ratio a = 0
        /\ risk_amount a = risk
        /\ is_favorable a = false).
Proof.
  intros Hentry. cbv zeta. split.
  - intros Hrisk. unfold truediv.
    rewrite (positive_is_nonzero _ Hrisk). reflexivity.
  - intros Hrisk. eexists. split.
    + apply calculate_risk_reward_ratio_nonzero. exact Hentry.
    + cbn. rewrite (nonpositive_not_positive _ Hrisk).
      repeat split; reflexivity.
Qed.

(** A long trade from 100 to 120 with the stop at 110, above entry: the
    risk is -10 and the ratio 0. *)
Lemma risk_ratio_guarded_witness :
  exists a : analysis,
    calculate_risk_reward_ratio 100 120 110 = Some a
    /\ risk_reward_ratio a = 0
    /\ risk_amount a = (-10)
    /\ is_favorable a = false.
Proof.
  destruct (proj2 (risk_ratio_guarded 100 120 110 eq_refl) eq_refl)
    as (a & Ha & Hratio & Hrisk & Hfav).
  exists a. split; [exact Ha|]. split; [exact Hratio|].
  split; [|exact Hfav].
  rewrite Hrisk. vm_compute. reflexivity.
Defined.

(** C10 fails at an entry price of zero: with take profit and stop loss
    at 1 the risk is -1, the ratio is not computed, and the percentage
    divides by zero; no risk amount is returned. *)
Lemma risk_ratio_zero_entry :
  PrimFloat.leb (risk_of 0 1 1) 0 = true
  /\ calculate_risk_reward_ratio 0 1 1 = None.
Proof. split; vm_compute; reflexivity. Qed.
End OCOFacts.

(* ================================================================== *)
(** * Further facts about binary64 comparisons *)
(* ================================================================== *)

Module ArithMore.
Import Py ArithFacts.

Lemma SFcompare_refl (x : spec_float) :
  x <> S754_nan -> SFcompare x x = Some Eq.
Proof.
  destruct x as [s|s| |s m e]; cbn; try congruence; intros _.
  - destruct s; reflexivity.
  - rewrite Z.compare_refl, Pos.compare_cont_refl. destruct s; reflexivity.
Qed.

(** [x <= x] for a number. *)
Lemma leb_refl (x : float) : is_number x -> PrimFloat.leb x x = true.
Proof.
  intros Hx. rewrite leb_spec. unfold SFleb.
  rewrite (SFcompare_refl _ Hx). reflexivity.
Qed.

(** [x < y] gives [x <= y] and excludes [y < x]. *)
Lemma ltb_leb (x y : float) :
  PrimFloat.ltb x y = true -> PrimFloat.leb x y = true.
Proof.
  rewrite ltb_spec, leb_spec. unfold SFltb, SFleb.
  destruct (SFcompare (Prim2SF x) (Prim2SF y)) as [[]|]; congruence.
Qed.

Lemma ltb_asym (x y : float) :
  PrimFloat.ltb x y = true -> PrimFloat.ltb y x = false.
Proof.
  rewrite !ltb_spec. unfold SFltb.
  destruct (SFcompare (Prim2SF x) (Prim2SF y)) as [c|] eqn:Hc;
    [|discriminate].
  rewrite (SFcompare_flip _ _ _ Hc). destruct c; discriminate || reflexivity.
Qed.

(** A comparison with a NaN is false. *)
Lemma nan_comparisons (x y : float) :
  ~ is_number x ->
  PrimFloat.leb x y = false /\ PrimFloat.ltb x y = false
  /\ PrimFloat.leb y x = false /\ PrimFloat.ltb y x = false.
Proof.
  unfold is_number. intros Hx.
  assert (E : Prim2SF x = S754_nan).
  { destruct (Prim2SF x); try (exfalso; apply Hx; discriminate). reflexivity. }
  rewrite !leb_spec, !ltb_spec. unfold SFleb, SFltb. rewrite E.
  cbn. destruct (Prim2SF y); auto.
Qed.

(** The integers that are promoted: the largest double is
    [2 ^ 1024 - 2 ^ 971], and the integers below [2 ^ 1024 - 2 ^ 970]
    round to it or below. *)
Example promotion_boundary :
  float_promotes (2 ^ 1024 - 2 ^ 970 - 1) = true
  /\ float_promotes (2 ^ 1024 - 2 ^ 970) = false
  /\ float_promotes (- (2 ^ 1024 - 2 ^ 970)) = false
  /\ float_promotes (10 ^ 400) = false.
Proof. repeat split; vm_compute; reflexivity. Qed.

(** Quotients of two integers: rounded once, signed zeros, and no value
    beyond the doubles. *)
Example integer_quotients :
  float_ratio 1 10 = Some 0.1%float
  /\ float_ratio 10 4 = Some 2.5%float
  /\ float_ratio 0 (-5) = Some (-0)%float
  /\ float_ratio 5 (10 ^ 400) = Some 0%float
  /\ float_ratio (10 ^ 400) 2 = None
  /\ float_ratio (2 ^ 1024 - 2 ^ 970 - 1) 1
     = Some 0x1.fffffffffffffp+1023%float.
Proof. repeat split; vm_compute; reflexivity. Qed.

Lemma is_number_dec (x : float) : is_number x \/ ~ is_number x.
Proof.
  unfold is_number. destruct (Prim2SF x); auto; left; discriminate.
Qed.
End ArithMore.

(* ================================================================== *)
(** * Further properties of the grid controller *)
(* ================================================================== *)

Module GridMore.
Import Py ArithFacts ArithMore Gateway GatewayFacts Grid GridFacts.
Local Open Scope gateway_scope.

(** ** The sell side of the ladder *)

(** X1: Handling a filled sell at level [i] adds [price_increment * quantity]
    to the profit and one to [trades_executed], marks the level filled and
    clears its sell reference, the other fields of the level staying as
    they were; when [i > 0] and level [i - 1] holds no open buy, exactly
    one order is requested, a buy of level [i]'s quantity at level
    [i - 1]'s price, and the id returned becomes the buy reference of
    level [i - 1]; otherwise nothing is requested.  No other level
    changes. *)
Theorem sell_fill_rearms_previous_level {num : Type} {arith : Arith num}
    (id : string) (i : nat) (h : GridOrderHandler num) (w : world num)
    (g : grid_config num) (l : level_data num) :
  active_grids h !! id = Some g ->
  levels g !! i = Some l ->
  level l = Z.of_nat i ->
  exists g' : grid_config num,
    active_grids (fst (_handle_sell_fill id i h w)) !! id = Some g'
    /\ trades_executed g' = trades_executed g + 1
    /\ total_profit g' =
         add (total_profit g) (mul (price_increment g) (quantity l))
    /\ levels g' !! i =
         Some {| level := level l; price := price l;
                 quantity := quantity l;
                 buy_order_id := buy_order_id l;
                 sell_order_id := None;
                 filled := true |}
    /\ (forall j : nat, j <> i -> S j <> i ->
          levels g' !! j = levels g !! j)
    /\ match i with
       | O => issued (_handle_sell_fill id i h) w = []
       | S j =>
           exists prev : level_data num,
             levels g !! j = Some prev
             /\ let buy :=
                  PlaceOrder (symbol g) "BUY" "LIMIT" (quantity l)
                    (Some (price prev)) (Some "GTC") None in
                if truthy_id (buy_order_id prev) then
                  issued (_handle_sell_fill id i h) w = []
                  /\ levels g' !! j = Some prev
                else
                  issued (_handle_sell_fill id i h) w = [buy]
                  /\ levels g' !! j =
                       Some match exchange w (history w) buy with
                            | Some o =>
                                {| level := level prev;
                                   price := price prev;
                                   quantity := quantity prev;
                                   buy_order_id := orderId o;
                                   sell_order_id := sell_order_id prev;
                                   filled := filled prev |}
                            | None => prev
                            end
       end.
Proof.
  intros Hg Hl Hlevel.
  assert (Hi : (i < length (levels g))%nat) by (eapply lookup_lt_Some; eauto).
  set (l1 := set_filled true l).
  set (g0 := set_trades_executed (trades_executed g + 1)
               (set_total_profit
                  (add (total_profit g)
                     (mul (price_increment g) (quantity l))) g)).
  set (g1 := set_level i (set_filled true) g0).
  assert (Hl0 : levels g0 !! i = Some l) by exact Hl.
  assert (Hls1 : levels g1 = <[i := l1]> (levels g)).
  { subst g1. rewrite (levels_set_level i _ g0 l Hl0). reflexivity. }
  assert (Hl1 : levels g1 !! i = Some l1).
  { rewrite Hls1. apply list_lookup_insert_eq. exact Hi. }
  assert (Hlen1 : length (levels g1) = length (levels g)).
  { rewrite Hls1. apply length_insert. }
  assert (Htr1 : trades_executed g1 = trades_executed g + 1).
  { subst g1. rewrite (proj1 (set_level_fields _ _ _)). reflexivity. }
  assert (Hpr1 : total_profit g1 =
                 add (total_profit g) (mul (price_increment g) (quantity l))).
  { subst g1. unfold set_level. rewrite Hl0. reflexivity. }
  assert (Hprofit : forall (p : nat) (f : level_data num -> level_data num)
                      (x : grid_config num),
             total_profit (set_level p f x) = total_profit x).
  { intros p f x. unfold set_level. destruct (levels x !! p); reflexivity. }
  unfold _handle_sell_fill. rewrite Hg, Hl. fold g0. fold g1. rewrite Hlevel.
  destruct i as [|j].
  - (* the lowest level: nothing below *)
    destruct (Z.leb_spec 0 (Z.of_nat 0 - 1)) as [Hle|_]; [lia|].
    set (g' := set_level 0 (set_sell_order_id None) g1).
    assert (Hls' : levels g' = <[0%nat := set_sell_order_id None l1]> (levels g1)).
    { subst g'. apply levels_set_level. exact Hl1. }
    exists g'.
    rewrite (emits_result _ _ _ _ (emits_ret (set_grid id g' h) w)).
    rewrite (emits_issued _ _ _ _ (emits_ret (set_grid id g' h) w)).
    split; [apply lookup_set_grid|].
    split; [subst g'; rewrite (proj1 (set_level_fields _ _ _)); exact Htr1|].
    split; [subst g'; rewrite Hprofit; exact Hpr1|].
    rewrite Hls', Hls1.
    split; [rewrite list_lookup_insert_eq
              by (rewrite length_insert; exact Hi);
              subst l1; unfold set_sell_order_id, set_filled; cbn;
              rewrite ?Hlevel; reflexivity|].
    split; [|reflexivity].
    intros k Hk _. rewrite !list_lookup_insert_ne by congruence. reflexivity.
  - assert (Hj : (j < length (levels g))%nat) by lia.
    destruct (lookup_lt_is_Some_2 (levels g) j Hj) as [prev Hprev].
    destruct (Z.leb_spec 0 (Z.of_nat (S j) - 1)) as [_|Hlt]; [|lia].
    replace (Z.of_nat (S j) - 1) with (Z.of_nat j) by lia.
    rewrite py_index_in_range by lia.
    assert (Hp1 : levels g1 !! j = Some prev).
    { rewrite Hls1, list_lookup_insert_ne by lia. exact Hprev. }
    rewrite Hp1.
    destruct (truthy_id (buy_order_id prev)) eqn:Hopen; cbn [negb].
    + set (g' := set_level (S j) (set_sell_order_id None) g1).
      assert (Hls' : levels g'
                     = <[S j := set_sell_order_id None l1]> (levels g1)).
      { subst g'. apply levels_set_level. exact Hl1. }
      match goal with
      | |- context [fst (?c w)] =>
          assert (Hrun : emits c w (set_grid id g' h) [])
      end.
      { eapply (emits_bind _ _ _ _ _ [] []); apply emits_ret. }
      exists g'. rewrite (emits_result _ _ _ _ Hrun).
      rewrite (emits_issued _ _ _ _ Hrun).
      split; [apply lookup_set_grid|].
      split; [subst g'; rewrite (proj1 (set_level_fields _ _ _)); exact Htr1|].
      split; [subst g'; rewrite Hprofit; exact Hpr1|].
      rewrite Hls', Hls1.
      split; [rewrite list_lookup_insert_eq
                by (rewrite length_insert; exact Hi);
              subst l1; unfold set_sell_order_id, set_filled; cbn;
              rewrite ?Hlevel; reflexivity|].
      split.
      * intros k Hk _. rewrite !list_lookup_insert_ne by congruence.
        reflexivity.
      * exists prev. split; [exact Hprev|]. cbv zeta. rewrite Hopen.
        split; [reflexivity|].
        rewrite !list_lookup_insert_ne by lia. exact Hprev.
    + set (buy := PlaceOrder (symbol g) "BUY" "LIMIT" (quantity l)
                    (Some (price prev)) (Some "GTC") None).
      set (prev' := match exchange w (history w) buy with
                    | Some o => set_buy_order_id (orderId o) prev
                    | None => prev
                    end).
      set (g2 := match exchange w (history w) buy with
                 | Some o => set_level j (set_buy_order_id (orderId o)) g1
                 | None => g1
                 end).
      set (g' := set_level (S j) (set_sell_order_id None) g2).
      assert (Hls2 : levels g2 = <[j := prev']> (levels g1)).
      { subst g2 prev'. destruct (exchange w (history w) buy).
        - apply levels_set_level. exact Hp1.
        - symmetry. apply list_insert_id. exact Hp1. }
      assert (Hl2 : levels g2 !! S j = Some l1).
      { rewrite Hls2, list_lookup_insert_ne by lia. exact Hl1. }
      assert (Hls' : levels g'
                     = <[S j := set_sell_order_id None l1]> (levels g2)).
      { subst g'. apply levels_set_level. exact Hl2. }
      assert (Htr2 : trades_executed g2 = trades_executed g + 1).
      { subst g2. destruct (exchange w (history w) buy); [|exact Htr1].
        rewrite (proj1 (set_level_fields _ _ _)). exact Htr1. }
      assert (Hpr2 : total_profit g2 = total_profit g1).
      { subst g2. destruct (exchange w (history w) buy); [|reflexivity].
        apply Hprofit. }
      match goal with
      | |- context [fst (?c w)] =>
          assert (Hrun : emits c w (set_grid id g' h) [buy])
      end.
      { eapply (emits_bind _ _ _ _ _ [buy] []); [|apply emits_ret].
        eapply (emits_bind _ _ _ _ _ [buy] []);
          [apply emits_request | apply emits_ret]. }
      exists g'. rewrite (emits_result _ _ _ _ Hrun).
      rewrite (emits_issued _ _ _ _ Hrun).
      split; [apply lookup_set_grid|].
      split; [subst g'; rewrite (proj1 (set_level_fields _ _ _)); exact Htr2|].
      split; [subst g'; rewrite Hprofit, Hpr2; exact Hpr1|].
      rewrite Hls', Hls2, Hls1.
      split; [rewrite list_lookup_insert_eq
                by (rewrite !length_insert; exact Hi);
              subst l1; unfold set_sell_order_id, set_filled; cbn;
              rewrite ?Hlevel; reflexivity|].
      split.
      * intros k Hk HSk. rewrite !list_lookup_insert_ne by congruence.
        reflexivity.
      * exists prev. split; [exact Hprev|]. cbv zeta. rewrite Hopen.
        split; [reflexivity|].
        rewrite list_lookup_insert_ne by lia.
        rewrite list_lookup_insert_eq by (rewrite length_insert; lia).
        reflexivity.
Qed.

(** ** What the operations on one grid leave alone *)

Section Evolution.
Context {num : Type} {arith : Arith num}.
Implicit Types (w : world num) (l : level_data num) (g : grid_config num)
  (h : GridOrderHandler num).

Lemma same_setup_refl g : same_setup g g.
Proof. repeat split. Qed.

Lemma same_setup_update g x (ls : list (level_data num)) (st : status)
    (profit : num) (trades : Z) (stop : bool) (t : option Z)
    (reason : option string) :
  same_setup g x ->
  rung <$> ls = rung <$> levels x ->
  same_setup g (update x ls st profit trades stop t reason).
Proof.
  unfold same_setup. cbn. intros H Hls. rewrite Hls. exact H.
Qed.

Lemma same_setup_set_level g x (p : nat)
    (f : level_data num -> level_data num) :
  same_setup g x ->
  (forall l, rung (f l) = rung l) ->
  same_setup g (set_level p f x).
Proof.
  intros H Hf. unfold set_level.
  destruct (levels x !! p) as [l|] eqn:Hl; [|exact H].
  apply same_setup_update; [exact H|].
  rewrite list_fmap_insert, Hf. apply list_insert_id.
  rewrite list_lookup_fmap, Hl. reflexivity.
Qed.

Lemma same_setup_set_trades_executed g x (n : Z) :
  same_setup g x -> same_setup g (set_trades_executed n x).
Proof. intros H. apply same_setup_update; [exact H | reflexivity]. Qed.

Lemma same_setup_set_total_profit g x (p : num) :
  same_setup g x -> same_setup g (set_total_profit p x).
Proof. intros H. apply same_setup_update; [exact H | reflexivity]. Qed.

Lemma evolves_refl (id : string) h : evolves id h h.
Proof.
  split; [reflexivity|]. split; [reflexivity|].
  destruct (active_grids h !! id) as [g|] eqn:Hg; [|reflexivity].
  exists g. split; [reflexivity | apply same_setup_refl].
Qed.

Lemma evolves_set_grid (id : string) h g g' :
  active_grids h !! id = Some g ->
  same_setup g g' ->
  evolves id h (set_grid id g' h).
Proof.
  intros Hg Hsame. split; [reflexivity|]. split.
  - intros id' Hne. cbn. apply lookup_insert_ne. congruence.
  - rewrite Hg. exists g'. split; [apply lookup_set_grid | exact Hsame].
Qed.

Lemma evolves_trans (id : string) h1 h2 h3 :
  evolves id h1 h2 -> evolves id h2 h3 -> evolves id h1 h3.
Proof.
  intros (Hc1 & Ho1 & Hg1) (Hc2 & Ho2 & Hg2).
  split; [congruence|]. split.
  - intros id' Hne. rewrite Ho2, Ho1 by exact Hne. reflexivity.
  - destruct (active_grids h1 !! id) as [g1|].
    + destruct Hg1 as (g2 & Hl2 & Hs12). rewrite Hl2 in Hg2.
      destruct Hg2 as (g3 & Hl3 & Hs23). exists g3. split; [exact Hl3|].
      unfold same_setup in *.
      destruct Hs12 as (?&?&?&?&?&?&?&?&?&?&?&?).
      destruct Hs23 as (?&?&?&?&?&?&?&?&?&?&?&?).
      repeat split; congruence.
    + rewrite Hg1 in Hg2. exact Hg2.
Qed.

Ltac same_setup_chain :=
  repeat first
    [ apply same_setup_refl
    | apply same_setup_set_trades_executed
    | apply same_setup_set_total_profit
    | apply same_setup_set_level; [|intros ?; reflexivity]
    | apply same_setup_update; [|reflexivity] ].

Lemma handle_buy_fill_evolves (id : string) (p : nat) h w :
  evolves id h (fst (_handle_buy_fill id p h w)).
Proof.
  unfold _handle_buy_fill.
  destruct (active_grids h !! id) as [g|] eqn:Hg; [|apply evolves_refl].
  destruct (levels g !! p) as [l|]; [|apply evolves_refl].
  unfold bind, ret, _place_grid_order, request.
  repeat match goal with
         | |- context [if ?b then _ else _] => destruct b
         | |- context [match ?x with Some _ => _ | None => _ end] =>
             destruct x
         end; cbn [fst];
    apply (evolves_set_grid id h g _ Hg); same_setup_chain.
Qed.

Lemma handle_sell_fill_evolves (id : string) (p : nat) h w :
  evolves id h (fst (_handle_sell_fill id p h w)).
Proof.
  unfold _handle_sell_fill.
  destruct (active_grids h !! id) as [g|] eqn:Hg; [|apply evolves_refl].
  destruct (levels g !! p) as [l|]; [|apply evolves_refl].
  unfold bind, ret, _place_grid_order, request.
  repeat match goal with
         | |- context [if ?b then _ else _] => destruct b
         | |- context [match ?x with Some _ => _ | None => _ end] =>
             destruct x
         end; cbn [fst];
    apply (evolves_set_grid id h g _ Hg); same_setup_chain.
Qed.

Lemma check_level_orders_evolves (id : string) (p : nat) h w :
  evolves id h (fst (_check_level_orders id p h w)).
Proof.
  unfold _check_level_orders.
  destruct (active_grids h !! id) as [g|] eqn:Hg; [|apply evolves_refl].
  unfold bind.
  assert (Hfirst : forall w0,
             evolves id h
               (fst (match open_ref buy_order_id id p h with
                     | Some oid =>
                         bind (request (GetOrderStatus (symbol g) oid))
                           (fun buy_status =>
                              if is_filled buy_status
                              then _handle_buy_fill id p h else ret h)
                     | None => ret h
                     end w0))).
  { intros w0. destruct (open_ref buy_order_id id p h); [|apply evolves_refl].
    unfold bind, request. cbn.
    destruct (is_filled _); [apply handle_buy_fill_evolves | apply evolves_refl]. }
  specialize (Hfirst w). unfold bind in Hfirst.
  match goal with
  | |- context [let (a, w') := ?c in _] => destruct c as [h1 w1]
  end.
  cbn [fst] in Hfirst. eapply evolves_trans; [exact Hfirst|].
  destruct (open_ref sell_order_id id p h1); [|apply evolves_refl].
  unfold request. cbn.
  destruct (is_filled _); [apply handle_sell_fill_evolves | apply evolves_refl].
Qed.

Lemma check_levels_evolves (id : string) (ps : list nat) h w :
  evolves id h (fst (check_levels id ps h w)).
Proof.
  revert h w. induction ps as [|p rest IH]; intros h w; [apply evolves_refl|].
  cbn [check_levels]. unfold bind.
  pose proof (check_level_orders_evolves id p h w) as Hp.
  destruct (_check_level_orders id p h w) as [h1 w1]. cbn [fst] in Hp.
  eapply evolves_trans; [exact Hp | apply IH].
Qed.

Lemma cancel_level_rung (sym : string) l w :
  rung (fst (cancel_level sym l w)) = rung l.
Proof.
  unfold cancel_level, bind, ret, request.
  destruct (open_order (buy_order_id l)); cbn;
    match goal with
    | |- context [open_order ?x] => destruct (open_order x)
    end; reflexivity.
Qed.

Lemma cancel_levels_rung (sym : string) (ls : list (level_data num)) w :
  rung <$> fst (cancel_levels sym ls w) = rung <$> ls.
Proof.
  revert w. induction ls as [|l rest IH]; intros w; [reflexivity|].
  cbn [cancel_levels]. unfold bind.
  pose proof (cancel_level_rung sym l w) as Hl.
  destruct (cancel_level sym l w) as [l' w1]. cbn [fst] in Hl.
  pose proof (IH w1) as Hrest.
  destruct (cancel_levels sym rest w1) as [rest' w2]. cbn [fst] in Hrest.
  cbn. rewrite Hl, Hrest. reflexivity.
Qed.

Lemma stop_grid_evolves (id reason : string) (now : Z) h w :
  evolves id h (snd (fst (stop_grid id reason now h w))).
Proof.
  unfold stop_grid.
  destruct (active_grids h !! id) as [g|] eqn:Hg; [|apply evolves_refl].
  unfold bind.
  pose proof (cancel_levels_rung
                (symbol (set_status STOPPING (set_stop_requested true g)))
                (levels (set_status STOPPING (set_stop_requested true g))) w)
    as Hls.
  destruct (cancel_levels _ _ w) as [ls w1]. cbn [fst] in Hls. cbn [fst snd ret].
  apply (evolves_set_grid id h g _ Hg).
  unfold set_stop_reason, set_stop_time, set_status, set_levels,
    set_stop_requested.
  repeat (apply same_setup_update; [|first [reflexivity | exact Hls]]).
  apply same_setup_refl.
Qed.

Lemma check_take_profit_evolves (id : string) (now : Z) h w :
  evolves id h (fst (_check_take_profit id now h w)).
Proof.
  unfold _check_take_profit.
  destruct (active_grids h !! id) as [g|] eqn:Hg; [|apply evolves_refl].
  destruct (take_profit_percentage g) as [tp|]; [|apply evolves_refl].
  destruct (negb (truthy tp)); [apply evolves_refl|].
  destruct (truediv _ _); [|apply evolves_refl].
  destruct (geb _ _); [|apply evolves_refl].
  unfold bind.
  pose proof (stop_grid_evolves id "TAKE_PROFIT" now h w) as Hs.
  destruct (stop_grid id "TAKE_PROFIT" now h w) as [[b h'] w']. exact Hs.
Qed.
End Evolution.

(** X2: A pass of the monitoring loop over a grid, and a stop of it, whatever
    the exchange answers, leave the id counter and every other grid as they
    are, keep the grid registered, and change nothing of its setup: bounds,
    level count, quantities, price increment, type, profit target, start
    time and the number, price and quantity of every level. *)
Theorem grid_operations_keep_setup {num : Type} {arith : Arith num}
    (id : string) (now : Z) (h : GridOrderHandler num) (w : world num) :
  evolves id h (fst (monitor_iteration id now h w))
  /\ forall reason : string,
       evolves id h (snd (fst (stop_grid id reason now h w))).
Proof.
  split; [|intros reason; apply stop_grid_evolves].
  unfold monitor_iteration.
  destruct (active_grids h !! id) as [g|] eqn:Hg; [|apply evolves_refl].
  destruct (monitoring g); [|apply evolves_refl].
  unfold bind.
  pose proof (check_levels_evolves id (seq 0 (length (levels g))) h w) as Hc.
  destruct (check_levels id _ h w) as [h1 w1]. cbn [fst] in Hc.
  eapply evolves_trans; [exact Hc|].
  destruct (active_grids h1 !! id) as [g1|]; [|apply evolves_refl].
  destruct (truthy_opt _); [apply check_take_profit_evolves | apply evolves_refl].
Qed.

(** ** A pass without fills, and the profit target *)

Section Passes.
Context {num : Type} {arith : Arith num}.
Implicit Types (w : world num) (l : level_data num) (g : grid_config num)
  (h : GridOrderHandler num).

(** Visiting the positions of a list in order is visiting its elements. *)
Lemma bind_positions {A B} (f : A -> list B) (pre ls : list A) :
  seq (length pre) (length ls)
    ≫= (fun p => match (pre ++ ls)%list !! p with Some a => f a | None => [] end)
  = ls ≫= f.
Proof.
  revert pre. induction ls as [|a ls IH]; intros pre; [reflexivity|].
  cbn [length seq]. cbn [mbind list_bind].
  change (list_bind ?g ?x) with (x ≫= g).
  rewrite list_lookup_middle by reflexivity. f_equal.
  specialize (IH (pre ++ [a])%list).
  rewrite length_app, <- app_assoc in IH. cbn in IH.
  rewrite Nat.add_1_r in IH. exact IH.
Qed.

Lemma check_level_orders_quiet (id : string) (p : nat) h w g :
  active_grids h !! id = Some g ->
  (forall (past : list (call num)) (c : call num),
      is_filled (exchange w past c) = false) ->
  emits (_check_level_orders id p h) w h
    match levels g !! p with
    | Some l => status_requests (symbol g) l
    | None => []
    end.
Proof.
  intros Hg Hquiet. unfold _check_level_orders. rewrite Hg.
  assert (Hbuy : open_ref buy_order_id id p h
                 = match levels g !! p with
                   | Some l => open_order (buy_order_id l)
                   | None => None
                   end) by (unfold open_ref; rewrite Hg; reflexivity).
  assert (Hsell : open_ref sell_order_id id p h
                  = match levels g !! p with
                    | Some l => open_order (sell_order_id l)
                    | None => None
                    end) by (unfold open_ref; rewrite Hg; reflexivity).
  assert (Hsecond : forall w',
             exchange w' = exchange w ->
             emits
               match open_ref sell_order_id id p h with
               | Some oid =>
                   bind (request (GetOrderStatus (symbol g) oid))
                     (fun sell_status =>
                        if is_filled sell_status
                        then _handle_sell_fill id p h else ret h)
               | None => ret h
               end w' h
               match open_ref sell_order_id id p h with
               | Some oid => [GetOrderStatus (symbol g) oid]
               | None => []
               end).
  { intros w' Hw'. destruct (open_ref sell_order_id id p h); [|apply emits_ret].
    eapply (emits_bind _ _ _ _ _ [_] []); [apply emits_request|].
    rewrite Hw', Hquiet. apply emits_ret. }
  assert (Hcs : match levels g !! p with
                | Some l => status_requests (symbol g) l
                | None => []
                end
                = (match open_ref buy_order_id id p h with
                   | Some oid => [GetOrderStatus (symbol g) oid]
                   | None => []
                   end
                   ++ match open_ref sell_order_id id p h with
                      | Some oid => [GetOrderStatus (symbol g) oid]
                      | None => []
                      end)%list).
  { rewrite Hbuy, Hsell. unfold status_requests.
    destruct (levels g !! p); reflexivity. }
  rewrite Hcs. clear Hcs Hbuy Hsell.
  eapply emits_bind.
  - destruct (open_ref buy_order_id id p h); [|apply emits_ret].
    eapply (emits_bind _ _ _ _ _ [_] []); [apply emits_request|].
    rewrite Hquiet. apply emits_ret.
  - apply Hsecond. reflexivity.
Qed.

Lemma check_levels_quiet (id : string) (ps : list nat) h w g :
  active_grids h !! id = Some g ->
  (forall (past : list (call num)) (c : call num),
      is_filled (exchange w past c) = false) ->
  emits (check_levels id ps h) w h
    (ps ≫= fun p => match levels g !! p with
                    | Some l => status_requests (symbol g) l
                    | None => []
                    end).
Proof.
  intros Hg. revert w. induction ps as [|p rest IH]; intros w Hquiet.
  - apply emits_ret.
  - cbn [check_levels]. cbn [mbind list_bind].
    eapply emits_bind; [apply (check_level_orders_quiet id p h w g Hg Hquiet)|].
    apply IH. exact Hquiet.
Qed.

Lemma check_take_profit_not_reached (id : string) (now : Z) h w g :
  active_grids h !! id = Some g ->
  take_profit_reached g = false ->
  _check_take_profit id now h w = (h, w).
Proof.
  intros Hg Hno. unfold _check_take_profit. rewrite Hg.
  unfold take_profit_reached in Hno.
  destruct (take_profit_percentage g) as [tp|]; [|reflexivity].
  destruct (truthy tp); [|reflexivity]. cbn in Hno |- *.
  destruct (truediv _ _); [|reflexivity].
  rewrite Hno. reflexivity.
Qed.
End Passes.

(** X3: A pass of the monitoring loop over a running grid during which the
    exchange reports no order as filled, and with the profit target not
    reached, asks for the status of every open buy and open sell, level by
    level, requests nothing else, and leaves the handler as it is. *)
Theorem monitoring_pass_without_fills {num : Type} {arith : Arith num}
    (id : string) (now : Z) (h : GridOrderHandler num) (w : world num)
    (g : grid_config num) :
  active_grids h !! id = Some g ->
  monitoring g = true ->
  take_profit_reached g = false ->
  (forall (past : list (call num)) (c : call num),
      is_filled (exchange w past c) = false) ->
  fst (monitor_iteration id now h w) = h
  /\ issued (monitor_iteration id now h) w
     = levels g ≫= status_requests (symbol g).
Proof.
  intros Hg Hmon Hprofit Hquiet.
  assert (Hrun : emits (monitor_iteration id now h) w h
                   (levels g ≫= status_requests (symbol g))).
  { unfold monitor_iteration. rewrite Hg, Hmon.
    rewrite <- (bind_positions (status_requests (symbol g)) [] (levels g)).
    rewrite <- (app_nil_r (_ ≫= _)).
    eapply emits_bind; [apply (check_levels_quiet id _ h w g Hg Hquiet)|].
    rewrite Hg.
    destruct (truthy_opt (take_profit_percentage g)); [|apply emits_ret].
    unfold emits.
    rewrite (check_take_profit_not_reached id now h _ g Hg Hprofit).
    cbn. rewrite app_nil_r. reflexivity. }
  split; [exact (emits_result _ _ _ _ Hrun) | exact (emits_issued _ _ _ _ Hrun)].
Qed.

(** X4: When the profit percentage of a registered grid has reached the
    configured target, [_check_take_profit] stops the grid: every open
    order is cancelled and the grid is left STOPPED with the reason
    TAKE_PROFIT.  When no target is set, the target is zero, the investment
    [total_quantity * lower_price] is zero, or the target is not reached,
    it does nothing. *)
Theorem take_profit_stops_grid {num : Type} {arith : Arith num}
    (id : string) (now : Z) (h : GridOrderHandler num) (w : world num)
    (g : grid_config num) :
  active_grids h !! id = Some g ->
  if take_profit_reached g then
    issued (_check_take_profit id now h) w
    = levels g ≫= cancel_requests (symbol g)
    /\ exists g' : grid_config num,
         active_grids (fst (_check_take_profit id now h w)) !! id = Some g'
         /\ grid_status g' = STOPPED
         /\ stop_reason g' = Some "TAKE_PROFIT"
         /\ Forall no_open_order (levels g')
  else _check_take_profit id now h w = (h, w).
Proof.
  intros Hg. destruct (take_profit_reached g) eqn:Hreach.
  - destruct (stop_grid_registered id "TAKE_PROFIT" now h g w Hg)
      as (ls' & Hstop & Hclosed & _).
    match type of Hstop with
    | emits _ _ (_, ?hx) _ =>
        assert (Hrun : emits (_check_take_profit id now h) w hx
                         (levels g ≫= cancel_requests (symbol g)))
    end.
    { unfold _check_take_profit. rewrite Hg.
      unfold take_profit_reached in Hreach.
      destruct (take_profit_percentage g) as [tp|]; [|discriminate].
      destruct (truthy tp); [|discriminate]. cbn in Hreach |- *.
      destruct (truediv _ _); [|discriminate]. rewrite Hreach.
      rewrite <- (app_nil_r (_ ≫= _)).
      eapply emits_bind; [exact Hstop|]. apply emits_ret. }
    rewrite (emits_result _ _ _ _ Hrun), (emits_issued _ _ _ _ Hrun).
    split; [reflexivity|].
    eexists. split; [apply lookup_set_grid|]. cbn. auto.
  - apply (check_take_profit_not_reached id now h w g Hg Hreach).
Qed.

(** ** Starting a grid *)

Section Starting.
Context {num : Type} {arith : Arith num}.
Implicit Types (w : world num) (l : level_data num) (g : grid_config num)
  (h : GridOrderHandler num) (c : counters).

Lemma place_initial_level_rung (sym gtype : string) (cur : num) l c w :
  rung (fst (fst (place_initial_level sym gtype cur l c w))) = rung l.
Proof.
  unfold place_initial_level, place_buy, place_sell, _place_grid_order,
    bind, ret, request.
  repeat match goal with
         | |- context [if ?b then _ else _] => destruct b
         | |- context [match ?x with Some _ => _ | None => _ end] =>
             destruct x
         end; reflexivity.
Qed.

Lemma place_initial_levels_rungs (sym gtype : string) (cur : num)
    (ls : list (level_data num)) c w :
  rung <$> fst (fst (place_initial_levels sym gtype cur ls c w))
  = rung <$> ls.
Proof.
  revert c w. induction ls as [|l rest IH]; intros c w; [reflexivity|].
  cbn [place_initial_levels]. unfold bind.
  pose proof (place_initial_level_rung sym gtype cur l c w) as Hl.
  destruct (place_initial_level sym gtype cur l c w) as [[l' c'] w1].
  cbn [fst] in Hl.
  pose proof (IH c' w1) as Hrest.
  destruct (place_initial_levels sym gtype cur rest c' w1)
    as [[rest' c''] w2].
  cbn [fst] in Hrest. cbn. rewrite Hl, Hrest. reflexivity.
Qed.

(** Initial placement either fails before any level is touched, or
    rewrites the levels of the grid, keeping their rungs. *)
Lemma place_initial_grid_orders_result (id : string) h g w :
  active_grids h !! id = Some g ->
  (fst (_place_initial_grid_orders id h w) = (false, h))
  \/ exists (ok : bool) (ls : list (level_data num)),
       fst (_place_initial_grid_orders id h w)
       = (ok, set_grid id (set_levels ls g) h)
       /\ rung <$> ls = rung <$> levels g
       /\ (levels g = [] -> ok = false).
Proof.
  intros Hg. unfold _place_initial_grid_orders. rewrite Hg.
  unfold bind, request. cbn [fst snd].
  destruct (exchange w (history w) (GetTicker (symbol g))) as [t|];
    [|left; reflexivity].
  destruct (ticker_price t) as [cur|]; [|left; reflexivity].
  right.
  match goal with
  | |- context [place_initial_levels ?a ?b ?c ?d ?e ?f] =>
      pose proof (place_initial_levels_rungs a b c d e f) as Hr;
      assert (Hempty : d = [] ->
                snd (fst (place_initial_levels a b c d e f)) = (0, 0))
        by (intros ->; reflexivity);
      destruct (place_initial_levels a b c d e f) as [[ls cnt] w1]
  end.
  cbn [fst snd] in Hr, Hempty. cbn [fst ret].
  exists (success_rate_ok cnt), ls. split; [reflexivity|].
  split; [exact Hr|]. intros Hnil. rewrite (Hempty Hnil). reflexivity.
Qed.
End Starting.

(** X5: [start_grid] always advances the id counter.  Under a fresh id it
    returns that id exactly when the grid is left registered, ACTIVE, with
    [grid_levels >= 2] levels and no trade; when it returns [None] (a
    division that raises on the level count, no market price, or fewer
    than 70 percent of the orders accepted) the registry is as it was
    before the call. *)
Theorem start_grid_outcome {num : Type} {arith : Arith num}
    (sym : string) (upper lower : num) (n : Z) (total : num)
    (gtype : string) (tp : option num) (now : Z)
    (h : GridOrderHandler num) (w : world num) :
  let id := make_grid_id (grid_counter h + 1) now in
  let started := fst (start_grid sym upper lower n total gtype tp now h w) in
  active_grids h !! id = None ->
  grid_counter (snd started) = grid_counter h + 1
  /\ match fst started with
     | Some id' =>
         id' = id /\ 2 <= n
         /\ exists g : grid_config num,
              active_grids (snd started) = <[id := g]> (active_grids h)
              /\ grid_status g = ACTIVE
              /\ stop_requested g = false
              /\ trades_executed g = 0
              /\ length (levels g) = Z.to_nat n
     | None => active_grids (snd started) = active_grids h
     end.
Proof.
  cbv zeta. intros Hfresh. unfold start_grid. cbn [grid_counter].
  set (id := make_grid_id (grid_counter h + 1) now).
  set (h1 := {| active_grids := active_grids h;
                grid_counter := grid_counter h + 1 |}).
  destruct (new_grid_config id sym upper lower n total gtype tp now)
    as [g0|] eqn:Hnew; [|split; reflexivity].
  assert (Hshape : levels g0
                   = grid_levels_data lower (price_increment g0)
                       (quantity_per_level g0) n
                   /\ grid_status g0 = ACTIVE /\ stop_requested g0 = false
                   /\ trades_executed g0 = 0 /\ n <> 1).
  { unfold new_grid_config, truediv_int in Hnew.
    destruct (Z.eqb_spec (n - 1) 0); [discriminate|].
    destruct (promotes (n - 1)); [|discriminate].
    destruct (Z.eqb n 0); [discriminate|].
    destruct (promotes n); [|discriminate].
    injection Hnew as <-. cbn. repeat split; lia. }
  destruct Hshape as (Hlevels & Hstatus & Hstop & Htrades & Hn1).
  unfold bind.
  destruct (place_initial_grid_orders_result id (set_grid id g0 h1) g0 w
              (lookup_set_grid id g0 h1)) as [Hfail|(ok & ls & Hrun & Hr & He)].
  - destruct (_place_initial_grid_orders id (set_grid id g0 h1) w)
      as [[ok h2] w1]. cbn [fst] in Hfail. injection Hfail as -> ->.
    cbn. split; [reflexivity|]. apply delete_insert_id. exact Hfresh.
  - destruct (_place_initial_grid_orders id (set_grid id g0 h1) w)
      as [[ok' h2] w1]. cbn [fst] in Hrun. injection Hrun as -> ->.
    destruct ok; cbn.
    + split; [reflexivity|]. split; [reflexivity|].
      assert (Hlen : length ls = Z.to_nat n).
      { rewrite <- (length_fmap rung ls), Hr, length_fmap, Hlevels.
        apply grid_levels_data_length. }
      split.
      * destruct (Z.le_gt_cases 2 n) as [Hle|Hgt]; [exact Hle|].
        assert (Hnil : levels g0 = []).
        { rewrite Hlevels. unfold grid_levels_data.
          replace (Z.to_nat n) with 0%nat by lia. reflexivity. }
        specialize (He Hnil). discriminate He.
      * exists (set_levels ls g0). split; [apply insert_insert_eq|].
        cbn. auto.
    + split; [reflexivity|].
      rewrite delete_insert_eq. apply delete_insert_id. exact Hfresh.
Qed.

(** The grid of the scenario starts under the id its counter and the clock
    give, with five levels. *)
Lemma start_grid_outcome_witness :
  fst (fst Scenario.grid_started) = Some Scenario.grid_name
  /\ exists g : grid_config float,
       active_grids (snd (fst Scenario.grid_started))
       = <[Scenario.grid_name := g]> ∅
       /\ length (levels g) = 5%nat.
Proof.
  pose proof (start_grid_outcome "BTCUSDT" 200%float 100%float 5 10%float
                "NEUTRAL" None 1700000000 Scenario.no_grids
                (Scenario.fresh Scenario.accepting) eq_refl) as [_ Hout].
  change (start_grid "BTCUSDT" 200%float 100%float 5 10%float "NEUTRAL" None
            1700000000 Scenario.no_grids (Scenario.fresh Scenario.accepting))
    with Scenario.grid_started in Hout.
  assert (Hid : fst (fst Scenario.grid_started) = Some Scenario.grid_name)
    by (vm_compute; reflexivity).
  rewrite Hid in Hout. destruct Hout as (_ & _ & g & Hreg & _ & _ & _ & Hlen).
  split; [reflexivity|]. exists g. split; [exact Hreg | exact Hlen].
Defined.

(** ** Status queries and clean-up *)

(** In binary64 the guard [total_investment > 0] keeps the profit
    percentage from dividing by zero. *)
Lemma profit_percentage_defined (g : grid_config float) :
  exists p : float, profit_percentage_of g = Some p.
Proof.
  unfold profit_percentage_of, gtb, truediv.
  destruct (ltb (of_int 0) (mul (total_quantity g) (lower_price g)))
    eqn:Hpos; [|eexists; reflexivity].
  rewrite (positive_is_nonzero _ Hpos). eexists. reflexivity.
Qed.

Lemma no_open_order_counts {num : Type} (ls : list (level_data num)) :
  Forall no_open_order ls ->
  count_levels (fun l => truthy_id (buy_order_id l)) ls = 0%nat
  /\ count_levels (fun l => truthy_id (sell_order_id l)) ls = 0%nat.
Proof.
  unfold count_levels, no_open_order, open_order.
  induction 1 as [|l ls [Hb Hs] _ [IHb IHs]]; [split; reflexivity|].
  cbn.
  destruct (truthy_id (buy_order_id l)) eqn:Eb.
  { destruct (buy_order_id l); [discriminate Hb | discriminate Eb]. }
  destruct (truthy_id (sell_order_id l)) eqn:Es.
  { destruct (sell_order_id l); [discriminate Hs | discriminate Es]. }
  split; assumption.
Qed.

(** X7: In binary64, [get_grid_status] answers for exactly the registered
    grids, and [get_all_active_grids] lists exactly the registered grids
    whose status is ACTIVE or STOPPING, each with its own snapshot. *)
Theorem active_grids_listing (now : Z) (h : GridOrderHandler float)
    (id : string) :
  (get_grid_status id now h = None <-> active_grids h !! id = None)
  /\ get_all_active_grids now h !! id
     = match active_grids h !! id with
       | Some g =>
           if bool_decide (grid_status g = ACTIVE)
              || bool_decide (grid_status g = STOPPING)
           then get_grid_status id now h else None
       | None => None
       end.
Proof.
  split.
  - unfold get_grid_status.
    destruct (active_grids h !! id) as [g|]; [|split; reflexivity].
    destruct (profit_percentage_defined g) as (p & ->).
    split; discriminate.
  - unfold get_all_active_grids. rewrite map_lookup_imap.
    destruct (active_grids h !! id) as [g|] eqn:Hg; [|reflexivity].
    cbn. unfold get_grid_status. rewrite Hg.
    destruct (profit_percentage_defined g) as (p & ->). reflexivity.
Qed.

(** X8: After [stop_grid], the snapshot of the grid shows the status STOPPED
    and no active buy or sell order, with the trades and the profit it had,
    and the grid is no longer listed among the active grids. *)
Theorem stopped_grid_is_not_listed (id reason : string) (now later : Z)
    (h : GridOrderHandler float) (w : world float) (g : grid_config float) :
  active_grids h !! id = Some g ->
  let stopped := snd (fst (stop_grid id reason now h w)) in
  (exists info : grid_status_info float,
      get_grid_status id later stopped = Some info
      /\ info_status info = STOPPED
      /\ active_buy_orders info = 0%nat
      /\ active_sell_orders info = 0%nat
      /\ info_trades_executed info = trades_executed g
      /\ info_total_profit info = total_profit g)
  /\ get_all_active_grids later stopped !! id = None.
Proof.
  intros Hg. cbv zeta.
  destruct (stop_grid_registered id reason now h g w Hg)
    as (ls' & Hrun & Hclosed & _).
  rewrite (emits_result _ _ _ _ Hrun). cbn [snd].
  set (g' := update g ls' STOPPED (total_profit g) (trades_executed g) true
               (Some now) (Some reason)).
  assert (Hg' : active_grids (set_grid id g' h) !! id = Some g')
    by apply lookup_set_grid.
  destruct (no_open_order_counts ls' Hclosed) as [Hb Hs].
  split.
  - unfold get_grid_status. rewrite Hg'.
    destruct (profit_percentage_defined g') as (p & ->).
    eexists. split; [reflexivity|]. cbn. auto 6.
  - unfold get_all_active_grids. rewrite map_lookup_imap, Hg'. cbn.
    unfold get_grid_status. rewrite Hg'.
    destruct (profit_percentage_defined g') as (p & ->). reflexivity.
Qed.

(** The grid of the scenario, stopped. *)
Lemma stopped_grid_is_not_listed_witness :
  get_all_active_grids 1700000150 (snd (fst Scenario.grid_stopped))
    !! Scenario.grid_name = None.
Proof.
  edestruct (stopped_grid_is_not_listed Scenario.grid_name "TAKE_PROFIT"
               1700000100 1700000150 (snd (fst Scenario.grid_started))
               (snd Scenario.grid_started)) as [_ Hlist].
  - vm_compute. reflexivity.
  - exact Hlist.
Defined.

(** X9: [cleanup_stopped_grids] removes the grids whose status is STOPPED
    and whose stop time lies more than 3600 seconds before the clock, and
    no other: a grid that is not STOPPED, or has no stop time, or was
    stopped at most 3600 seconds ago is kept as it is; the number returned
    is the number of grids removed, and the counter is not changed. *)
Theorem cleanup_removes_expired_grids {num : Type} {arith : Arith num}
    (now : Z) (h : GridOrderHandler num) :
  let cleaned := cleanup_stopped_grids now h in
  (forall (id : string) (g : grid_config num) (t : Z),
      active_grids h !! id = Some g ->
      grid_status g = STOPPED ->
      stop_time g = Some t ->
      3600 < now - t ->
      active_grids (snd cleaned) !! id = None)
  /\ (forall (id : string) (g : grid_config num),
        active_grids h !! id = Some g ->
        grid_status g <> STOPPED
        \/ stop_time g = None
        \/ (exists t : Z, stop_time g = Some t /\ now - t <= 3600) ->
        active_grids (snd cleaned) !! id = Some g)
  /\ (forall id : string,
        active_grids h !! id = None ->
        active_grids (snd cleaned) !! id = None)
  /\ size (active_grids h)
     = (fst cleaned + size (active_grids (snd cleaned)))%nat
  /\ grid_counter (snd cleaned) = grid_counter h.
Proof.
  cbv zeta. unfold cleanup_stopped_grids. cbn [fst snd active_grids].
  assert (Hlookup : forall id : string,
             filter (fun kv : string * grid_config num =>
                       expired now kv.2 <> true) (active_grids h) !! id
             = match active_grids h !! id with
               | Some g => if expired now g then None else Some g
               | None => None
               end).
  { intros id. destruct (active_grids h !! id) as [g|] eqn:Hg.
    - destruct (expired now g) eqn:He.
      + apply map_lookup_filter_None. right. intros x Hx Hkeep.
        rewrite Hg in Hx. injection Hx as <-. apply Hkeep. exact He.
      + apply map_lookup_filter_Some. split; [exact Hg|].
        cbn. rewrite He. discriminate.
    - apply map_lookup_filter_None. left. exact Hg. }
  split; [|split; [|split; [|split]]].
  - intros id g t Hg Hstatus Htime Hold. rewrite Hlookup, Hg.
    unfold expired. rewrite Hstatus, Htime.
    destruct (Z.ltb_spec 3600 (now - t)); [reflexivity | lia].
  - intros id g Hg Hkeep. rewrite Hlookup, Hg. unfold expired.
    destruct Hkeep as [Hstatus | [Htime | (t & Htime & Hrecent)]].
    + rewrite bool_decide_eq_false_2 by exact Hstatus. reflexivity.
    + rewrite Htime, andb_false_r. reflexivity.
    + rewrite Htime.
      destruct (Z.ltb_spec 3600 (now - t)); [lia|].
      rewrite andb_false_r. reflexivity.
  - intros id Hg. rewrite Hlookup, Hg. reflexivity.
  - rewrite <- map_size_disj_union
      by apply (map_disjoint_filter_complement
                  (fun kv : string * grid_config num =>
                     expired now kv.2 = true)).
    rewrite (map_filter_union_complement
               (fun kv : string * grid_config num => expired now kv.2 = true)).
    reflexivity.
  - reflexivity.
Qed.

(** The grid of the scenario was stopped at 1700000100: a clean-up 3600
    seconds later keeps it, a clean-up one second after that removes
    it. *)
Lemma cleanup_removes_expired_grids_witness :
  (exists g : grid_config float,
      active_grids
        (snd (cleanup_stopped_grids 1700003700
                (snd (fst Scenario.grid_stopped))))
        !! Scenario.grid_name = Some g
      /\ grid_status g = STOPPED)
  /\ active_grids
       (snd (cleanup_stopped_grids 1700003701
               (snd (fst Scenario.grid_stopped))))
       !! Scenario.grid_name = None.
Proof.
  assert (Hg : exists g : grid_config float,
             active_grids (snd (fst Scenario.grid_stopped))
               !! Scenario.grid_name = Some g
             /\ grid_status g = STOPPED
             /\ stop_time g = Some 1700000100).
  { eexists. split; [vm_compute; reflexivity|]. split; reflexivity. }
  destruct Hg as (g & Hg & Hstatus & Htime).
  split.
  - exists g. split; [|exact Hstatus].
    apply (proj1 (proj2 (cleanup_removes_expired_grids (num := float)
                           1700003700 (snd (fst Scenario.grid_stopped))))
             Scenario.grid_name g Hg).
    right. right. exists 1700000100. split; [exact Htime | lia].
  - apply (proj1 (cleanup_removes_expired_grids (num := float) 1700003701
                    (snd (fst Scenario.grid_stopped)))
             Scenario.grid_name g 1700000100 Hg Hstatus Htime).
    lia.
Defined.

(** ** How many requests a start makes *)

Section StartRequests.
Context {num : Type} {arith : Arith num}.
Implicit Types (w : world num) (g : grid_config num)
  (h : GridOrderHandler num).

(** Initial placement asks for the price and then, if it got one, makes
    the attempts of every level. *)
Lemma place_initial_grid_orders_requests (id : string) h g w :
  active_grids h !! id = Some g ->
  exists r cs,
    emits (_place_initial_grid_orders id h) w r cs
    /\ (cs = [GetTicker (symbol g)]
        \/ exists cur : num,
             cs = GetTicker (symbol g)
                  :: (levels g
                        ≫= initial_orders_at (symbol g) (grid_type g) cur)).
Proof.
  intros Hg.
  destruct (exchange w (history w) (GetTicker (symbol g))) as [t|] eqn:Ht.
  - destruct (ticker_price t) as [cur|] eqn:Hcur.
    + destruct (place_initial_grid_orders_emits id h g w t cur Hg Ht Hcur)
        as (r & Hr).
      exists r. eexists. split; [exact Hr|]. right. exists cur. reflexivity.
    + eexists. exists [GetTicker (symbol g)]. split; [|left; reflexivity].
      unfold _place_initial_grid_orders. rewrite Hg.
      eapply (emits_bind _ _ _ _ _ [_] []); [apply emits_request|].
      rewrite Ht, Hcur. apply emits_ret.
  - eexists. exists [GetTicker (symbol g)]. split; [|left; reflexivity].
    unfold _place_initial_grid_orders. rewrite Hg.
    eapply (emits_bind _ _ _ _ _ [_] []); [apply emits_request|].
    rewrite Ht. apply emits_ret.
Qed.

Lemma start_grid_requests (sym : string) (upper lower : num) (n : Z)
    (total : num) (gtype : string) (tp : option num) (now : Z) h w :
  issued (start_grid sym upper lower n total gtype tp now h) w = []
  \/ issued (start_grid sym upper lower n total gtype tp now h) w
     = [GetTicker sym]
  \/ exists (cur : num) (ls : list (level_data num)),
       length ls = Z.to_nat n
       /\ issued (start_grid sym upper lower n total gtype tp now h) w
          = GetTicker sym :: (ls ≫= initial_orders_at sym gtype cur).
Proof.
  unfold start_grid. cbn [grid_counter].
  set (id := make_grid_id (grid_counter h + 1) now).
  set (h1 := {| active_grids := active_grids h;
                grid_counter := grid_counter h + 1 |}).
  destruct (new_grid_config id sym upper lower n total gtype tp now)
    as [g0|] eqn:Hnew.
  - assert (Hshape : symbol g0 = sym /\ grid_type g0 = gtype
                     /\ length (levels g0) = Z.to_nat n).
    { unfold new_grid_config in Hnew.
      destruct (truediv_int _ _); [|discriminate].
      destruct (truediv_int _ _); [|discriminate].
      injection Hnew as <-. cbn. repeat split.
      apply grid_levels_data_length. }
    destruct Hshape as (Hsym & Htype & Hlen).
    destruct (place_initial_grid_orders_requests id (set_grid id g0 h1) g0 w
                (lookup_set_grid id g0 h1)) as ([ok h2] & cs & Hrun & Hcs).
    assert (Hall : emits
              (bind (_place_initial_grid_orders id (set_grid id g0 h1))
                 (fun '(success, h2) =>
                    if success : bool then ret (Some id, h2)
                    else ret (None,
                              {| active_grids := delete id (active_grids h2);
                                 grid_counter := grid_counter h2 |})))
              w (if ok then (Some id, h2)
                 else (None, {| active_grids := delete id (active_grids h2);
                                grid_counter := grid_counter h2 |}))
              cs).
    { rewrite <- (app_nil_r cs). eapply emits_bind; [exact Hrun|].
      destruct ok; apply emits_ret. }
    rewrite (emits_issued _ _ _ _ Hall). right.
    rewrite Hsym, Htype in Hcs.
    destruct Hcs as [->|(cur & ->)]; [left; reflexivity|].
    right. exists cur, (levels g0). split; [exact Hlen | reflexivity].
  - left. apply (emits_issued _ _ _ _ (emits_ret _ w)).
Qed.
End StartRequests.

(** In binary64 at most one order is attempted per level. *)
Lemma initial_orders_at_most_one (sym gtype : string) (cur : float)
    (l : level_data float) :
  (length (initial_orders_at sym gtype cur l) <= 1)%nat.
Proof.
  unfold initial_orders_at, gtb, geb.
  destruct (String.eqb gtype "NEUTRAL").
  - destruct (ltb (price l) cur) eqn:Hlt.
    + cbn in Hlt. cbn [ltb binary64]. rewrite (ltb_asym _ _ Hlt). cbn. lia.
    + destruct (ltb cur (price l)); cbn; lia.
  - destruct (String.eqb gtype "LONG").
    + destruct (leb (price l) cur); cbn; lia.
    + destruct (String.eqb gtype "SHORT"); [|cbn; lia].
      destruct (leb cur (price l)); cbn; lia.
Qed.

(** X6: Starting a grid with the level count [n] makes at most
    [1 + max 0 n] requests: the price query and at most one order per
    level, never a buy and a sell at the same level; a level count that is
    not positive gives no level, and the price query is then the only
    request there can be. *)
Theorem start_grid_request_bound (sym : string) (upper lower : float)
    (n : Z) (total : float) (gtype : string) (tp : option float) (now : Z)
    (h : GridOrderHandler float) (w : world float) :
  Z.of_nat
    (length (issued (start_grid sym upper lower n total gtype tp now h) w))
  <= 1 + Z.max 0 n.
Proof.
  enough (Hnat : (length (issued (start_grid sym upper lower n total gtype
                                    tp now h) w) <= S (Z.to_nat n))%nat)
    by lia.
  destruct (start_grid_requests sym upper lower n total gtype tp now h w)
    as [->|[->|(cur & ls & Hlen & ->)]]; cbn [length]; try lia.
  apply le_n_S. rewrite <- Hlen. clear Hlen.
  induction ls as [|l ls IH]; [cbn; lia|].
  cbn [mbind list_bind]. rewrite length_app.
  pose proof (initial_orders_at_most_one sym gtype cur l).
  change (list_bind ?f ?x) with (x ≫= f) in *. cbn [length]. lia.
Qed.

(** With the level count -1 the grid has no level and the price query is
    the one request made: the bound is reached. *)
Lemma start_grid_request_bound_witness :
  Z.of_nat
    (length (issued (start_grid "BTCUSDT" 200%float 100%float (-1) 10%float
                       "NEUTRAL" None 1700000000 Scenario.no_grids)
               (Scenario.fresh Scenario.accepting))) <= 1
  /\ issued (start_grid "BTCUSDT" 200%float 100%float (-1) 10%float
               "NEUTRAL" None 1700000000 Scenario.no_grids)
       (Scenario.fresh Scenario.accepting) = [GetTicker "BTCUSDT"].
Proof.
  split.
  - exact (start_grid_request_bound "BTCUSDT" 200%float 100%float (-1)
             10%float "NEUTRAL" None 1700000000 Scenario.no_grids
             (Scenario.fresh Scenario.accepting)).
  - vm_compute. reflexivity.
Defined.

(** ** The scenario, continued *)

(** The sell at 175 (level 3) of the started grid, order 7, fills: 25 * 2
    are added to the profit, level 3 is marked filled and holds no sell
    order any more, a buy of 2 is requested at 150 (level 2), and the
    order 7 the exchange answers with is recorded there. *)
Lemma sell_fill_rearms_previous_level_witness :
  exists g' : grid_config float,
    active_grids (fst Scenario.target_sold) !! Scenario.grid_name = Some g'
    /\ trades_executed g' = 1
    /\ total_profit g' = 50%float
    /\ levels g' !! 3%nat =
         Some {| level := 3; price := 175%float; quantity := 2%float;
                 buy_order_id := None; sell_order_id := None;
                 filled := true |}
    /\ levels g' !! 2%nat =
         Some {| level := 2; price := 150%float; quantity := 2%float;
                 buy_order_id := Some 7; sell_order_id := None;
                 filled := false |}
    /\ issued (_handle_sell_fill Scenario.grid_name 3
                 (snd (fst Scenario.target_started)))
         (snd Scenario.target_started)
       = [ PlaceOrder "BTCUSDT" "BUY" "LIMIT" 2%float (Some 150%float)
             (Some "GTC") None ].
Proof.
  edestruct (sell_fill_rearms_previous_level (num := float)
               Scenario.grid_name 3 (snd (fst Scenario.target_started))
               (snd Scenario.target_started))
    as (g' & Hg' & Htrades & Hprofit & Hlevel & _ & prev & Hprev & Hnext).
  - vm_compute. reflexivity.
  - vm_compute. reflexivity.
  - reflexivity.
  - vm_compute in Hprev. injection Hprev as <-.
    hnf in Hnext. destruct Hnext as [Hissued Hnext].
    exists g'. split; [exact Hg'|]. split; [exact Htrades|].
    split; [rewrite Hprofit; vm_compute; reflexivity|].
    split; [exact Hlevel|]. split; [exact Hnext | exact Hissued].
Defined.

(** A pass over the started grid while nothing has filled: four status
    queries, nothing else. *)
Lemma monitoring_pass_without_fills_witness :
  fst (monitor_iteration Scenario.grid_name 1700000005
         (snd (fst Scenario.grid_started)) (snd Scenario.grid_started))
  = snd (fst Scenario.grid_started)
  /\ length (issued (monitor_iteration Scenario.grid_name 1700000005
                       (snd (fst Scenario.grid_started)))
               (snd Scenario.grid_started)) = 4%nat.
Proof.
  edestruct (monitoring_pass_without_fills (num := float) Scenario.grid_name
               1700000005 (snd (fst Scenario.grid_started))
               (snd Scenario.grid_started)) as [Hsame Hissued].
  - vm_compute. reflexivity.
  - reflexivity.
  - reflexivity.
  - intros past c. reflexivity.
  - split; [exact Hsame|]. rewrite Hissued. reflexivity.
Defined.

(** With a target of 1 percent and a profit of 50 on an investment of
    1000, the check stops the grid. *)
Lemma take_profit_stops_grid_witness :
  exists g' : grid_config float,
    active_grids
      (fst (_check_take_profit Scenario.grid_name 1700000010
              (fst Scenario.target_sold) (snd Scenario.target_sold)))
      !! Scenario.grid_name = Some g'
    /\ grid_status g' = STOPPED
    /\ stop_reason g' = Some "TAKE_PROFIT".
Proof.
  assert (Hg : exists g : grid_config float,
             active_grids (fst Scenario.target_sold) !! Scenario.grid_name
             = Some g /\ take_profit_reached g = true).
  { eexists. split; [vm_compute; reflexivity | vm_compute; reflexivity]. }
  destruct Hg as (g & Hg & Hreach).
  pose proof (take_profit_stops_grid Scenario.grid_name 1700000010
                (fst Scenario.target_sold) (snd Scenario.target_sold) g Hg)
    as Hstop.
  rewrite Hreach in Hstop.
  destruct Hstop as (_ & g' & Hg' & Hstatus & Hreason & _).
  exists g'. auto.
Defined.
End GridMore.

(* ================================================================== *)
(** * Further properties of the TWAP controller *)
(* ================================================================== *)

Module TWAPMore.
Import Py ArithFacts ArithMore Gateway GatewayFacts TWAP TWAPFacts.
Local Open Scope gateway_scope.

Section Thread.
Context {num : Type} {arith : Arith num}.
Implicit Types (w : world num) (c : twap_config num)
  (h : TWAPOrderHandler num).

Lemma twap_loop_stopped (id : string) (stops : nat -> bool) (ks : list nat)
    c h w :
  active_twaps h !! id = Some c ->
  stop_requested c = true ->
  twap_loop id stops ks h w = (h, w).
Proof.
  intros Hc Hstop. destruct ks as [|k rest]; [reflexivity|].
  cbn [twap_loop]. rewrite Hc, Hstop. reflexivity.
Qed.

Lemma execute_interval_market (id : string) c h w :
  active_twaps h !! id = Some c ->
  order_type c = "MARKET" ->
  emits (execute_interval id h) w
    match exchange w (history w) (market_order c) with
    | Some o =>
        set_twap id
          (update c (add (executed_quantity c) (quantity_per_interval c))
             (executed_intervals c + 1) (orders c ++ [o]) (twap_status c)
             (stop_requested c) (end_time c)) h
    | None => h
    end
    [market_order c].
Proof.
  intros Hc Hmarket. unfold execute_interval, place_interval_order.
  rewrite Hc, Hmarket. cbn [String.eqb Ascii.eqb Bool.eqb].
  eapply (emits_bind _ _ _ _ _ [_] []); [apply emits_request|].
  apply emits_ret.
Qed.

(** The loop of a market TWAP that nobody stops. *)
Lemma twap_loop_market (id : string) (ks : list nat) c h w :
  active_twaps h !! id = Some c ->
  order_type c = "MARKET" ->
  stop_requested c = false ->
  exists h' c',
    emits (twap_loop id (fun _ => false) ks h) w h'
      (replicate (length ks) (market_order c))
    /\ active_twaps h' !! id = Some c'
    /\ twap_status c' = twap_status c
    /\ Z.of_nat (length (orders c')) - executed_intervals c'
       = Z.of_nat (length (orders c)) - executed_intervals c.
Proof.
  revert c h w. induction ks as [|k rest IH]; intros c h w Hc Hm Hs.
  - exists h, c. split; [apply emits_ret|]. auto.
  - pose proof (execute_interval_market id c h w Hc Hm) as Hint.
    set (h1 := match exchange w (history w) (market_order c) with
               | Some o =>
                   set_twap id
                     (update c
                        (add (executed_quantity c) (quantity_per_interval c))
                        (executed_intervals c + 1) (orders c ++ [o])
                        (twap_status c) (stop_requested c) (end_time c)) h
               | None => h
               end) in *.
    assert (Hc1 : exists c1,
               active_twaps h1 !! id = Some c1
               /\ order_type c1 = "MARKET" /\ stop_requested c1 = false
               /\ market_order c1 = market_order c
               /\ twap_status c1 = twap_status c
               /\ Z.of_nat (length (orders c1)) - executed_intervals c1
                  = Z.of_nat (length (orders c)) - executed_intervals c).
    { subst h1. destruct (exchange w (history w) (market_order c)) as [o|].
      - eexists. split; [apply lookup_set_twap|]. cbn.
        repeat split; try assumption. rewrite length_app. cbn. lia.
      - exists c. auto 6. }
    destruct Hc1 as (c1 & Hc1 & Hm1 & Hs1 & Hsame & Hst1 & Hinv1).
    destruct (IH c1 h1
                {| exchange := exchange w;
                   history := history w ++ [market_order c] |} Hc1 Hm1 Hs1)
      as (h' & c' & Hrun & Hc' & Hst' & Hinv').
    exists h', c'. split.
    + cbn [twap_loop length replicate]. rewrite Hc, Hs.
      change (market_order c :: replicate (length rest) (market_order c))
        with ([market_order c] ++ replicate (length rest) (market_order c))%list.
      rewrite Hsame in Hrun.
      eapply emits_bind; [exact Hint|]. fold h1. exact Hrun.
    + split; [exact Hc'|]. split; [congruence | lia].
Qed.

Lemma lookup_mark_completed (id : string) (now : Z) c h :
  active_twaps h !! id = Some c ->
  active_twaps (mark_completed id now h) !! id
  = Some (update c (executed_quantity c) (executed_intervals c) (orders c)
            COMPLETED (stop_requested c) (Some now)).
Proof.
  intros Hc. unfold mark_completed. rewrite Hc. apply lookup_set_twap.
Qed.
End Thread.

(** X10: The execution thread of a registered TWAP always ends by marking it
    COMPLETED with the end time, whatever the exchange answers and whenever
    a stop arrives; it executes at most [intervals] further intervals and
    does not change the slice. *)
Theorem execution_always_completes {num : Type} {arith : Arith num}
    (id : string) (stops : nat -> bool) (now : Z)
    (h : TWAPOrderHandler num) (w : world num) (c : twap_config num) :
  active_twaps h !! id = Some c ->
  exists c' : twap_config num,
    active_twaps (fst (_execute_twap id stops now h w)) !! id = Some c'
    /\ twap_status c' = COMPLETED
    /\ end_time c' = Some now
    /\ quantity_per_interval c' = quantity_per_interval c
    /\ executed_intervals c <= executed_intervals c'
       <= executed_intervals c + Z.of_nat (Z.to_nat (intervals c)).
Proof.
  intros Hc. unfold _execute_twap. rewrite Hc. unfold bind.
  destruct (twap_loop_advances id stops (seq 0 (Z.to_nat (intervals c))) c h
              w Hc) as (c1 & Hc1 & Hq & _ & _ & n & Hn & He & _).
  destruct (twap_loop id stops _ h w) as [h1 w1]. cbn [fst] in Hc1.
  cbn [fst ret]. rewrite (lookup_mark_completed id now c1 h1 Hc1).
  eexists. split; [reflexivity|]. cbn.
  rewrite length_seq in Hn. repeat split; try assumption; lia.
Qed.

(** The TWAP of the scenario ends COMPLETED. *)
Lemma execution_always_completes_witness :
  exists c' : twap_config float,
    active_twaps Scenario.twap_completed !! Scenario.twap_name = Some c'
    /\ twap_status c' = COMPLETED
    /\ end_time c' = Some 1700000600.
Proof.
  edestruct (execution_always_completes (num := float) Scenario.twap_name
               (fun _ => false) 1700000600 (snd Scenario.twap_started)
               (Scenario.fresh Scenario.accepting))
    as (c' & Hc' & Hst & Hend & _).
  - vm_compute. reflexivity.
  - exists c'. split; [exact Hc'|]. split; [exact Hst | exact Hend].
Defined.

(** X11: A TWAP whose stop was requested before its thread ran executes
    nothing: the thread makes no request and only marks the TWAP COMPLETED. *)
Theorem stop_before_execution {num : Type} {arith : Arith num}
    (id : string) (stops : nat -> bool) (now : Z)
    (h : TWAPOrderHandler num) (w : world num) (c : twap_config num) :
  active_twaps h !! id = Some c ->
  stop_requested c = true ->
  _execute_twap id stops now h w = (mark_completed id now h, w)
  /\ issued (_execute_twap id stops now h) w = [].
Proof.
  intros Hc Hstop.
  assert (Hrun : _execute_twap id stops now h w = (mark_completed id now h, w)).
  { unfold _execute_twap. rewrite Hc. unfold bind.
    rewrite (twap_loop_stopped id stops _ c h w Hc Hstop). reflexivity. }
  split; [exact Hrun|]. unfold issued. rewrite Hrun. cbn.
  apply drop_all.
Qed.

(** The TWAP of the scenario, stopped right after it was started. *)
Lemma stop_before_execution_witness :
  issued (_execute_twap Scenario.twap_name (fun _ => false) 1700000001
            (snd (stop_twap Scenario.twap_name (snd Scenario.twap_started))))
    (Scenario.fresh Scenario.accepting) = [].
Proof.
  eapply (stop_before_execution (num := float)).
  - vm_compute. reflexivity.
  - reflexivity.
Defined.

(** X12: A MARKET TWAP that nobody stops requests exactly [intervals] market
    orders, each for the slice, whether the earlier ones were accepted or
    not; it ends COMPLETED, and every executed interval has added one order
    to the order list. *)
Theorem market_twap_requests_every_interval {num : Type} {arith : Arith num}
    (id : string) (now : Z) (h : TWAPOrderHandler num) (w : world num)
    (c : twap_config num) :
  active_twaps h !! id = Some c ->
  order_type c = "MARKET" ->
  stop_requested c = false ->
  issued (_execute_twap id (fun _ => false) now h) w
  = replicate (Z.to_nat (intervals c)) (market_order c)
  /\ exists c' : twap_config num,
       active_twaps (fst (_execute_twap id (fun _ => false) now h w)) !! id
       = Some c'
       /\ twap_status c' = COMPLETED
       /\ Z.of_nat (length (orders c')) - executed_intervals c'
          = Z.of_nat (length (orders c)) - executed_intervals c.
Proof.
  intros Hc Hm Hs.
  destruct (twap_loop_market id (seq 0 (Z.to_nat (intervals c))) c h w Hc Hm
              Hs) as (h' & c' & Hloop & Hc' & _ & Hinv).
  rewrite length_seq in Hloop.
  assert (Hrun : emits (_execute_twap id (fun _ => false) now h) w
                   (mark_completed id now h')
                   (replicate (Z.to_nat (intervals c)) (market_order c))).
  { unfold _execute_twap. rewrite Hc.
    rewrite <- (app_nil_r (replicate _ _)).
    eapply emits_bind; [exact Hloop|]. apply emits_ret. }
  rewrite (emits_issued _ _ _ _ Hrun), (emits_result _ _ _ _ Hrun).
  split; [reflexivity|].
  rewrite (lookup_mark_completed id now c' h' Hc').
  eexists. split; [reflexivity|]. cbn. split; [reflexivity | exact Hinv].
Qed.

(** On an exchange that refuses every order, the TWAP of the scenario
    still requests its ten market orders. *)
Lemma market_twap_requests_every_interval_witness :
  length (issued (_execute_twap Scenario.twap_name (fun _ => false)
                    1700000600 (snd Scenario.twap_started))
            (Scenario.fresh (fun _ _ => None))) = 10%nat.
Proof.
  edestruct (market_twap_requests_every_interval (num := float)
               Scenario.twap_name 1700000600 (snd Scenario.twap_started)
               (Scenario.fresh (fun _ _ => None))) as [Hissued _].
  - vm_compute. reflexivity.
  - reflexivity.
  - reflexivity.
  - rewrite Hissued. reflexivity.
Defined.

(** X13: In binary64, with a limit price that is a number, the adaptive price of
    a BUY slice is never above the limit price and that of any other side
    never below it, whatever the market price; the function makes one
    request, the price query. *)
Theorem adaptive_price_respects_limit (sym sd : string) (base : float)
    (w : world float) :
  is_number base ->
  issued (_get_adaptive_price sym sd (Some base)) w = [GetTicker sym]
  /\ exists p : float,
       fst (_get_adaptive_price sym sd (Some base) w) = Some p
       /\ if String.eqb sd "BUY" then PrimFloat.leb p base = true
          else PrimFloat.leb base p = true.
Proof.
  intros Hbase.
  assert (Hrun : exists r, emits (_get_adaptive_price sym sd (Some base)) w r
                             [GetTicker sym]
                           /\ r = fst (_get_adaptive_price sym sd (Some base) w)).
  { eexists. split.
    - unfold _get_adaptive_price.
      eapply (emits_bind _ _ _ _ _ [_] []); [apply emits_request|].
      apply emits_ret.
    - reflexivity. }
  destruct Hrun as (r & Hrun & _).
  split; [exact (emits_issued _ _ _ _ Hrun)|].
  unfold _get_adaptive_price, bind, request, ret. cbn [fst].
  destruct (exchange w (history w) (GetTicker sym)) as [t|].
  - destruct (ticker_price t) as [market|].
    + destruct (String.eqb sd "BUY").
      * eexists. split; [reflexivity|].
        destruct (ltb (mul market (decimal 1001 3)) base) eqn:Hlt.
        -- apply ltb_leb. exact Hlt.
        -- apply leb_refl. exact Hbase.
      * eexists. split; [reflexivity|]. unfold gtb.
        destruct (ltb base (mul market (decimal 999 3))) eqn:Hlt.
        -- apply ltb_leb. exact Hlt.
        -- apply leb_refl. exact Hbase.
    + exists base. split; [reflexivity|].
      destruct (String.eqb sd "BUY"); apply leb_refl; exact Hbase.
  - exists base. split; [reflexivity|].
    destruct (String.eqb sd "BUY"); apply leb_refl; exact Hbase.
Qed.

(** A BUY limited at 140 while the market quotes 150 bids 140. *)
Lemma adaptive_price_respects_limit_witness :
  exists p : float,
    fst (_get_adaptive_price "BTCUSDT" "BUY" (Some 140%float)
           (Scenario.fresh Scenario.accepting)) = Some p
    /\ PrimFloat.leb p 140 = true.
Proof.
  destruct (adaptive_price_respects_limit "BTCUSDT" "BUY" 140%float
              (Scenario.fresh Scenario.accepting))
    as (_ & p & Hp & Hle).
  - intros E. vm_compute in E. discriminate E.
  - exists p. split; [exact Hp | exact Hle].
Defined.

(** X14: [cleanup_completed_twaps] removes the TWAPs whose status is
    COMPLETED or FAILED and whose end time lies more than 3600 seconds
    before the clock, and no other: a TWAP of another status (RUNNING,
    STOPPED), or without an end time, or ended at most 3600 seconds ago is
    kept as it is; the number returned is the number of TWAPs removed, and
    the counter is not changed. *)
Theorem cleanup_removes_expired_twaps {num : Type} {arith : Arith num}
    (now : Z) (h : TWAPOrderHandler num) :
  let cleaned := cleanup_completed_twaps now h in
  (forall (id : string) (c : twap_config num) (t : Z),
      active_twaps h !! id = Some c ->
      twap_status c = COMPLETED \/ twap_status c = FAILED ->
      end_time c = Some t ->
      3600 < now - t ->
      active_twaps (snd cleaned) !! id = None)
  /\ (forall (id : string) (c : twap_config num),
        active_twaps h !! id = Some c ->
        (twap_status c <> COMPLETED /\ twap_status c <> FAILED)
        \/ end_time c = None
        \/ (exists t : Z, end_time c = Some t /\ now - t <= 3600) ->
        active_twaps (snd cleaned) !! id = Some c)
  /\ (forall id : string,
        active_twaps h !! id = None ->
        active_twaps (snd cleaned) !! id = None)
  /\ size (active_twaps h)
     = (fst cleaned + size (active_twaps (snd cleaned)))%nat
  /\ twap_counter (snd cleaned) = twap_counter h.
Proof.
  cbv zeta. unfold cleanup_completed_twaps. cbn [fst snd active_twaps].
  assert (Hlookup : forall id : string,
             filter (fun kv : string * twap_config num =>
                       expired now kv.2 <> true) (active_twaps h) !! id
             = match active_twaps h !! id with
               | Some c => if expired now c then None else Some c
               | None => None
               end).
  { intros id. destruct (active_twaps h !! id) as [c|] eqn:Hc.
    - destruct (expired now c) eqn:He.
      + apply map_lookup_filter_None. right. intros x Hx Hkeep.
        rewrite Hc in Hx. injection Hx as <-. apply Hkeep. exact He.
      + apply map_lookup_filter_Some. split; [exact Hc|].
        cbn. rewrite He. discriminate.
    - apply map_lookup_filter_None. left. exact Hc. }
  split; [|split; [|split; [|split]]].
  - intros id c t Hc Hstatus Htime Hold. rewrite Hlookup, Hc.
    unfold expired. rewrite Htime.
    destruct (Z.ltb_spec 3600 (now - t)); [|lia].
    destruct Hstatus as [-> | ->]; reflexivity.
  - intros id c Hc Hkeep. rewrite Hlookup, Hc. unfold expired.
    destruct Hkeep as [[Hdone Hfailed] | [Htime | (t & Htime & Hrecent)]].
    + rewrite !bool_decide_eq_false_2 by assumption. reflexivity.
    + rewrite Htime, andb_false_r. reflexivity.
    + rewrite Htime.
      destruct (Z.ltb_spec 3600 (now - t)); [lia|].
      rewrite andb_false_r. reflexivity.
  - intros id Hc. rewrite Hlookup, Hc. reflexivity.
  - rewrite <- map_size_disj_union
      by apply (map_disjoint_filter_complement
                  (fun kv : string * twap_config num =>
                     expired now kv.2 = true)).
    rewrite (map_filter_union_complement
               (fun kv : string * twap_config num => expired now kv.2 = true)).
    reflexivity.
  - reflexivity.
Qed.

(** The TWAP of the scenario ended, COMPLETED, at 1700000600: a clean-up
    3600 seconds later keeps it, a clean-up one second after that removes
    it; the stopped TWAP of the scenario is kept a year later. *)
Lemma cleanup_removes_expired_twaps_witness :
  (exists c : twap_config float,
      active_twaps
        (snd (cleanup_completed_twaps 1700004200 Scenario.twap_completed))
        !! Scenario.twap_name = Some c
      /\ twap_status c = COMPLETED)
  /\ active_twaps
       (snd (cleanup_completed_twaps 1700004201 Scenario.twap_completed))
       !! Scenario.twap_name = None
  /\ (exists c : twap_config float,
        active_twaps
          (snd (cleanup_completed_twaps 1731536000 Scenario.twap_stopped))
          !! Scenario.twap_name = Some c
        /\ twap_status c = STOPPED).
Proof.
  assert (Hc : exists c : twap_config float,
             active_twaps Scenario.twap_completed !! Scenario.twap_name
             = Some c
             /\ twap_status c = COMPLETED
             /\ end_time c = Some 1700000600).
  { eexists. split; [vm_compute; reflexivity|]. split; reflexivity. }
  destruct Hc as (c & Hc & Hstatus & Htime).
  assert (Hs : exists c : twap_config float,
             active_twaps Scenario.twap_stopped !! Scenario.twap_name
             = Some c
             /\ twap_status c = STOPPED).
  { eexists. split; [vm_compute; reflexivity | reflexivity]. }
  destruct Hs as (s & Hs & Hstopped).
  split; [|split].
  - exists c. split; [|exact Hstatus].
    apply (proj1 (proj2 (cleanup_removes_expired_twaps (num := float)
                           1700004200 Scenario.twap_completed))
             Scenario.twap_name c Hc).
    right. right. exists 1700000600. split; [exact Htime | lia].
  - apply (proj1 (cleanup_removes_expired_twaps (num := float) 1700004201
                    Scenario.twap_completed)
             Scenario.twap_name c 1700000600 Hc (or_introl Hstatus) Htime).
    lia.
  - exists s. split; [|exact Hstopped].
    apply (proj1 (proj2 (cleanup_removes_expired_twaps (num := float)
                           1731536000 Scenario.twap_stopped))
             Scenario.twap_name s Hs).
    left. rewrite Hstopped. split; discriminate.
Defined.
End TWAPMore.

(* ================================================================== *)
(** * Further properties of the validator *)
(* ================================================================== *)

Module ValidationMore.
Import Py ArithFacts ArithMore Validation ValidationFacts.

(** ** The rule table *)

(** Every bound of the table is a number, and every tick size a positive
    finite one. *)
Lemma rules_are_numbers (key : string) (r : symbol_rules) :
  rules_in valid_symbols key = Some r ->
  is_number (min_qty r) /\ is_number (max_qty r)
  /\ exists (m : positive) (e : Z),
       Prim2SF (tick_size r) = S754_finite false m e.
Proof.
  unfold valid_symbols. cbn [rules_in].
  repeat (destruct (String.eqb _ key);
          [intros [= <-]; unfold is_number; cbn [min_qty max_qty tick_size];
           repeat split;
           try (vm_compute; discriminate);
           eexists _, _; vm_compute; reflexivity|]).
  discriminate.
Qed.

Lemma zero_is_number : is_number 0%float.
Proof. vm_compute. discriminate. Qed.

Lemma not_number_nan (x : float) : ~ is_number x -> Prim2SF x = S754_nan.
Proof.
  unfold is_number. intros Hx.
  destruct (Prim2SF x); try (exfalso; apply Hx; discriminate). reflexivity.
Qed.

(** ** Quantities *)

(** X15: For a symbol of the table, a quantity that is a number is accepted
    exactly when it is positive and within the bounds of the symbol; a NaN
    quantity is accepted, every comparison with it being false. *)
Theorem quantity_bounds (symbol : string) (quantity : float)
    (r : symbol_rules) :
  validate_symbol symbol = true ->
  rules_in valid_symbols (upper symbol) = Some r ->
  (is_number quantity ->
   validate_quantity symbol quantity
   = Some (PrimFloat.ltb 0 quantity
           && PrimFloat.leb (min_qty r) quantity
           && PrimFloat.leb quantity (max_qty r)))
  /\ (~ is_number quantity -> validate_quantity symbol quantity = Some true).
Proof.
  intros Hsym Hr. unfold validate_quantity. rewrite Hsym, Hr. cbn [negb].
  destruct (rules_are_numbers _ _ Hr) as (Hmin & Hmax & _).
  split.
  - intros Hq.
    rewrite (leb_negb_ltb quantity 0 Hq zero_is_number).
    rewrite (leb_negb_ltb (min_qty r) quantity Hmin Hq).
    rewrite (leb_negb_ltb quantity (max_qty r) Hq Hmax).
    destruct (PrimFloat.ltb 0 quantity); [|reflexivity].
    destruct (PrimFloat.ltb quantity (min_qty r)); [reflexivity|].
    destruct (PrimFloat.ltb (max_qty r) quantity); reflexivity.
  - intros Hq.
    destruct (nan_comparisons quantity 0 Hq) as (-> & _).
    destruct (nan_comparisons quantity (min_qty r) Hq) as (_ & -> & _).
    destruct (nan_comparisons quantity (max_qty r) Hq) as (_ & _ & _ & ->).
    reflexivity.
Qed.

(** On BTCUSDT, 0.5 is accepted, 2000 is above the maximum, and a NaN is
    accepted. *)
Lemma quantity_bounds_witness :
  validate_quantity "btcusdt" 0.5 = Some true
  /\ validate_quantity "btcusdt" 2000 = Some false
  /\ validate_quantity "btcusdt" nan = Some true.
Proof.
  assert (Hsym : validate_symbol "btcusdt" = true)
    by (vm_compute; reflexivity).
  assert (Hr : rules_in valid_symbols (upper "btcusdt")
               = Some {| min_qty := 0.001; max_qty := 1000;
                         tick_size := 0.01 |})
    by (vm_compute; reflexivity).
  split; [|split].
  - rewrite (proj1 (quantity_bounds "btcusdt" 0.5 _ Hsym Hr)).
    + vm_compute. reflexivity.
    + vm_compute. discriminate.
  - rewrite (proj1 (quantity_bounds "btcusdt" 2000 _ Hsym Hr)).
    + vm_compute. reflexivity.
    + vm_compute. discriminate.
  - apply (proj2 (quantity_bounds "btcusdt" nan _ Hsym Hr)).
    intros Hnan. apply Hnan. vm_compute. reflexivity.
Defined.

(** ** Symbols with surrounding white space *)

(** X16: [validate_symbol] strips the symbol before it looks it up, the
    quantity and price validators do not: for an accepted symbol whose
    upper-case form is not a key of the table (a padded one), a positive
    quantity or price makes them raise [KeyError], and with them
    [validate_order] and [validate_oco_order]. *)
Theorem padded_symbol_raises (symbol : string) :
  validate_symbol symbol = true ->
  rules_in valid_symbols (upper symbol) = None ->
  (forall quantity : float,
      PrimFloat.leb quantity 0 = false ->
      validate_quantity symbol quantity = None)
  /\ (forall price : float,
        PrimFloat.leb price 0 = false ->
        validate_price symbol (Some price) = None)
  /\ (forall (quantity : float) (price : option float)
        (side order_type : string),
        PrimFloat.leb quantity 0 = false ->
        validate_order symbol quantity price side order_type = None)
  /\ (forall (quantity price stop_price stop_limit_price : float)
        (side : string),
        PrimFloat.leb quantity 0 = false ->
        validate_oco_order symbol quantity price stop_price stop_limit_price
          side = None).
Proof.
  intros Hsym Hr.
  assert (Hq : forall quantity : float,
             PrimFloat.leb quantity 0 = false ->
             validate_quantity symbol quantity = None).
  { intros quantity Hpos. unfold validate_quantity.
    rewrite Hsym, Hpos, Hr. reflexivity. }
  split; [exact Hq|]. split; [|split].
  - intros price Hpos. unfold validate_price.
    rewrite Hsym, Hpos, Hr. reflexivity.
  - intros quantity price side order_type Hpos. unfold validate_order.
    rewrite (Hq quantity Hpos). reflexivity.
  - intros quantity price stop_price stop_limit_price side Hpos.
    unfold validate_oco_order, basic_validations.
    rewrite (Hq quantity Hpos). reflexivity.
Qed.

(** The symbol [" btcusdt"] is accepted, and its quantity 1 raises. *)
Lemma padded_symbol_raises_witness :
  validate_symbol " btcusdt" = true
  /\ validate_quantity " btcusdt" 1 = None.
Proof.
  split; [vm_compute; reflexivity|].
  apply (proj1 (padded_symbol_raises " btcusdt" eq_refl eq_refl)).
  vm_compute. reflexivity.
Defined.

(** ** Prices that are not finite *)

(** X17: For a symbol of the table, a price that is a NaN or plus infinity
    passes the sign check and makes [round] raise: [validate_price] does
    not return, and neither does [validate_oco_order] when the quantity
    validator returned. *)
Theorem price_not_finite_raises (symbol : string) (price : float)
    (r : symbol_rules) :
  validate_symbol symbol = true ->
  rules_in valid_symbols (upper symbol) = Some r ->
  ~ is_number price \/ price = infinity ->
  validate_price symbol (Some price) = None
  /\ forall (quantity stop_price stop_limit_price : float) (side : string),
       validate_oco_order symbol quantity price stop_price stop_limit_price
         side = None.
Proof.
  intros Hsym Hr Hprice.
  destruct (rules_are_numbers _ _ Hr) as (_ & _ & m & e & Htick).
  assert (Hraise : validate_price symbol (Some price) = None).
  { unfold validate_price. rewrite Hsym, Hr. cbn [negb].
    assert (Hsign : PrimFloat.leb price 0 = false).
    { destruct Hprice as [Hnan | ->].
      - apply (nan_comparisons price 0 Hnan).
      - vm_compute. reflexivity. }
    rewrite Hsign.
    assert (Hround : py_round (price / tick_size r) = None).
    { unfold py_round. rewrite div_spec, Htick.
      destruct Hprice as [Hnan | ->].
      - rewrite (not_number_nan _ Hnan). reflexivity.
      - reflexivity. }
    rewrite Hround. reflexivity. }
  split; [exact Hraise|].
  intros quantity stop_price stop_limit_price side.
  unfold validate_oco_order, basic_validations. rewrite Hraise.
  destruct (validate_quantity symbol quantity); reflexivity.
Qed.

(** An infinite price on BTCUSDT. *)
Lemma price_not_finite_raises_witness :
  validate_price "BTCUSDT" (Some infinity) = None.
Proof.
  apply (price_not_finite_raises "BTCUSDT" infinity
           {| min_qty := 0.001; max_qty := 1000; tick_size := 0.01 |}).
  - vm_compute. reflexivity.
  - vm_compute. reflexivity.
  - right. reflexivity.
Defined.

(** ** Strategy parameters *)

(** X18: Parameters that [validate_twap_parameters] accepts have at least
    two intervals and no more intervals than minutes, and the division of
    the quantity in [start_twap] does not raise on them.  When
    [duration_minutes / intervals] does not overflow either, [start_twap]
    registers a RUNNING TWAP under the new id, whose slice is the quotient
    the validator checked, not [<= 0]; when it overflows, [start_twap]
    returns [None] and registers nothing, although the validator accepted
    the parameters. *)
Theorem validated_twap_starts (total : float) (minutes n : Z)
    (sym sd otype : string) (limit : option float) (now : Z)
    (h : TWAP.TWAPOrderHandler float) :
  validate_twap_parameters total minutes n = Some true ->
  let id := TWAP.make_twap_id (TWAP.twap_counter h + 1) now in
  let h1 := {| TWAP.active_twaps := TWAP.active_twaps h;
               TWAP.twap_counter := TWAP.twap_counter h + 1 |} in
  2 <= n <= minutes
  /\ float_promotes n = true
  /\ match float_ratio minutes n with
     | Some duration =>
         exists c : TWAP.twap_config float,
           TWAP.start_twap sym sd total minutes n otype limit now h
           = (Some id, TWAP.set_twap id c h1)
           /\ TWAP.twap_status c = RUNNING
           /\ TWAP.intervals c = n
           /\ TWAP.interval_duration c = duration
           /\ TWAP.quantity_per_interval c = (total / float_of_Z n)%float
           /\ PrimFloat.leb (TWAP.quantity_per_interval c) 0 = false
     | None =>
         TWAP.start_twap sym sd total minutes n otype limit now h
         = (None, h1)
     end.
Proof.
  unfold validate_twap_parameters, truediv_int.
  destruct (PrimFloat.leb total 0); [discriminate|].
  destruct (Z.ltb_spec minutes 1); [discriminate|].
  destruct (Z.ltb_spec n 2); [discriminate|].
  destruct (Z.ltb_spec minutes n); [discriminate|].
  destruct (Z.eqb_spec n 0); [lia|].
  change (promotes n) with (float_promotes n).
  destruct (float_promotes n) eqn:Hfits; [|discriminate].
  change (quot total (of_int n)) with (total / float_of_Z n)%float.
  destruct (PrimFloat.leb (total / float_of_Z n) 0) eqn:Hslice;
    [discriminate|].
  intros _. cbv zeta. split; [lia|]. split; [reflexivity|].
  unfold TWAP.start_twap, truediv_int, truediv_ints.
  destruct (Z.eqb_spec n 0); [lia|].
  change (promotes n) with (float_promotes n). rewrite Hfits.
  change (ratio minutes n) with (float_ratio minutes n).
  destruct (float_ratio minutes n) as [duration|]; [|reflexivity].
  eexists. split; [reflexivity|]. cbn. auto 6.
Qed.

(** A quantity of 10 over 10 minutes in 5 intervals is started with slices
    of 2; a quantity of 1 over [10 ^ 400] minutes in 2 intervals is
    accepted by the validator and not started. *)
Lemma validated_twap_starts_witness :
  (exists c : TWAP.twap_config float,
      TWAP.active_twaps
        (snd (TWAP.start_twap "BTCUSDT" "BUY" 10%float 10 5 "MARKET" None
                1700000000 Scenario.no_twaps))
        !! "TWAP_1_1700000000" = Some c
      /\ TWAP.quantity_per_interval c = 2%float
      /\ TWAP.interval_duration c = 2%float)
  /\ validate_twap_parameters 1%float (10 ^ 400) 2 = Some true
  /\ fst (TWAP.start_twap "BTCUSDT" "BUY" 1%float (10 ^ 400) 2 "MARKET" None
            1700000000 Scenario.no_twaps) = None.
Proof.
  split; [|split].
  - destruct (validated_twap_starts 10%float 10 5 "BTCUSDT" "BUY" "MARKET"
                None 1700000000 Scenario.no_twaps)
      as (_ & _ & Hstart).
    + vm_compute. reflexivity.
    + hnf in Hstart.
      destruct Hstart as (c & Hstart & _ & _ & Hduration & Hslice & _).
      exists c. split; [|split].
      * rewrite Hstart. cbn [snd]. apply TWAPFacts.lookup_set_twap.
      * rewrite Hslice. vm_compute. reflexivity.
      * exact Hduration.
  - vm_compute. reflexivity.
  - destruct (validated_twap_starts 1%float (10 ^ 400) 2 "BTCUSDT" "BUY"
                "MARKET" None 1700000000 Scenario.no_twaps)
      as (_ & _ & Hstart).
    + vm_compute. reflexivity.
    + assert (Hover : float_ratio (10 ^ 400) 2 = None)
        by (vm_compute; reflexivity).
      rewrite Hover in Hstart. rewrite Hstart. reflexivity.
Defined.

(** The level counts the validator accepts are promoted without
    overflow. *)
Lemma level_counts_promote (z : Z) :
  0 <= z <= 50 -> float_promotes z = true.
Proof.
  intros Hz.
  assert (Hall : forallb (fun k : nat => float_promotes (Z.of_nat k))
                   (seq 0 51) = true) by (vm_compute; reflexivity).
  rewrite List.forallb_forall in Hall. specialize (Hall (Z.to_nat z)).
  rewrite Z2Nat.id in Hall by lia. apply Hall. apply List.in_seq. lia.
Qed.

(** X19: Parameters that [validate_grid_parameters] accepts have between 3 and
    50 levels, and the two divisions of [start_grid] do not raise on them:
    the configuration it builds is ACTIVE, has that many levels, and its
    price increment is the quotient the validator checked, not [<= 0]. *)
Theorem validated_grid_configures (upper lower : float) (n : Z)
    (total : float) (id sym gtype : string) (tp : option float) (now : Z) :
  validate_grid_parameters upper lower n total = true ->
  3 <= n <= 50
  /\ exists g : Grid.grid_config float,
       Grid.new_grid_config id sym upper lower n total gtype tp now = Some g
       /\ Grid.grid_status g = ACTIVE
       /\ length (Grid.levels g) = Z.to_nat n
       /\ Grid.price_increment g
          = ((upper - lower) / float_of_Z (n - 1))%float
       /\ PrimFloat.leb (Grid.price_increment g) 0 = false.
Proof.
  unfold validate_grid_parameters.
  destruct (PrimFloat.leb upper lower); [discriminate|].
  destruct (Z.ltb_spec n 3); [discriminate|].
  destruct (Z.ltb_spec 50 n); [discriminate|].
  destruct (PrimFloat.leb total 0); [discriminate|].
  destruct (PrimFloat.leb ((upper - lower) / float_of_Z (n - 1)) 0)
    eqn:Hstep; [discriminate|].
  intros _. split; [lia|].
  unfold Grid.new_grid_config, truediv_int.
  destruct (Z.eqb_spec (n - 1) 0); [lia|].
  destruct (Z.eqb_spec n 0); [lia|].
  change (promotes (n - 1)) with (float_promotes (n - 1)).
  change (promotes n) with (float_promotes n).
  rewrite !level_counts_promote by lia.
  eexists. split; [reflexivity|]. cbn [Grid.grid_status Grid.levels
    Grid.price_increment].
  split; [reflexivity|]. split.
  - unfold Grid.grid_levels_data. rewrite length_fmap, length_seq.
    reflexivity.
  - split; [reflexivity | exact Hstep].
Qed.

(** The grid of the scenario: 5 levels over [100, 200], increment 25. *)
Lemma validated_grid_configures_witness :
  exists g : Grid.grid_config float,
    Grid.new_grid_config Scenario.grid_name "BTCUSDT" 200%float 100%float 5
      10%float "NEUTRAL" None 1700000000 = Some g
    /\ Grid.price_increment g = 25%float.
Proof.
  destruct (validated_grid_configures 200%float 100%float 5 10%float
              Scenario.grid_name "BTCUSDT" "NEUTRAL" None 1700000000)
    as (_ & g & Hg & _ & _ & Hstep & _).
  - vm_compute. reflexivity.
  - exists g. split; [exact Hg|]. rewrite Hstep. vm_compute. reflexivity.
Defined.

(** ** Time frames *)

Lemma In_lstrip (c : ascii) (s : string) :
  In c (list_ascii_of_string (lstrip s)) -> In c (list_ascii_of_string s).
Proof.
  induction s as [|a rest IH]; [trivial|].
  cbn [lstrip]. destruct (is_space a); [|trivial].
  intros H. right. apply IH. exact H.
Qed.

Lemma In_rstrip (c : ascii) (s : string) :
  In c (list_ascii_of_string (rstrip s)) -> In c (list_ascii_of_string s).
Proof.
  induction s as [|a rest IH]; [trivial|].
  cbn [rstrip]. destruct (rstrip rest) as [|b kept].
  - destruct (is_space a); cbn; [tauto|]. intros [<- | []]. left. reflexivity.
  - cbn [list_ascii_of_string]. intros [<- | H]; [left; reflexivity|].
    right. apply IH. exact H.
Qed.

Lemma In_lower (c : ascii) (s : string) :
  In c (list_ascii_of_string (lower s)) -> exists a : ascii, c = lower_char a.
Proof.
  induction s as [|a rest IH]; [intros []|].
  cbn. intros [<- | H]; [exists a; reflexivity | apply IH; exact H].
Qed.

Lemma lower_char_not_M (a : ascii) : lower_char a <> "M"%char.
Proof.
  destruct a as [[] [] [] [] [] [] [] []]; vm_compute; discriminate.
Qed.

Lemma lower_upper_char (a : ascii) : lower_char (upper_char a) = lower_char a.
Proof.
  destruct a as [[] [] [] [] [] [] [] []]; vm_compute; reflexivity.
Qed.

Lemma lower_upper (s : string) : lower (upper s) = lower s.
Proof.
  induction s as [|a rest IH]; [reflexivity|].
  cbn. rewrite lower_upper_char, IH. reflexivity.
Qed.

(** X20: [validate_timeframe] lowers the time frame before it looks it up, so
    the month entry ["1M"] of the list is never matched: a time frame is
    accepted exactly when it reads, lowered and stripped, as one of the
    fourteen other entries, and the case of its letters is ignored, which
    makes the month ["1M"] accepted as the minute ["1m"]. *)
Theorem monthly_timeframe_is_never_matched (timeframe : string) :
  strip (lower timeframe) <> "1M"
  /\ validate_timeframe timeframe
     = bool_decide
         (strip (lower timeframe)
          ∈ ["1m"; "3m"; "5m"; "15m"; "30m"; "1h"; "2h"; "4h"; "6h"; "8h";
             "12h"; "1d"; "3d"; "1w"])
  /\ validate_timeframe (upper timeframe) = validate_timeframe timeframe.
Proof.
  assert (Hnever : strip (lower timeframe) <> "1M").
  { intros E.
    assert (HM : In "M"%char (list_ascii_of_string (strip (lower timeframe))))
      by (rewrite E; right; left; reflexivity).
    apply In_rstrip, In_lstrip, In_lower in HM. destruct HM as [a Ha].
    exact (lower_char_not_M a (eq_sym Ha)). }
  split; [exact Hnever|]. split.
  - unfold validate_timeframe.
    change valid_timeframes
      with (["1m"; "3m"; "5m"; "15m"; "30m"; "1h"; "2h"; "4h"; "6h"; "8h";
             "12h"; "1d"; "3d"; "1w"] ++ ["1M"])%list.
    apply bool_decide_ext. rewrite elem_of_app, list_elem_of_singleton.
    tauto.
  - unfold validate_timeframe. rewrite lower_upper. reflexivity.
Qed.

(** ** Complete orders *)

Lemma strip_stop_limit : strip "STOP_LIMIT" = "STOP_LIMIT".
Proof. vm_compute. reflexivity. Qed.

(** X21: [validate_order] special-cases the type STOP_LIMIT, which
    [valid_order_types] does not contain: an order of that type is never
    accepted, with or without a price. *)
Theorem stop_limit_order_never_validates (symbol : string)
    (quantity : float) (price : option float) (side order_type : string) :
  upper order_type = "STOP_LIMIT" ->
  validate_order symbol quantity price side order_type <> Some true.
Proof.
  intros Htype. unfold validate_order.
  destruct (validate_quantity symbol quantity) as [q|]; [|discriminate].
  destruct (validate_price symbol price) as [p|]; [|discriminate].
  assert (Hrejected : validate_order_type order_type = false).
  { unfold validate_order_type. rewrite Htype, strip_stop_limit.
    vm_compute. reflexivity. }
  rewrite Hrejected.
  destruct (bool_decide (upper order_type ∈ ["LIMIT"; "STOP_LIMIT"])
            && bool_decide (price = None)); [discriminate|].
  cbn. rewrite !andb_false_r. discriminate.
Qed.

(** A stop-limit order on BTCUSDT with a price on the tick grid. *)
Lemma stop_limit_order_never_validates_witness :
  validate_order "BTCUSDT" 1 (Some 100%float) "BUY" "stop_limit"
  = Some false.
Proof.
  pose proof (stop_limit_order_never_validates "BTCUSDT" 1 (Some 100%float)
                "BUY" "stop_limit" eq_refl) as Hnever.
  destruct (validate_order "BTCUSDT" 1 (Some 100%float) "BUY" "stop_limit")
    as [[|]|] eqn:Hv.
  - exfalso. apply Hnever. reflexivity.
  - reflexivity.
  - vm_compute in Hv. discriminate Hv.
Defined.

(** X22: The price requirement of a limit order compares [order_type.upper()],
    not stripped, while [validate_order_type] strips: a LIMIT type written
    with surrounding white space is validated without a price exactly as a
    MARKET order is. *)
Theorem padded_limit_needs_no_price (symbol : string) (quantity : float)
    (side order_type : string) :
  strip (upper order_type) = "LIMIT" ->
  upper order_type <> "LIMIT" ->
  validate_order symbol quantity None side order_type
  = validate_order symbol quantity None side "MARKET".
Proof.
  intros Hstripped Hpadded. unfold validate_order.
  destruct (validate_quantity symbol quantity) as [q|]; [|reflexivity].
  cbn [validate_price].
  assert (Htype : validate_order_type order_type = true).
  { unfold validate_order_type. rewrite Hstripped. vm_compute. reflexivity. }
  assert (Hspecial : bool_decide (upper order_type ∈ ["LIMIT"; "STOP_LIMIT"])
                     = false).
  { apply bool_decide_eq_false_2. rewrite !elem_of_cons, elem_of_nil.
    intros [E | [E | []]]; [exact (Hpadded E)|].
    rewrite E, strip_stop_limit in Hstripped. discriminate Hstripped. }
  rewrite Htype, Hspecial. reflexivity.
Qed.

(** The type ["limit "] on BTCUSDT: accepted without a price. *)
Lemma padded_limit_needs_no_price_witness :
  validate_order "BTCUSDT" 1 None "BUY" "limit " = Some true.
Proof.
  rewrite (padded_limit_needs_no_price "BTCUSDT" 1 "BUY" "limit ").
  - vm_compute. reflexivity.
  - vm_compute. reflexivity.
  - vm_compute. discriminate.
Defined.
End ValidationMore.

(* ================================================================== *)
(** * Further properties of the risk and reward computation *)
(* ================================================================== *)

Module OCOMore.
Import Py ArithFacts ArithMore OCO OCOFacts.
Local Open Scope float_scope.

(** A difference that is a number has operands that are numbers. *)
Lemma difference_number (x y : float) :
  is_number (x - y) -> is_number x /\ is_number y.
Proof.
  unfold is_number. rewrite sub_spec. intros Hd. split; intros E; apply Hd.
  - rewrite E. reflexivity.
  - rewrite E. destruct (Prim2SF x); reflexivity.
Qed.

(** What is above a number is a number. *)
Lemma ltb_number (x y : float) : PrimFloat.ltb x y = true -> is_number y.
Proof.
  unfold is_number. rewrite ltb_spec. unfold SFltb. intros Hlt E.
  rewrite E in Hlt. destruct (Prim2SF x); discriminate Hlt.
Qed.

Lemma leb_number (x y : float) : PrimFloat.leb x y = true -> is_number y.
Proof.
  unfold is_number. rewrite leb_spec. unfold SFleb. intros Hle E.
  rewrite E in Hle. destruct (Prim2SF x); discriminate Hle.
Qed.

(** The analysis at an entry price of zero: a percentage raises. *)
Lemma calculate_risk_reward_ratio_zero
    (entry_price take_profit_price stop_loss_price : float) :
  is_zero entry_price = true ->
  calculate_risk_reward_ratio entry_price take_profit_price stop_loss_price
  = None.
Proof.
  intros Hentry. unfold calculate_risk_reward_ratio, truediv.
  rewrite Hentry.
  destruct (PrimFloat.ltb 0 (risk_of entry_price take_profit_price
                               stop_loss_price)) eqn:Hrisk.
  - rewrite (positive_is_nonzero _ Hrisk). reflexivity.
  - reflexivity.
Qed.

(** X23: The empty dictionary is returned exactly when the entry price is zero
    (plus or minus): no other input makes the computation raise. *)
Theorem empty_analysis_iff_zero_entry
    (entry_price take_profit_price stop_loss_price : float) :
  calculate_risk_reward_ratio entry_price take_profit_price stop_loss_price
  = None
  <-> is_zero entry_price = true.
Proof.
  split.
  - intros Hnone. destruct (is_zero entry_price) eqn:Hentry; [reflexivity|].
    rewrite (calculate_risk_reward_ratio_nonzero _ _ _ Hentry) in Hnone.
    discriminate Hnone.
  - apply calculate_risk_reward_ratio_zero.
Qed.

(** X24: An analysis is flagged favorable only when the risk is positive, the
    ratio is the quotient of the reward by the risk, and the three prices
    are numbers: a NaN price is never favorable. *)
Theorem favorable_analysis
    (entry_price take_profit_price stop_loss_price : float) (a : analysis) :
  calculate_risk_reward_ratio entry_price take_profit_price stop_loss_price
  = Some a ->
  is_favorable a = true ->
  PrimFloat.ltb 0 (risk_amount a) = true
  /\ risk_reward_ratio a = reward_amount a / risk_amount a
  /\ is_number entry_price /\ is_number take_profit_price
  /\ is_number stop_loss_price.
Proof.
  intros Ha Hfav.
  destruct (is_zero entry_price) eqn:Hentry.
  { rewrite (calculate_risk_reward_ratio_zero _ _ _ Hentry) in Ha.
    discriminate Ha. }
  rewrite (calculate_risk_reward_ratio_nonzero _ _ _ Hentry) in Ha.
  injection Ha as <-. cbn in Hfav |- *.
  destruct (PrimFloat.ltb 0 (risk_of entry_price take_profit_price
                               stop_loss_price)) eqn:Hrisk;
    [|vm_compute in Hfav; discriminate Hfav].
  split; [reflexivity|]. split; [reflexivity|].
  apply leb_number, quotient_number in Hfav.
  apply ltb_number in Hrisk.
  unfold reward_of in Hfav. unfold risk_of in Hrisk.
  destruct (long_trade entry_price take_profit_price);
    apply difference_number in Hfav; apply difference_number in Hrisk;
    tauto.
Qed.

(** The long trade from 100 to 120 with the stop at 90 is favorable. *)
Lemma favorable_analysis_witness :
  PrimFloat.ltb 0 (risk_of 100 120 90) = true.
Proof.
  destruct (favorable_analysis 100 120 90
              {| risk_amount := risk_of 100 120 90;
                 reward_amount := reward_of 100 120;
                 risk_reward_ratio := 2;
                 risk_percentage := 10;
                 reward_percentage := 20;
                 is_favorable := true |}) as [Hrisk _].
  - vm_compute. reflexivity.
  - reflexivity.
  - exact Hrisk.
Defined.
End OCOMore.
